(** * Prompt backtest engine: response normaliser, decision parser,
      change classifier, item worker, task coordinator and retry route.

    Shallow embedding of
      backend/services/prompt_backtest_service.py
      backend/api/prompt_backtest_routes.py
    Python values are a tagged type, Python strings are lists of code
    points, exceptions are an explicit result type, and every block that
    ends in one [db.commit()] is one function on the database. *)

From Stdlib Require Import NArith ZArith Bool Lia String Ascii DecimalString.
From stdpp Require Import base list.

Set Warnings "-register-all".
Local Open Scope N_scope.
Local Open Scope nat_scope.
Local Open Scope list_scope.

(* ================================================================== *)
(** ** Python strings *)
(* ================================================================== *)

Module PyStr.

(** A [str] is a sequence of Unicode code points; slicing and [len] count
    code points. *)
Definition pystr := list N.

(** ASCII literal to [str]. *)
Definition u (s : string) : pystr := map N_of_ascii (list_ascii_of_string s).

Fixpoint str_eqb (a b : pystr) : bool :=
  match a, b with
  | [], [] => true
  | x :: a', y :: b' => N.eqb x y && str_eqb a' b'
  | _, _ => false
  end.

(** [s.startswith(p)] *)
Fixpoint is_prefix (p s : pystr) : bool :=
  match p, s with
  | [], _ => true
  | _ :: _, [] => false
  | a :: p', b :: s' => N.eqb a b && is_prefix p' s'
  end.

(** [sub in s] *)
Fixpoint py_in (sub s : pystr) : bool :=
  is_prefix sub s ||
  match s with
  | [] => false
  | _ :: s' => py_in sub s'
  end.

(** [s.split(sep)] for a non-empty [sep] (every call site passes a
    literal).  [skip] counts the code points of a separator that was just
    matched and still has to be passed over. *)
Fixpoint split_go (sep : pystr) (skip : nat) (s : pystr) : list pystr :=
  match s with
  | [] => [[]]
  | c :: s' =>
      match skip with
      | S k => split_go sep k s'
      | O =>
          if is_prefix sep s then [] :: split_go sep (length sep - 1) s'
          else match split_go sep 0 s' with
               | h :: t => (c :: h) :: t
               | [] => [[c]]
               end
      end
  end.

Definition py_split (sep s : pystr) : list pystr := split_go sep 0 s.

(** [s.replace(old, new)] for a non-empty [old]. *)
Fixpoint replace_go (old new : pystr) (skip : nat) (s : pystr) : pystr :=
  match s with
  | [] => []
  | c :: s' =>
      match skip with
      | S k => replace_go old new k s'
      | O =>
          if is_prefix old s then new ++ replace_go old new (length old - 1) s'
          else c :: replace_go old new 0 s'
      end
  end.

Definition py_replace (old new s : pystr) : pystr := replace_go old new 0 s.

(** Code points for which [str.isspace()] holds; [str.strip()] removes
    them at both ends. *)
Definition is_space (c : N) : bool :=
  ((9 <=? c) && (c <=? 13) || (28 <=? c) && (c <=? 32) ||
   (c =? 133) || (c =? 160) || (c =? 5760) ||
   (8192 <=? c) && (c <=? 8202) || (c =? 8232) || (c =? 8233) ||
   (c =? 8239) || (c =? 8287) || (c =? 12288))%N.

Fixpoint lstrip (s : pystr) : pystr :=
  match s with
  | [] => []
  | c :: s' => if is_space c then lstrip s' else s
  end.

Definition rstrip (s : pystr) : pystr := rev (lstrip (rev s)).

Definition py_strip (s : pystr) : pystr := rstrip (lstrip s).

(** [sep.join(parts)] on strings. *)
Fixpoint py_join (sep : pystr) (parts : list pystr) : pystr :=
  match parts with
  | [] => []
  | [x] => x
  | x :: t => x ++ sep ++ py_join sep t
  end.

(** [s[:n]] *)
Definition slice_to (n : nat) (s : pystr) : pystr := firstn n s.

(** [str.lower()] on the ASCII range; the service receives the full
    Unicode mapping as a parameter and this is its ASCII instance. *)
Definition ascii_lower_cp (c : N) : N :=
  if ((65 <=? c) && (c <=? 90))%N then (c + 32)%N else c.

Definition ascii_lower (s : pystr) : pystr := map ascii_lower_cp s.

Definition is_ascii (s : pystr) : bool := forallb (fun c => (c <? 128)%N) s.

(** [str(n)] for a non-negative integer. *)
Definition str_of_nat (n : nat) : pystr :=
  u (NilZero.string_of_uint (Nat.to_uint n)).

End PyStr.
Export PyStr.

(* ================================================================== *)
(** ** Python values and exceptions *)
(* ================================================================== *)

Module Py.

(** What [json.loads] and the provider hand to the service.  A float is
    carried as its IEEE-754 bit pattern; the service never computes with
    it. *)
Inductive pyval : Type :=
| PNone
| PBool (b : bool)
| PInt (z : Z)
| PFloat (bits : Z)
| PStr (s : pystr)
| PList (l : list pyval)
| PDict (d : list (pystr * pyval)).

Definition pydict := list (pystr * pyval).

(** [bool(v)] *)
Definition truthy (v : pyval) : bool :=
  match v with
  | PNone => false
  | PBool b => b
  | PInt z => negb (Z.eqb z 0)
  | PFloat bits => negb (Z.eqb bits 0 || Z.eqb bits (2 ^ 63))
  | PStr s => match s with [] => false | _ => true end
  | PList l => match l with [] => false | _ => true end
  | PDict d => match d with [] => false | _ => true end
  end.

(** [a or b] *)
Definition py_or (a b : pyval) : pyval := if truthy a then a else b.

Definition is_list (v : pyval) : bool :=
  match v with PList _ => true | _ => false end.
Definition is_dict (v : pyval) : bool :=
  match v with PDict _ => true | _ => false end.
Definition is_str (v : pyval) : bool :=
  match v with PStr _ => true | _ => false end.

(** [v == "literal"] *)
Definition eq_str (v : pyval) (s : pystr) : bool :=
  match v with PStr t => str_eqb t s | _ => false end.

(** [v is True] *)
Definition is_True (v : pyval) : bool :=
  match v with PBool true => true | _ => false end.

Fixpoint dict_lookup (k : pystr) (d : pydict) : option pyval :=
  match d with
  | [] => None
  | (k', v) :: d' => if str_eqb k' k then Some v else dict_lookup k d'
  end.

(** [d.get(k, default)] on a dict *)
Definition dict_get (k : pystr) (default : pyval) (d : pydict) : pyval :=
  match dict_lookup k d with Some v => v | None => default end.

(** [k in d] *)
Definition dict_has (k : pystr) (d : pydict) : bool :=
  match dict_lookup k d with Some _ => true | None => false end.

(** [d[k] = v]: overwrite in place, or append a new key. *)
Fixpoint dict_set (k : pystr) (v : pyval) (d : pydict) : pydict :=
  match d with
  | [] => [(k, v)]
  | (k', v') :: d' =>
      if str_eqb k' k then (k', v) :: d' else (k', v') :: dict_set k v d'
  end.

Definition type_name (v : pyval) : pystr :=
  match v with
  | PNone => u "NoneType"
  | PBool _ => u "bool"
  | PInt _ => u "int"
  | PFloat _ => u "float"
  | PStr _ => u "str"
  | PList _ => u "list"
  | PDict _ => u "dict"
  end.

Inductive exn_kind :=
| AttributeError | TypeError | KeyError | IndexError | JSONDecodeError
| OtherException.

(** An exception with the text [str(e)] gives. *)
Record exn := Exn { exn_kind_of : exn_kind; exn_str : pystr }.

Inductive res (A : Type) : Type :=
| Ok (a : A)
| Raise (e : exn).
Arguments Ok {A} a.
Arguments Raise {A} e.

Definition bind {A B} (m : res A) (k : A -> res B) : res B :=
  match m with
  | Ok a => k a
  | Raise e => Raise e
  end.

(** [try: body  except Exception as e: handler e] *)
Definition try_except {A} (body : res A) (handler : exn -> res A) : res A :=
  match body with
  | Ok a => Ok a
  | Raise e => handler e
  end.

Definition attribute_error (v : pyval) (attr : string) : exn :=
  Exn AttributeError
      (u "'" ++ type_name v ++ u "' object has no attribute '" ++ u attr ++ u "'").

Definition not_subscriptable (v : pyval) : exn :=
  Exn TypeError (u "'" ++ type_name v ++ u "' object is not subscriptable").

(** [v.get(k, default)] on an arbitrary value: only dicts have [get]. *)
Definition get_method (v : pyval) (k : pystr) (default : pyval) : res pyval :=
  match v with
  | PDict d => Ok (dict_get k default d)
  | _ => Raise (attribute_error v "get")
  end.

(** [v[0]] on an arbitrary value. *)
Definition index0 (v : pyval) : res pyval :=
  match v with
  | PList (x :: _) => Ok x
  | PList [] => Raise (Exn IndexError (u "list index out of range"))
  | PStr (c :: _) => Ok (PStr [c])
  | PStr [] => Raise (Exn IndexError (u "string index out of range"))
  | PDict _ => Raise (Exn KeyError (u "0"))
  | _ => Raise (not_subscriptable v)
  end.

(** [v[:n]] on an arbitrary value. *)
Definition slice_method (n : nat) (v : pyval) : res pyval :=
  match v with
  | PStr s => Ok (PStr (slice_to n s))
  | PList l => Ok (PList (firstn n l))
  | PDict _ => Raise (Exn TypeError (u "unhashable type: 'slice'"))
  | _ => Raise (not_subscriptable v)
  end.

(** [v.strip()] on an arbitrary value. *)
Definition strip_method (v : pyval) : res pystr :=
  match v with
  | PStr s => Ok (py_strip s)
  | _ => Raise (attribute_error v "strip")
  end.

(** [sep.join(parts)]: every part has to be a [str]. *)
Fixpoint all_strs (parts : list pyval) : option (list pystr) :=
  match parts with
  | [] => Some []
  | PStr s :: t =>
      match all_strs t with Some r => Some (s :: r) | None => None end
  | _ :: _ => None
  end.

Definition join_method (sep : pystr) (parts : list pyval) : res pystr :=
  match all_strs parts with
  | Some ss => Ok (py_join sep ss)
  | None => Raise (Exn TypeError (u "sequence item: expected str instance"))
  end.

End Py.
Export Py.

Notation "'let*' x ':=' e 'in' k" := (bind e (fun x => k))
  (at level 10, x name, e at level 100, k at level 200).

(* ================================================================== *)
(** ** Response normaliser *)
(* ================================================================== *)

Module Normalizer.

Definition nl : pystr := [10%N].
Definition blank_line : pystr := [10%N; 10%N].

(** The loop of [_get_content_from_response] over the content blocks. *)
Fixpoint text_parts (content : list pyval) : list pyval :=
  match content with
  | [] => []
  | block :: rest =>
      match block with
      | PDict b =>
          if eq_str (dict_get (u "type") PNone b) (u "text")
          then dict_get (u "text") (PStr []) b :: text_parts rest
          else text_parts rest
      | _ => text_parts rest
      end
  end.

(** Body of the [try] in [_get_content_from_response]. *)
Definition get_content_body (api_result : pyval) : res pyval :=
  let* choices := get_method api_result (u "choices") (PList []) in
  if truthy choices then
    let* choice0 := index0 choices in
    let* msg := get_method choice0 (u "message") (PDict []) in
    let* content := get_method msg (u "content") (PStr []) in
    match content with
    | PList blocks =>
        let* joined := join_method nl (text_parts blocks) in
        Ok (PStr joined)
    | _ => Ok (py_or content (PStr []))
    end
  else Ok (PStr []).

Definition _get_content_from_response (api_result : pyval) : res pyval :=
  try_except (get_content_body api_result) (fun _ => Ok (PStr [])).

(** [if v and isinstance(v, str) and v.strip(): parts.append(v.strip())] *)
Definition stripped_text (v : pyval) : list pystr :=
  match v with
  | PStr s =>
      if truthy v && truthy (PStr (py_strip s)) then [py_strip s] else []
  | _ => []
  end.

(** Strategy 1: [message.reasoning], then [message.reasoning_content]. *)
Definition reasoning_fields (msg : pydict) : list pystr :=
  flat_map (fun field => stripped_text (dict_get field PNone msg))
           [u "reasoning"; u "reasoning_content"].

(** Strategy 2: blocks of type [thinking] in the content array. *)
Definition thinking_of_block (block : pyval) : list pystr :=
  match block with
  | PDict b =>
      if eq_str (dict_get (u "type") PNone b) (u "thinking")
      then stripped_text (dict_get (u "thinking") PNone b)
      else []
  | _ => []
  end.

Definition thinking_blocks (msg : pydict) : list pystr :=
  match dict_get (u "content") PNone msg with
  | PList content_array => flat_map thinking_of_block content_array
  | _ => []
  end.

(** Strategy 3: entries of [parts] whose [thought] is [True]. *)
Definition thought_of_part (part : pyval) : list pystr :=
  match part with
  | PDict p =>
      if is_True (dict_get (u "thought") PNone p)
      then stripped_text (dict_get (u "text") PNone p)
      else []
  | _ => []
  end.

Definition thought_parts (msg : pydict) : list pystr :=
  match dict_get (u "parts") PNone msg with
  | PList parts_array => flat_map thought_of_part parts_array
  | _ => []
  end.

(** Body of the [try] in [_extract_reasoning_from_response]. *)
Definition extract_reasoning_body (api_result : pyval) : res pystr :=
  let* choices := get_method api_result (u "choices") PNone in
  if negb (truthy choices) || negb (is_list choices)
     || match choices with PList l => Nat.eqb (length l) 0 | _ => false end
  then Ok []
  else
    let* choice_item := index0 choices in
    if negb (is_dict choice_item) then Ok []
    else
      let* msg := get_method choice_item (u "message") PNone in
      match msg with
      | PDict m =>
          let reasoning_parts :=
            reasoning_fields m ++ thinking_blocks m ++ thought_parts m in
          match reasoning_parts with
          | _ :: _ => Ok (py_join blank_line reasoning_parts)
          | [] => Ok []
          end
      | _ => Ok []
      end.

Definition _extract_reasoning_from_response (api_result : pyval) : res pystr :=
  try_except (extract_reasoning_body api_result) (fun _ => Ok []).

End Normalizer.
Export Normalizer.

(* ================================================================== *)
(** ** Decision parser *)
(* ================================================================== *)

Module Parser.

Definition fence : pystr := Eval cbv in u "```".
Definition fence_json : pystr := Eval cbv in u "```json".
Definition k_reasoning : pystr := Eval cbv in u "_reasoning".
Definition k_decisions : pystr := Eval cbv in u "decisions".
Definition k_operation : pystr := Eval cbv in u "operation".

(** [parts[i]] on the list a [split] returned. *)
Definition nth_part (i : nat) (parts : list pystr) : res pystr :=
  match nth_error parts i with
  | Some p => Ok p
  | None => Raise (Exn IndexError (u "list index out of range"))
  end.

(** Step 1: the interior of the first fenced block, if there is one. *)
Definition extract_fenced (cleaned_content : pystr) : res pystr :=
  if py_in fence_json cleaned_content then
    let* after := nth_part 1 (py_split fence_json cleaned_content) in
    let* inside := nth_part 0 (py_split fence after) in
    Ok (py_strip inside)
  else if py_in fence cleaned_content then
    let* after := nth_part 1 (py_split fence cleaned_content) in
    let* inside := nth_part 0 (py_split fence after) in
    Ok (py_strip inside)
  else Ok cleaned_content.

(** The literal of the first [replace] of the "unicode issues" line as
    Python reads it: three straight double quotes open a string that runs
    to the next three, so the pattern is the text between them. *)
Definition quote_pattern : pystr :=
  Eval cbv in u ", '" ++ [34%N] ++ u "').replace(".
Definition dquote : pystr := [34%N].
Definition squote : pystr := [39%N].
Definition space : pystr := [32%N].
Definition hyphen : pystr := [45%N].
Definition en_dash : pystr := [8211%N].
Definition em_dash : pystr := [8212%N].
Definition nb_hyphen : pystr := [8209%N].

(** Step 3: the clean-up before the second [json.loads]. *)
Definition cleanup (cleaned_content : pystr) : pystr :=
  let cleaned :=
    py_replace [9%N] space
      (py_replace [13%N] space (py_replace [10%N] space cleaned_content)) in
  let cleaned := py_replace quote_pattern dquote cleaned in
  let cleaned := py_replace squote squote (py_replace squote squote cleaned) in
  py_replace nb_hyphen hyphen
    (py_replace em_dash hyphen (py_replace en_dash hyphen cleaned)).

(** The [except json.JSONDecodeError] clauses catch this kind only. *)
Definition is_decode_error (e : exn) : bool :=
  match exn_kind_of e with JSONDecodeError => true | _ => false end.

Inductive load_outcome :=
| Strict (decision : pyval)
| AfterCleanup (decision : pyval)
| ParseFailed.

Section WithLoads.

(** [json.loads]: it returns a value, raises [json.JSONDecodeError], or
    raises something else ([RecursionError] on deep nesting, [ValueError]
    on an integer literal beyond the digit limit). *)
Variable json_loads : pystr -> res pyval.

(** Steps 2 and 3.  An exception that is not a [JSONDecodeError] leaves
    both [try] statements. *)
Definition load_with_retry (cleaned_content : pystr) : res load_outcome :=
  match json_loads cleaned_content with
  | Ok decision => Ok (Strict decision)
  | Raise e =>
      if is_decode_error e then
        match json_loads (cleanup cleaned_content) with
        | Ok decision => Ok (AfterCleanup decision)
        | Raise e' => if is_decode_error e' then Ok ParseFailed else Raise e'
        end
      else Raise e
  end.

Definition attach (response : pystr) (d : pydict) : pydict :=
  dict_set k_reasoning (PStr (slice_to 2000 response)) d.

(** Step 4, after [if not decision: return None]. *)
Definition resolve_shape (response : pystr) (decision : pyval) : option pydict :=
  if negb (truthy decision) then None
  else
    match decision with
    | PDict d =>
        match dict_get k_decisions PNone d with
        | PList decisions =>
            match decisions with
            | PDict first :: _ => Some (attach response first)
            | _ => None
            end
        | _ =>
            if dict_has k_operation d then Some (attach response d) else None
        end
    | PList (PDict first :: _) => Some (attach response first)
    | _ => None
    end.

Definition parse_decision_str (response : pystr) : res (option pydict) :=
  let* cleaned_content := extract_fenced (py_strip response) in
  let* loaded := load_with_retry cleaned_content in
  match loaded with
  | Strict decision | AfterCleanup decision =>
      Ok (resolve_shape response decision)
  | ParseFailed => Ok None
  end.

Definition _parse_decision (response : pyval) : res (option pydict) :=
  if negb (truthy response) then Ok None
  else
    match response with
    | PStr r => parse_decision_str r
    | _ => Raise (attribute_error response "strip")
    end.

End WithLoads.

End Parser.
Export Parser.

(* ================================================================== *)
(** ** Change classifier *)
(* ================================================================== *)

Module Classifier.

Section WithLower.

(** [str.lower] *)
Variable str_lower : pystr -> pystr.

Definition lower_method (v : pyval) : res pystr :=
  match v with
  | PStr s => Ok (str_lower s)
  | _ => Raise (attribute_error v "lower")
  end.

Definition of_optional (o : option pystr) : pyval :=
  match o with Some s => PStr s | None => PNone end.

(** Lines "Calculate change" of [_process_and_save_item]. *)
Definition classify_change (decision_operation : pyval)
    (original_operation : option pystr) : res (bool * option pystr) :=
  let* new_op := lower_method (py_or decision_operation (PStr [])) in
  let* orig_op := lower_method (py_or (of_optional original_operation) (PStr [])) in
  let decision_changed := negb (str_eqb orig_op new_op) in
  let change_type :=
    if decision_changed then Some (orig_op ++ u "_to_" ++ new_op) else None in
  Ok (decision_changed, change_type).

End WithLower.

End Classifier.
Export Classifier.

(* ================================================================== *)
(** ** Persistent store *)
(* ================================================================== *)

Module Store.

Inductive task_status := TPending | TRunning | TCompleted | TFailed.
Inductive item_status := IPending | ICompleted | IFailed.

Definition task_status_eqb (a b : task_status) : bool :=
  match a, b with
  | TPending, TPending | TRunning, TRunning
  | TCompleted, TCompleted | TFailed, TFailed => true
  | _, _ => false
  end.

Definition item_status_eqb (a b : item_status) : bool :=
  match a, b with
  | IPending, IPending | ICompleted, ICompleted | IFailed, IFailed => true
  | _, _ => false
  end.

Record Account := {
  acc_id : nat;
  acc_api_key : pystr;
  acc_base_url : pystr;
  acc_model : pystr }.

Record AIDecisionLog := {
  log_id : nat;
  log_wallet_address : option pystr;
  log_hyperliquid_environment : option pystr;
  log_operation : option pystr;
  log_symbol : option pystr;
  log_target_portion : pyval;
  log_reasoning_snapshot : option pystr;
  log_decision_snapshot : option pystr;
  log_realized_pnl : pyval;
  log_decision_time : pyval;
  log_prompt_template_id : option nat }.

Record PromptTemplate := {
  tpl_id : nat;
  tpl_name : pystr;
  tpl_system_template_text : option pystr }.

Record AccountPromptBinding := {
  bnd_account_id : nat;
  bnd_prompt_template_id : option nat }.

(** Row of [prompt_backtest_tasks].  The primary key is the position of
    the row in the table. *)
Record PromptBacktestTask := {
  t_account_id : nat;
  t_wallet_address : option pystr;
  t_environment : option pystr;
  t_name : option pystr;
  t_status : task_status;
  t_total_count : nat;
  t_completed_count : nat;
  t_failed_count : nat;
  t_replace_rules : option pystr;
  t_started_at : option Z;
  t_finished_at : option Z;
  t_error_message : option pystr }.

(** Row of [prompt_backtest_items], keyed by position as well. *)
Record PromptBacktestItem := {
  i_task_id : nat;
  i_original_decision_log_id : nat;
  i_status : item_status;
  i_original_operation : option pystr;
  i_original_symbol : option pystr;
  i_original_target_portion : pyval;
  i_original_reasoning : option pystr;
  i_original_decision_json : option pystr;
  i_original_realized_pnl : pyval;
  i_original_decision_time : pyval;
  i_original_prompt_template_name : option pystr;
  i_modified_prompt : pystr;
  i_new_operation : pyval;
  i_new_symbol : pyval;
  i_new_target_portion : pyval;
  i_new_reasoning : pyval;
  i_new_decision_json : option pystr;
  i_decision_changed : option bool;
  i_change_type : option pystr;
  i_error_message : option pystr }.

Record DB := {
  accounts : list Account;
  decision_logs : list AIDecisionLog;
  templates : list PromptTemplate;
  bindings : list AccountPromptBinding;
  tasks : list PromptBacktestTask;
  items : list PromptBacktestItem }.

Definition with_tasks (f : list PromptBacktestTask -> list PromptBacktestTask)
    (db : DB) : DB :=
  {| accounts := accounts db; decision_logs := decision_logs db;
     templates := templates db; bindings := bindings db;
     tasks := f (tasks db); items := items db |}.

Definition with_items (f : list PromptBacktestItem -> list PromptBacktestItem)
    (db : DB) : DB :=
  {| accounts := accounts db; decision_logs := decision_logs db;
     templates := templates db; bindings := bindings db;
     tasks := tasks db; items := f (items db) |}.

(** [query(Account).filter(Account.id == id).first()] and its siblings. *)
Definition find_account (id : nat) (db : DB) : option Account :=
  List.find (fun a => Nat.eqb (acc_id a) id) (accounts db).
Definition find_log (id : nat) (db : DB) : option AIDecisionLog :=
  List.find (fun l => Nat.eqb (log_id l) id) (decision_logs db).
Definition find_template (id : nat) (db : DB) : option PromptTemplate :=
  List.find (fun t => Nat.eqb (tpl_id t) id) (templates db).
Definition find_binding (account_id : nat) (db : DB)
    : option AccountPromptBinding :=
  List.find (fun b => Nat.eqb (bnd_account_id b) account_id) (bindings db).

(** Field updates on a task row. *)
Definition task_update (status : task_status) (completed failed : nat)
    (started finished : option Z) (error : option pystr)
    (t : PromptBacktestTask) : PromptBacktestTask :=
  {| t_account_id := t_account_id t; t_wallet_address := t_wallet_address t;
     t_environment := t_environment t; t_name := t_name t;
     t_status := status; t_total_count := t_total_count t;
     t_completed_count := completed; t_failed_count := failed;
     t_replace_rules := t_replace_rules t;
     t_started_at := started; t_finished_at := finished;
     t_error_message := error |}.

(** Field updates on the result slot of an item row. *)
Definition item_update (status : item_status)
    (operation symbol target_portion reasoning : pyval)
    (decision_json : option pystr) (changed : option bool)
    (change_type error : option pystr)
    (i : PromptBacktestItem) : PromptBacktestItem :=
  {| i_task_id := i_task_id i;
     i_original_decision_log_id := i_original_decision_log_id i;
     i_status := status;
     i_original_operation := i_original_operation i;
     i_original_symbol := i_original_symbol i;
     i_original_target_portion := i_original_target_portion i;
     i_original_reasoning := i_original_reasoning i;
     i_original_decision_json := i_original_decision_json i;
     i_original_realized_pnl := i_original_realized_pnl i;
     i_original_decision_time := i_original_decision_time i;
     i_original_prompt_template_name := i_original_prompt_template_name i;
     i_modified_prompt := i_modified_prompt i;
     i_new_operation := operation; i_new_symbol := symbol;
     i_new_target_portion := target_portion; i_new_reasoning := reasoning;
     i_new_decision_json := decision_json; i_decision_changed := changed;
     i_change_type := change_type; i_error_message := error |}.

(** Number of rows satisfying a test. *)
Fixpoint count {A} (p : A -> bool) (l : list A) : nat :=
  match l with
  | [] => 0
  | x :: l' => (if p x then 1 else 0) + count p l'
  end.

Definition item_of (task_id : nat) (i : PromptBacktestItem) : bool :=
  Nat.eqb (i_task_id i) task_id.
Definition item_in (task_id : nat) (s : item_status) (i : PromptBacktestItem)
    : bool :=
  Nat.eqb (i_task_id i) task_id && item_status_eqb (i_status i) s.

End Store.
Export Store.

(* ================================================================== *)
(** ** Item worker and task coordinator *)
(* ================================================================== *)

Module Service.

(** The [result] dict handed to [_save_item_result]; an absent key reads
    as [None]. *)
Record save_result := {
  r_success : bool;
  r_operation : pyval;
  r_symbol : pyval;
  r_target_portion : pyval;
  r_reasoning : pyval;
  r_decision_json : option pystr;
  r_decision_changed : option bool;
  r_change_type : option pystr;
  r_error : option pystr;
  r_raw_response : pyval }.

Definition failure_result (error : pystr) (raw_response : pyval) : save_result :=
  {| r_success := false; r_operation := PNone; r_symbol := PNone;
     r_target_portion := PNone; r_reasoning := PNone;
     r_decision_json := None; r_decision_changed := None;
     r_change_type := None; r_error := Some error;
     r_raw_response := raw_response |}.

Definition success_result (operation symbol target_portion reasoning : pyval)
    (decision_json : pystr) (decision_changed : bool)
    (change_type : option pystr) : save_result :=
  {| r_success := true; r_operation := operation; r_symbol := symbol;
     r_target_portion := target_portion; r_reasoning := reasoning;
     r_decision_json := Some decision_json;
     r_decision_changed := Some decision_changed;
     r_change_type := change_type; r_error := None;
     r_raw_response := PNone |}.

(** What a session sends to the database when it commits: the flushed
    item row and the counter [UPDATE ... SET c = c + 1 WHERE id = :task_id],
    which adds to the value stored at that moment. *)
Inductive write :=
| SetItem (item_id : nat) (row : PromptBacktestItem)
| IncrementCompleted (task_id : nat)
| IncrementFailed (task_id : nat).

Definition incr_completed (t : PromptBacktestTask) : PromptBacktestTask :=
  task_update (t_status t) (t_completed_count t + 1) (t_failed_count t)
              (t_started_at t) (t_finished_at t) (t_error_message t) t.

Definition incr_failed (t : PromptBacktestTask) : PromptBacktestTask :=
  task_update (t_status t) (t_completed_count t) (t_failed_count t + 1)
              (t_started_at t) (t_finished_at t) (t_error_message t) t.

Definition apply_write (db : DB) (w : write) : DB :=
  match w with
  | SetItem item_id row => with_items (fun l => <[item_id := row]> l) db
  | IncrementCompleted task_id => with_tasks (alter incr_completed task_id) db
  | IncrementFailed task_id => with_tasks (alter incr_failed task_id) db
  end.

(** [db.commit()]: all writes of the session at once. *)
Definition commit (ws : list write) (db : DB) : DB := fold_left apply_write ws db.

Definition unknown_error : pystr := Eval cbv in u "Unknown error".

Definition completed_row (result : save_result) (item : PromptBacktestItem)
    : PromptBacktestItem :=
  item_update ICompleted (r_operation result) (r_symbol result)
    (r_target_portion result) (r_reasoning result) (r_decision_json result)
    (r_decision_changed result) (r_change_type result)
    (i_error_message item) item.

Definition failed_row (result : save_result) (item : PromptBacktestItem)
    : PromptBacktestItem :=
  item_update IFailed (i_new_operation item) (i_new_symbol item)
    (i_new_target_portion item)
    (if truthy (r_raw_response result) then r_raw_response result
     else i_new_reasoning item)
    (i_new_decision_json item) (i_decision_changed item) (i_change_type item)
    (Some (slice_to 500
             (match r_error result with Some e => e | None => unknown_error end)))
    item.

(** The session of [_save_item_result]: [None] when it returns before
    [db.commit()], otherwise the writes its single commit carries. *)
Definition save_item_session (item_id task_id : nat) (result : save_result)
    (db : DB) : option (list write) :=
  match items db !! item_id with
  | None => None
  | Some item =>
      if r_success result
      then Some [SetItem item_id (completed_row result item);
                 IncrementCompleted task_id]
      else Some [SetItem item_id (failed_row result item);
                 IncrementFailed task_id]
  end.

(** The store after the session went through: unchanged when the item
    is missing, all its writes otherwise. *)
Definition saved_store (item_id task_id : nat) (result : save_result)
    (db : DB) : DB :=
  match save_item_session item_id task_id result db with
  | None => db
  | Some ws => commit ws db
  end.

Definition msg_no_response : pystr := Eval cbv in u "LLM call failed - no response".
Definition msg_empty_content : pystr := Eval cbv in u "LLM call failed - empty content".
Definition msg_parse_failed : pystr := Eval cbv in u "Failed to parse decision".

(** A failure result that carries nothing from the provider: one of the
    worker's own messages and no raw response. *)
Definition worker_literal (error : pystr) : bool :=
  str_eqb error msg_no_response || str_eqb error msg_empty_content
  || str_eqb error msg_parse_failed.

(** Such a result makes the session write the status, one of these
    literals (or "Unknown error") and a counter increment only; the driver
    binds those whatever it does with other values. *)
Definition binds_literals_only (result : save_result) : bool :=
  negb (r_success result) && negb (truthy (r_raw_response result))
  && match r_error result with
     | Some error => worker_literal error
     | None => true
     end.

Section WithDriver.

(** What the database driver makes of the values of a result that came
    from the provider or from an exception text: [None] when it binds
    them, otherwise the exception that the flush or the commit raises (a
    value of a type it cannot adapt, a text the server refuses).  The
    column types are declared in [database.models]. *)
Variable driver_rejects : save_result -> option exn.

Definition commit_error (result : save_result) : option exn :=
  if binds_literals_only result then None else driver_rejects result.

(** [_save_item_result]: when the flush or the commit raises, the session
    is closed without any of its writes and the exception leaves the
    function. *)
Definition _save_item_result (item_id task_id : nat) (result : save_result)
    (db : DB) : res DB :=
  match save_item_session item_id task_id result db with
  | None => Ok db
  | Some ws =>
      match commit_error result with
      | Some e => Raise e
      | None => Ok (commit ws db)
      end
  end.

End WithDriver.

Definition default_system_prompt : pystr :=
  u "You are a systematic trading assistant. Analyze the market data and make trading decisions.".

Definition _get_system_prompt (db : DB) (account_id : nat) : pystr :=
  match find_binding account_id db with
  | Some binding =>
      match bnd_prompt_template_id binding with
      | Some (S n) =>
          match find_template (S n) db with
          | Some template =>
              match tpl_system_template_text template with
              | Some (c :: text) => c :: text
              | _ => default_system_prompt
              end
          | None => default_system_prompt
          end
      | _ => default_system_prompt
      end
  | None => default_system_prompt
  end.

(** Entry of [item_data]. *)
Record item_data := {
  item_id : nat;
  task_id : nat;
  modified_prompt : pystr;
  original_operation : option pystr }.

Record account_config := {
  api_key : pystr;
  base_url : pystr;
  model : pystr }.

(** [_call_llm_with_config]: the provider answers what it answers; the
    worker sees a dict, [None], or an exception. *)
Definition llm := account_config -> pystr -> pystr -> res pyval.

Section Worker.

Variable json_loads : pystr -> res pyval.
Variable json_dumps : pyval -> pystr.
Variable str_lower : pystr -> pystr.
Variable driver_rejects : save_result -> option exn.

(** The [try] block of [_process_and_save_item]: the value the local
    [content] holds when the block is left, and how it is left. *)
Definition process_item_try (call_llm : llm) (item : item_data)
    (config : account_config) (system_prompt : pystr) (db : DB)
    : pyval * res DB :=
  let save := fun r =>
    _save_item_result driver_rejects (item_id item) (task_id item) r db in
  match call_llm config system_prompt (modified_prompt item) with
  | Raise e => (PNone, Raise e)
  | Ok api_response =>
      if negb (truthy api_response)
      then (PNone, save (failure_result msg_no_response PNone))
      else
        match _get_content_from_response api_response with
        | Raise e => (PNone, Raise e)
        | Ok content =>
            (content,
             let* reasoning := _extract_reasoning_from_response api_response in
             if negb (truthy content)
             then save (failure_result msg_empty_content PNone)
             else
               let* decision := _parse_decision json_loads content in
               match decision with
               | Some (entry :: more) =>
                   let decision := entry :: more in
                   let* change :=
                     classify_change str_lower
                       (dict_get k_operation PNone decision)
                       (original_operation item) in
                   let* final_reasoning :=
                     if truthy (PStr reasoning) then Ok (PStr reasoning)
                     else slice_method 2000 content in
                   save (success_result
                           (dict_get k_operation PNone decision)
                           (dict_get (u "symbol") PNone decision)
                           (dict_get (u "target_portion_of_balance") PNone decision)
                           final_reasoning
                           (json_dumps (PDict decision))
                           (fst change) (snd change))
               | _ =>
                   let* raw := slice_method 2000 content in
                   save (failure_result msg_parse_failed raw)
               end)
        end
  end.

(** [_process_and_save_item]: the [try] block and its
    [except Exception as e] handler, whose own save is under no [try]. *)
Definition _process_and_save_item (call_llm : llm) (item : item_data)
    (config : account_config) (system_prompt : pystr) (db : DB) : res DB :=
  let '(content, outcome) :=
    process_item_try call_llm item config system_prompt db in
  try_except outcome
    (fun e =>
       let* raw :=
         if truthy content then slice_method 2000 content else Ok PNone in
       _save_item_result driver_rejects (item_id item) (task_id item)
         (failure_result (slice_to 500 (exn_str e)) raw) db).

(** One turn of the [as_completed] loop of [_process_items_realtime]:
    [future.result()] under [except Exception], which only logs. *)
Definition resolve_item (call_llm : llm) (config : account_config)
    (system_prompt : pystr) (db : DB) (item : item_data) : DB :=
  match _process_and_save_item call_llm item config system_prompt db with
  | Ok db' => db'
  | Raise _ => db
  end.

(** [_process_items_realtime]: the database after each future resolved,
    in completion order. *)
Fixpoint _process_items_realtime (call_llm : llm) (items : list item_data)
    (config : account_config) (system_prompt : pystr) (db : DB) : list DB :=
  match items with
  | [] => []
  | item :: rest =>
      let db' := resolve_item call_llm config system_prompt db item in
      db' :: _process_items_realtime call_llm rest config system_prompt db'
  end.

End Worker.

(** Coordinator, first commit: [status = "running"], [started_at]. *)
Definition mark_running (now : Z) (t : PromptBacktestTask) : PromptBacktestTask :=
  task_update TRunning (t_completed_count t) (t_failed_count t)
              (Some now) (t_finished_at t) (t_error_message t) t.

Definition account_not_found : pystr := Eval cbv in u "Account not found".

(** Coordinator, commit of the missing-account branch. *)
Definition mark_failed (now : Z) (t : PromptBacktestTask) : PromptBacktestTask :=
  task_update TFailed (t_completed_count t) (t_failed_count t)
              (t_started_at t) (Some now) (Some account_not_found) t.

(** Coordinator, last commit. *)
Definition mark_completed (now : Z) (t : PromptBacktestTask) : PromptBacktestTask :=
  task_update TCompleted (t_completed_count t) (t_failed_count t)
              (t_started_at t) (Some now) (t_error_message t) t.

(** The pending items of a task as [item_data], rows numbered from [i]. *)
Fixpoint pending_from (tid : nat) (i : nat) (rows : list PromptBacktestItem)
    : list item_data :=
  match rows with
  | [] => []
  | row :: rest =>
      if item_in tid IPending row
      then {| item_id := i; task_id := tid;
              modified_prompt := i_modified_prompt row;
              original_operation := i_original_operation row |}
           :: pending_from tid (S i) rest
      else pending_from tid (S i) rest
  end.

Definition pending_items (tid : nat) (db : DB) : list item_data :=
  pending_from tid 0 (items db).

Definition config_of (a : Account) : account_config :=
  {| api_key := acc_api_key a; base_url := acc_base_url a;
     model := acc_model a |}.

Definition begin_task (now : Z) (tid : nat) (db : DB) : DB :=
  with_tasks (alter (mark_running now) tid) db.
Definition fail_task (now : Z) (tid : nat) (db : DB) : DB :=
  with_tasks (alter (mark_failed now) tid) db.
Definition finalize_task (now : Z) (tid : nat) (db : DB) : DB :=
  with_tasks (alter (mark_completed now) tid) db.

Section Coordinator.

Variable json_loads : pystr -> res pyval.
Variable json_dumps : pyval -> pystr.
Variable str_lower : pystr -> pystr.
Variable driver_rejects : save_result -> option exn.

(** [execute_backtest_task]: the database after each of its commits.
    [started], [stopped] are the readings of the clock, [completion] is
    the order in which the pool resolves the submitted items. *)
Definition execute_backtest_task (started stopped : Z)
    (completion : list item_data -> list item_data) (call_llm : llm)
    (tid : nat) (db : DB) : list DB :=
  match tasks db !! tid with
  | None => []
  | Some task =>
      let db1 := begin_task started tid db in
      match find_account (t_account_id task) db1 with
      | None => [db1; fail_task stopped tid db1]
      | Some account =>
          let system_prompt := _get_system_prompt db1 (acc_id account) in
          let item_data := pending_items tid db1 in
          let resolved :=
            _process_items_realtime json_loads json_dumps str_lower driver_rejects call_llm
              (completion item_data) (config_of account) system_prompt db1 in
          db1 :: resolved ++ [finalize_task stopped tid (List.last resolved db1)]
      end
  end.

End Coordinator.

End Service.
Export Service.

(* ================================================================== *)
(** ** API routes that enter the coordinator *)
(* ================================================================== *)

Module Routes.

Record BacktestItemInput := {
  decision_log_id : nat;
  in_modified_prompt : pystr }.

Record CreateTaskRequest := {
  req_account_id : nat;
  req_name : option pystr;
  req_items : list BacktestItemInput;
  req_replace_rules : option (list (pystr * pystr)) }.

(** A route returns its JSON body or raises [HTTPException]. *)
Inductive http (A : Type) : Type :=
| Returns (body : A)
| HTTPException (status_code : nat) (detail : pystr).
Arguments Returns {A} body.
Arguments HTTPException {A} status_code detail.

Record create_response := {
  cr_task_id : nat;
  cr_status : task_status;
  cr_total_count : nat }.

Record retry_response := {
  rr_success : bool;
  rr_message : pystr;
  rr_retry_count : nat }.

(** The row [create_backtest_task] adds for one input whose decision log
    exists. *)
Definition new_item (tid : nat) (db : DB) (original_log : AIDecisionLog)
    (input : BacktestItemInput) : PromptBacktestItem :=
  let template_name :=
    match log_prompt_template_id original_log with
    | Some (S n) =>
        match find_template (S n) db with
        | Some template => Some (tpl_name template)
        | None => None
        end
    | _ => None
    end in
  {| i_task_id := tid;
     i_original_decision_log_id := log_id original_log;
     i_status := IPending;
     i_original_operation := log_operation original_log;
     i_original_symbol := log_symbol original_log;
     i_original_target_portion := log_target_portion original_log;
     i_original_reasoning := log_reasoning_snapshot original_log;
     i_original_decision_json := log_decision_snapshot original_log;
     i_original_realized_pnl := log_realized_pnl original_log;
     i_original_decision_time := log_decision_time original_log;
     i_original_prompt_template_name := template_name;
     i_modified_prompt := in_modified_prompt input;
     i_new_operation := PNone; i_new_symbol := PNone;
     i_new_target_portion := PNone; i_new_reasoning := PNone;
     i_new_decision_json := None; i_decision_changed := None;
     i_change_type := None; i_error_message := None |}.

(** The loop over [request.items]: inputs whose log is missing are
    skipped. *)
Fixpoint new_items (tid : nat) (db : DB) (inputs : list BacktestItemInput)
    : list PromptBacktestItem :=
  match inputs with
  | [] => []
  | input :: rest =>
      match find_log (decision_log_id input) db with
      | None => new_items tid db rest
      | Some original_log =>
          new_item tid db original_log input :: new_items tid db rest
      end
  end.

Definition rule_dict (r : pystr * pystr) : pyval :=
  PDict [(u "find", PStr (fst r)); (u "replace", PStr (snd r))].

Section WithDumps.

Variable json_dumps : pyval -> pystr.

Definition new_task (request : CreateTaskRequest) (db : DB) : PromptBacktestTask :=
  let first_log :=
    match req_items request with
    | first :: _ => find_log (decision_log_id first) db
    | [] => None
    end in
  {| t_account_id := req_account_id request;
     t_wallet_address :=
       match first_log with Some l => log_wallet_address l | None => None end;
     t_environment :=
       match first_log with
       | Some l => log_hyperliquid_environment l
       | None => None
       end;
     t_name := req_name request;
     t_status := TPending;
     t_total_count := length (req_items request);
     t_completed_count := 0;
     t_failed_count := 0;
     t_replace_rules :=
       match req_replace_rules request with
       | Some (r :: rules) =>
           Some (json_dumps (PList (map rule_dict (r :: rules))))
       | _ => None
       end;
     t_started_at := None; t_finished_at := None; t_error_message := None |}.

(** [create_backtest_task]: the response and the committed database; a
    returned response also hands [execute_backtest_task] for the new task
    to the background runner. *)
Definition create_backtest_task (request : CreateTaskRequest) (db : DB)
    : http create_response * DB :=
  match find_account (req_account_id request) db with
  | None => (HTTPException 404 (u "Account not found"), db)
  | Some _ =>
      let task := new_task request db in
      let tid := length (tasks db) in
      let db' :=
        with_items (fun l => l ++ new_items tid db (req_items request))
                   (with_tasks (fun l => l ++ [task]) db) in
      (Returns {| cr_task_id := tid; cr_status := t_status task;
                  cr_total_count := t_total_count task |}, db')
  end.

End WithDumps.

(** What the retry loop does to a failed item. *)
Definition reset_item (i : PromptBacktestItem) : PromptBacktestItem :=
  item_update IPending PNone PNone PNone PNone None None None None i.

Definition reset_if_failed (tid : nat) (i : PromptBacktestItem)
    : PromptBacktestItem :=
  if item_in tid IFailed i then reset_item i else i.

Definition reset_task (t : PromptBacktestTask) : PromptBacktestTask :=
  task_update TPending (t_completed_count t) 0 (t_started_at t) None
              (t_error_message t) t.

(** [retry_failed_items]: the response and the committed database; a
    response with [success] true also queues [execute_backtest_task]. *)
Definition retry_failed_items (tid : nat) (db : DB) : http retry_response * DB :=
  match tasks db !! tid with
  | None => (HTTPException 404 (u "Task not found"), db)
  | Some task =>
      if task_status_eqb (t_status task) TRunning
      then (HTTPException 400 (u "Task is already running"), db)
      else
        let failed_items := List.filter (item_in tid IFailed) (items db) in
        match failed_items with
        | [] =>
            (Returns {| rr_success := false;
                        rr_message := u "No failed items to retry";
                        rr_retry_count := 0 |}, db)
        | _ :: _ =>
            let db' :=
              with_tasks (alter reset_task tid)
                (with_items (map (reset_if_failed tid)) db) in
            (Returns {| rr_success := true;
                        rr_message :=
                          u "Retrying " ++ str_of_nat (length failed_items)
                            ++ u " failed items";
                        rr_retry_count := length failed_items |}, db')
        end
  end.

(** The two halves of [retry_failed_items], which reads and later
    commits without holding a lock in between.  [failed_ids] are the
    primary keys of the rows its query loads; [retry_commit] is the commit
    of what it assigns on those rows and on the task row. *)
Fixpoint failed_from (tid i : nat) (rows : list PromptBacktestItem) : list nat :=
  match rows with
  | [] => []
  | row :: rest =>
      if item_in tid IFailed row then i :: failed_from tid (S i) rest
      else failed_from tid (S i) rest
  end.

Definition failed_ids (tid : nat) (db : DB) : list nat :=
  failed_from tid 0 (items db).

Definition loaded (ids : list nat) (j : nat) : bool := existsb (Nat.eqb j) ids.

Definition reset_loaded (ids : list nat) (rows : list PromptBacktestItem)
    : list PromptBacktestItem :=
  imap (fun j row => if loaded ids j then reset_item row else row) rows.

Definition retry_commit (tid : nat) (ids : list nat) (db : DB) : DB :=
  with_tasks (alter reset_task tid) (with_items (reset_loaded ids) db).

End Routes.
Export Routes.

(* ================================================================== *)
(** ** The engine as a transition system *)
(* ================================================================== *)

Module Engine.

(** What is under way for a task: a retry request that has run its
    queries and not yet committed, with the primary keys of the failed rows
    it loaded; or a background run of [execute_backtest_task], which is
    queued, has committed [running], or has dispatched its batch and waits
    for the items still in flight. *)
Inductive run :=
| Retrying (tid : nat) (failed : list nat)
| Queued (tid : nat)
| Started (tid : nat)
| Dispatched (tid : nat) (config : account_config) (system_prompt : pystr)
             (in_flight : list item_data).

Definition run_task (r : run) : nat :=
  match r with
  | Retrying tid _ | Queued tid | Started tid | Dispatched tid _ _ _ => tid
  end.

Definition retry_under_way (r : run) : bool :=
  match r with Retrying _ _ => true | _ => false end.

Record World := { w_db : DB; w_runs : list run }.

(** Everything but the two backtest tables may change under the engine. *)
Definition same_backtest_tables (a b : DB) : Prop :=
  tasks a = tasks b /\ items a = items b.

Section Steps.

Variable json_loads : pystr -> res pyval.
Variable json_dumps : pyval -> pystr.
Variable str_lower : pystr -> pystr.
Variable driver_rejects : save_result -> option exn.

Inductive step : World -> World -> Prop :=
| step_environment db db' runs :
    same_backtest_tables db db' ->
    step {| w_db := db; w_runs := runs |} {| w_db := db'; w_runs := runs |}
| step_create request db body db' runs :
    create_backtest_task json_dumps request db = (Returns body, db') ->
    step {| w_db := db; w_runs := runs |}
         {| w_db := db'; w_runs := runs ++ [Queued (cr_task_id body)] |}
| step_retry_query tid task db runs :
    tasks db !! tid = Some task ->
    t_status task <> TRunning ->
    failed_ids tid db <> [] ->
    step {| w_db := db; w_runs := runs |}
         {| w_db := db; w_runs := runs ++ [Retrying tid (failed_ids tid db)] |}
| step_retry_commit tid failed db before after :
    step {| w_db := db; w_runs := before ++ Retrying tid failed :: after |}
         {| w_db := retry_commit tid failed db;
            w_runs := before ++ Queued tid :: after |}
| step_begin_no_task tid db before after :
    tasks db !! tid = None ->
    step {| w_db := db; w_runs := before ++ Queued tid :: after |}
         {| w_db := db; w_runs := before ++ after |}
| step_begin now tid task db before after :
    tasks db !! tid = Some task ->
    step {| w_db := db; w_runs := before ++ Queued tid :: after |}
         {| w_db := begin_task now tid db;
            w_runs := before ++ Started tid :: after |}
| step_no_account now tid task db before after :
    tasks db !! tid = Some task ->
    find_account (t_account_id task) db = None ->
    step {| w_db := db; w_runs := before ++ Started tid :: after |}
         {| w_db := fail_task now tid db; w_runs := before ++ after |}
| step_dispatch tid task account db before after :
    tasks db !! tid = Some task ->
    find_account (t_account_id task) db = Some account ->
    step {| w_db := db; w_runs := before ++ Started tid :: after |}
         {| w_db := db;
            w_runs := before
              ++ Dispatched tid (config_of account)
                   (_get_system_prompt db (acc_id account))
                   (pending_items tid db)
              :: after |}
| step_item (call_llm : llm) tid config system_prompt earlier item later
    db before after :
    step {| w_db := db;
            w_runs := before
              ++ Dispatched tid config system_prompt (earlier ++ item :: later)
              :: after |}
         {| w_db := resolve_item json_loads json_dumps str_lower driver_rejects call_llm
                      config system_prompt db item;
            w_runs := before
              ++ Dispatched tid config system_prompt (earlier ++ later)
              :: after |}
| step_finalize now tid config system_prompt db before after :
    step {| w_db := db;
            w_runs := before ++ Dispatched tid config system_prompt [] :: after |}
         {| w_db := finalize_task now tid db; w_runs := before ++ after |}.

Inductive reachable (init : DB) : World -> Prop :=
| reach_init : reachable init {| w_db := init; w_runs := [] |}
| reach_step w w' : reachable init w -> step w w' -> reachable init w'.

(** At most one retry request per task between its queries and its
    commit. *)
Definition retries_apart (w : World) : Prop :=
  NoDup (map run_task (List.filter retry_under_way (w_runs w))).

(** The states reached when retry requests for one task do not overlap. *)
Inductive reachable_apart (init : DB) : World -> Prop :=
| apart_init : reachable_apart init {| w_db := init; w_runs := [] |}
| apart_step w w' :
    reachable_apart init w -> step w w' -> retries_apart w' ->
    reachable_apart init w'.

End Steps.

End Engine.
Export Engine.

(* ================================================================== *)
(** ** A JSON reader and writer for running the model *)
(* ================================================================== *)

(** The service takes [json.loads] and [json.dumps] as parameters.  The
    instance below covers JSON without fractional numbers and without
    [\u] escapes; it is what the examples are evaluated with. *)
Module MiniJson.

Local Open Scope N_scope.

Definition json_ws (c : N) : bool :=
  (c =? 32) || (c =? 9) || (c =? 10) || (c =? 13).

Fixpoint skip_ws (s : pystr) : pystr :=
  match s with
  | [] => []
  | c :: s' => if json_ws c then skip_ws s' else s
  end.

Definition unescape (c : N) : option N :=
  if c =? 34 then Some 34
  else if c =? 92 then Some 92
  else if c =? 47 then Some 47
  else if c =? 110 then Some 10
  else if c =? 114 then Some 13
  else if c =? 116 then Some 9
  else if c =? 98 then Some 8
  else if c =? 102 then Some 12
  else None.

(** After the opening quote: the string and what follows its closing
    quote. *)
Fixpoint scan_string (acc : pystr) (s : pystr) : option (pystr * pystr) :=
  match s with
  | [] => None
  | c :: rest =>
      if c =? 34 then Some (rev acc, rest)
      else if c =? 92 then
        match rest with
        | e :: rest' =>
            match unescape e with
            | Some x => scan_string (x :: acc) rest'
            | None => None
            end
        | [] => None
        end
      else if c <? 32 then None
      else scan_string (c :: acc) rest
  end.

Definition is_digit (c : N) : bool := (48 <=? c) && (c <=? 57).

Fixpoint scan_digits (acc : Z) (s : pystr) : Z * pystr :=
  match s with
  | c :: rest =>
      if is_digit c then scan_digits (10 * acc + Z.of_N (c - 48))%Z rest
      else (acc, s)
  | [] => (acc, [])
  end.

Definition scan_int (s : pystr) : option (pyval * pystr) :=
  let '(negative, body) :=
    match s with
    | c :: rest => if c =? 45 then (true, rest) else (false, s)
    | [] => (false, s)
    end in
  match body with
  | c :: _ =>
      if is_digit c then
        let '(n, rest) := scan_digits 0%Z body in
        match rest with
        | d :: _ =>
            if (d =? 46) || (d =? 101) || (d =? 69) then None
            else Some (PInt (if negative then (- n)%Z else n), rest)
        | [] => Some (PInt (if negative then (- n)%Z else n), rest)
        end
      else None
  | [] => None
  end.

Definition lit_true : pystr := Eval cbv in u "true".
Definition lit_false : pystr := Eval cbv in u "false".
Definition lit_null : pystr := Eval cbv in u "null".

Fixpoint parse_value (fuel : nat) (s : pystr) : option (pyval * pystr) :=
  match fuel with
  | O => None
  | S fuel' =>
      match skip_ws s with
      | [] => None
      | c :: rest =>
          if c =? 123 then
            match skip_ws rest with
            | d :: rest' =>
                if d =? 125 then Some (PDict [], rest')
                else parse_members fuel' [] rest
            | [] => None
            end
          else if c =? 91 then
            match skip_ws rest with
            | d :: rest' =>
                if d =? 93 then Some (PList [], rest')
                else parse_elements fuel' [] rest
            | [] => None
            end
          else if c =? 34 then
            match scan_string [] rest with
            | Some (str, rest') => Some (PStr str, rest')
            | None => None
            end
          else if is_prefix lit_true (c :: rest)
          then Some (PBool true, skipn 4 (c :: rest))
          else if is_prefix lit_false (c :: rest)
          then Some (PBool false, skipn 5 (c :: rest))
          else if is_prefix lit_null (c :: rest)
          then Some (PNone, skipn 4 (c :: rest))
          else scan_int (c :: rest)
      end
  end
with parse_members (fuel : nat) (acc : pydict) (s : pystr)
    : option (pyval * pystr) :=
  match fuel with
  | O => None
  | S fuel' =>
      match skip_ws s with
      | q :: rest =>
          if q =? 34 then
            match scan_string [] rest with
            | Some (key, rest1) =>
                match skip_ws rest1 with
                | colon :: rest2 =>
                    if colon =? 58 then
                      match parse_value fuel' rest2 with
                      | Some (v, rest3) =>
                          match skip_ws rest3 with
                          | d :: rest4 =>
                              if d =? 44
                              then parse_members fuel' (dict_set key v acc) rest4
                              else if d =? 125
                              then Some (PDict (dict_set key v acc), rest4)
                              else None
                          | [] => None
                          end
                      | None => None
                      end
                    else None
                | [] => None
                end
            | None => None
            end
          else None
      | [] => None
      end
  end
with parse_elements (fuel : nat) (acc : list pyval) (s : pystr)
    : option (pyval * pystr) :=
  match fuel with
  | O => None
  | S fuel' =>
      match parse_value fuel' s with
      | Some (v, rest) =>
          match skip_ws rest with
          | d :: rest' =>
              if d =? 44 then parse_elements fuel' (acc ++ [v]) rest'
              else if d =? 93 then Some (PList (acc ++ [v]), rest')
              else None
          | [] => None
          end
      | None => None
      end
  end.

Definition expecting_value : exn :=
  Exn JSONDecodeError (u "Expecting value").

(** A text that is not one JSON value raises [JSONDecodeError]; this
    reader raises nothing else. *)
Definition mini_loads (s : pystr) : res pyval :=
  match parse_value (S (length s)) s with
  | Some (v, rest) =>
      match skip_ws rest with
      | [] => Ok v
      | _ :: _ => Raise expecting_value
      end
  | None => Raise expecting_value
  end.

Definition escape_cp (c : N) : pystr :=
  if c =? 34 then [92; 34]
  else if c =? 92 then [92; 92]
  else if c =? 10 then [92; 110]
  else if c =? 13 then [92; 114]
  else if c =? 9 then [92; 116]
  else [c].

Definition dump_str (s : pystr) : pystr :=
  [34] ++ flat_map escape_cp s ++ [34].

Fixpoint mini_dumps (v : pyval) : pystr :=
  match v with
  | PNone => lit_null
  | PBool true => lit_true
  | PBool false => lit_false
  | PInt z => u (NilZero.string_of_int (Z.to_int z))
  | PFloat _ => lit_null
  | PStr s => dump_str s
  | PList l =>
      [91] ++
      (fix elements (l : list pyval) : pystr :=
         match l with
         | [] => []
         | [x] => mini_dumps x
         | x :: t => mini_dumps x ++ [44; 32] ++ elements t
         end) l
      ++ [93]
  | PDict d =>
      [123] ++
      (fix members (d : list (pystr * pyval)) : pystr :=
         match d with
         | [] => []
         | [(k, x)] => dump_str k ++ [58; 32] ++ mini_dumps x
         | (k, x) :: t =>
             dump_str k ++ [58; 32] ++ mini_dumps x ++ [44; 32] ++ members t
         end) d
      ++ [125]
  end.

End MiniJson.
Export MiniJson.

(* ================================================================== *)
(** ** Model invoker *)
(* ================================================================== *)

Module Invoker.

Definition reasoning_markers : list pystr :=
  [u "gpt-5"; u "o1-preview"; u "o1-mini"; u "o1-"; u "o3-"; u "o4-";
   u "deepseek-r1"; u "deepseek-reasoner";
   u "qwq"; u "qwen-plus-thinking"; u "qwen-max-thinking";
   u "claude-4"; u "claude-sonnet-4-5";
   u "gemini-2.5"; u "gemini-3"].

(** What [requests.post] hands back: the status code, what
    [response.json()] gives (it may raise) and [response.text]. *)
Record http_response := {
  resp_status_code : nat;
  resp_json : res pyval;
  resp_text : pystr }.

(** The float [0.7] as its bit pattern. *)
Definition temperature_0_7 : pyval := PFloat 4604480259023595110.

Definition k_temperature : pystr := Eval cbv in u "temperature".
Definition k_max_completion_tokens : pystr := Eval cbv in u "max_completion_tokens".
Definition k_max_tokens : pystr := Eval cbv in u "max_tokens".
Definition k_choices : pystr := Eval cbv in u "choices".

Section WithTransport.

Variable str_lower : pystr -> pystr.
(** [services.ai_decision_service], not part of these files. *)
Variable get_max_tokens : pystr -> Z.
Variable build_chat_completion_endpoints : pystr -> pystr -> list pystr.
(** [requests.post(endpoint, headers=, json=, timeout=, verify=False)] *)
Variable post :
  pystr -> list (pystr * pystr) -> pydict -> nat -> res http_response.

Definition is_reasoning_model (model : pystr) : bool :=
  existsb (fun marker => py_in marker (str_lower model)) reasoning_markers.

Definition is_new_model (model : pystr) : bool :=
  is_reasoning_model model || py_in (u "gpt-4o") (str_lower model).

Definition request_headers (config : account_config) : list (pystr * pystr) :=
  [(u "Content-Type", u "application/json");
   (u "Authorization", u "Bearer " ++ api_key config)].

Definition request_payload (model system_prompt user_prompt : pystr) : pydict :=
  let payload :=
    [(u "model", PStr model);
     (u "messages",
      PList [PDict [(u "role", PStr (u "system")); (u "content", PStr system_prompt)];
             PDict [(u "role", PStr (u "user")); (u "content", PStr user_prompt)]])] in
  let payload :=
    if negb (is_reasoning_model model)
    then dict_set k_temperature temperature_0_7 payload
    else payload in
  if is_new_model model
  then dict_set k_max_completion_tokens (PInt (get_max_tokens model)) payload
  else dict_set k_max_tokens (PInt (get_max_tokens model)) payload.

Definition request_timeout (model : pystr) : nat :=
  if is_reasoning_model model then 240 else 120.

(** The body of the [try] for one endpoint: the data to return, or
    nothing when the loop goes on. *)
Definition try_endpoint (endpoint : pystr) (headers : list (pystr * pystr))
    (payload : pydict) (timeout : nat) : res (option pyval) :=
  let* response := post endpoint headers payload timeout in
  if Nat.eqb (resp_status_code response) 200 then
    let* data := resp_json response in
    let* choices := get_method data k_choices (PList []) in
    if truthy choices then Ok (Some data) else Ok None
  else Ok None.

(** The loop over the endpoints: what is returned, and the endpoints a
    request was sent to, in order. *)
Fixpoint try_endpoints (endpoints : list pystr) (headers : list (pystr * pystr))
    (payload : pydict) (timeout : nat) : option pyval * list pystr :=
  match endpoints with
  | [] => (None, [])
  | endpoint :: rest =>
      match try_except (try_endpoint endpoint headers payload timeout)
                       (fun _ => Ok None) with
      | Ok (Some data) => (Some data, [endpoint])
      | _ =>
          let '(found, posted) := try_endpoints rest headers payload timeout in
          (found, endpoint :: posted)
      end
  end.

Definition call_llm_trace (config : account_config)
    (system_prompt user_prompt : pystr) : option pyval * list pystr :=
  let model := model config in
  match build_chat_completion_endpoints (base_url config) model with
  | [] => (None, [])
  | endpoints =>
      try_endpoints endpoints (request_headers config)
        (request_payload model system_prompt user_prompt)
        (request_timeout model)
  end.

(** [_call_llm_with_config]; Python's [None] is [PNone]. *)
Definition _call_llm_with_config : llm :=
  fun config system_prompt user_prompt =>
    match fst (call_llm_trace config system_prompt user_prompt) with
    | Some data => Ok data
    | None => Ok PNone
    end.

End WithTransport.

End Invoker.
Export Invoker.

(* ================================================================== *)
(** ** Result summary *)
(* ================================================================== *)

Module Results.

(** The integer part of [ResultSummary] that depends on item status and
    on [decision_changed] only; the profit and loss figures are floats. *)
Record summary_counts := {
  s_total : nat;
  s_completed : nat;
  s_failed : nat;
  s_changed : nat;
  s_unchanged : nat }.

Definition has_status (s : item_status) (i : PromptBacktestItem) : bool :=
  item_status_eqb (i_status i) s.

(** [bool(i.decision_changed)] *)
Definition changed_flag (i : PromptBacktestItem) : bool :=
  match i_decision_changed i with Some b => b | None => false end.

(** The lists [items], [completed], [failed], [changed], [unchanged] of
    [get_task_results] and their lengths. *)
Definition result_counts (tid : nat) (db : DB) : summary_counts :=
  let items := List.filter (item_of tid) (items db) in
  let completed := List.filter (has_status ICompleted) items in
  let failed := List.filter (has_status IFailed) items in
  let changed := List.filter changed_flag completed in
  let unchanged := List.filter (fun i => negb (changed_flag i)) completed in
  {| s_total := length items; s_completed := length completed;
     s_failed := length failed; s_changed := length changed;
     s_unchanged := length unchanged |}.

(** [get_task_results] up to its summary counts: 404 for a missing
    task. *)
Definition get_task_results_counts (tid : nat) (db : DB) : http summary_counts :=
  match tasks db !! tid with
  | None => HTTPException 404 (u "Task not found")
  | Some _ => Returns (result_counts tid db)
  end.

End Results.
Export Results.

(* ================================================================== *)
(** ** Vocabulary of the statements and sample data *)
(* ================================================================== *)

(** A driver that binds every value. *)
Definition lenient_driver : save_result -> option exn := fun _ => None.

Definition cannot_bind (v : pyval) : bool := is_dict v || is_list v.

Definition binding_error : exn :=
  Exn OtherException (u "Error binding parameter: type is not supported").

(** A driver that cannot adapt a dict or a list to a column. *)
Definition strict_driver : save_result -> option exn :=
  fun result =>
    if cannot_bind (r_operation result) || cannot_bind (r_symbol result)
       || cannot_bind (r_target_portion result)
       || cannot_bind (r_reasoning result)
       || cannot_bind (r_raw_response result)
    then Some binding_error else None.

(** A driver that, as PostgreSQL's, rejects a string that holds a NUL. *)
Definition has_nul (v : pyval) : bool :=
  match v with PStr s => existsb (N.eqb 0) s | _ => false end.

Definition nul_error : exn :=
  Exn OtherException
    (u "A string literal cannot contain NUL (0x00) characters.").

Definition nul_driver : save_result -> option exn :=
  fun result =>
    if has_nul (r_reasoning result) || has_nul (r_raw_response result)
    then Some nul_error else None.

(** A provider response whose first choice carries [message]. *)
Definition response_of (message : pydict) : pyval :=
  PDict [(u "choices", PList [PDict [(u "message", PDict message)]])].

Definition text_block (text : pyval) : pyval :=
  PDict [(u "type", PStr (u "text")); (u "text", text)].

Definition thinking_block (thinking : pyval) : pyval :=
  PDict [(u "type", PStr (u "thinking")); (u "thinking", thinking)].

(** The reasoning matches of a message in the words of the
    specification, to be compared with the three loops of
    [_extract_reasoning_from_response].  The candidates are the [reasoning]
    and [reasoning_content] fields, then the [thinking] of the content
    blocks typed [thinking], then the [text] of the [parts] entries whose
    [thought] is [True]; a candidate matches when it is a string that is
    not blank, and the match is the string trimmed. *)
Fixpoint strings_of (candidates : list pyval) : list pystr :=
  match candidates with
  | [] => []
  | PStr s :: rest => s :: strings_of rest
  | _ :: rest => strings_of rest
  end.

Definition non_empty (s : pystr) : bool :=
  match s with [] => false | _ :: _ => true end.

Definition spec_trimmed_matches (candidates : list pyval) : list pystr :=
  List.filter non_empty (map py_strip (strings_of candidates)).

Definition entries_of (v : pyval) : list pyval :=
  match v with PList l => l | _ => [] end.

Definition field_of (k : pystr) (v : pyval) : pyval :=
  match v with PDict d => dict_get k PNone d | _ => PNone end.

Definition typed_thinking (block : pyval) : bool :=
  eq_str (field_of (u "type") block) (u "thinking").

Definition flagged_thought (part : pyval) : bool :=
  is_True (field_of (u "thought") part).

Definition spec_reasoning_matches (msg : pydict) : list pystr :=
  spec_trimmed_matches
    ([dict_get (u "reasoning") PNone msg;
      dict_get (u "reasoning_content") PNone msg]
     ++ map (field_of (u "thinking"))
          (List.filter typed_thinking
             (entries_of (dict_get (u "content") PNone msg)))
     ++ map (field_of (u "text"))
          (List.filter flagged_thought
             (entries_of (dict_get (u "parts") PNone msg)))).

(** A response with every kind of reasoning trace at once. *)
Definition mixed_message : pydict :=
  [(u "reasoning", PStr (u " a "));
   (u "reasoning_content", PStr (u "b"));
   (u "content",
    PList [text_block (PStr (u "x")); thinking_block (PStr (u "c "));
           thinking_block (PStr (u "  "))]);
   (u "parts",
    PList [PDict [(u "thought", PBool true); (u "text", PStr (u "d"))];
           PDict [(u "thought", PInt 1); (u "text", PStr (u "e"))]])].

Definition quoted (s : string) : pystr := [34%N] ++ u s ++ [34%N].

Definition sample_account : Account :=
  {| acc_id := 1; acc_api_key := u "sk-test"; acc_base_url := u "https://api.example";
     acc_model := u "gpt-4o" |}.

Definition sample_log (id : nat) (operation : string) : AIDecisionLog :=
  {| log_id := id; log_wallet_address := Some (u "0xabc");
     log_hyperliquid_environment := Some (u "testnet");
     log_operation := Some (u operation); log_symbol := Some (u "BTC");
     log_target_portion := PNone; log_reasoning_snapshot := None;
     log_decision_snapshot := None; log_realized_pnl := PInt (-120);
     log_decision_time := PNone; log_prompt_template_id := None |}.

(** One account, decision logs 7 and 8, no backtest yet. *)
Definition sample_db : DB :=
  {| accounts := [sample_account];
     decision_logs := [sample_log 7 "buy"; sample_log 8 "sell"];
     templates := []; bindings := []; tasks := []; items := [] |}.

Definition input (log prompt_tag : nat) : BacktestItemInput :=
  {| decision_log_id := log; in_modified_prompt := u "prompt " ++ str_of_nat prompt_tag |}.

Definition sample_request (inputs : list BacktestItemInput) : CreateTaskRequest :=
  {| req_account_id := 1; req_name := Some (u "run"); req_items := inputs;
     req_replace_rules := None |}.

(** The store after a task over logs 7 and 8 was created. *)
Definition created_db : DB :=
  snd (create_backtest_task mini_dumps (sample_request [input 7 1; input 8 2])
         sample_db).

Definition decision_text (operation : string) : pystr :=
  u "{" ++ quoted "operation" ++ u ": " ++ quoted operation ++ u ", "
    ++ quoted "symbol" ++ u ": " ++ quoted "BTC" ++ u "}".

Definition fenced_json (j : pystr) : pystr := fence_json ++ nl ++ j ++ nl ++ fence.
Definition fenced_plain (j : pystr) : pystr := fence ++ nl ++ j ++ nl ++ fence.

(** A decision whose symbol is a JSON object. *)
Definition nested_symbol_text : pystr :=
  u "{" ++ quoted "operation" ++ u ": " ++ quoted "buy" ++ u ", "
    ++ quoted "symbol" ++ u ": {" ++ quoted "coin" ++ u ": 1}}".

Definition nested_symbol_llm : llm :=
  fun _ _ _ => Ok (response_of [(u "content", PStr nested_symbol_text)]).

(** A fenced decision after a NUL. *)
Definition nul_content : pystr := 0%N :: fenced_json (decision_text "hold").

Definition nul_llm : llm :=
  fun _ _ _ => Ok (response_of [(u "content", PStr nul_content)]).

(** The provider answers the first prompt with a fenced decision and
    gives nothing for any other prompt. *)
Definition sample_llm : llm :=
  fun _ _ prompt =>
    if str_eqb prompt (u "prompt 1")
    then Ok (response_of [(u "content", PStr (fenced_json (decision_text "hold")))])
    else Ok PNone.

Definition sample_execution : list DB :=
  execute_backtest_task mini_loads mini_dumps ascii_lower lenient_driver 100 200 (fun l => l)
    sample_llm 0 created_db.

Definition finished_db : DB := List.last sample_execution created_db.

(** What the coordinator owns of a task row. *)
Definition lifecycle (t : PromptBacktestTask)
    : task_status * option Z * option Z * option pystr :=
  (t_status t, t_started_at t, t_finished_at t, t_error_message t).

Definition lifecycle_of (tid : nat) (db : DB) :=
  option_map lifecycle (tasks db !! tid).

(** The store of [created_db] after the account was deleted. *)
Definition orphaned_db : DB :=
  {| accounts := []; decision_logs := decision_logs created_db;
     templates := []; bindings := [];
     tasks := tasks created_db; items := items created_db |}.

(** No occurrence of [sep] starts inside [a] when [a] is followed by
    [rest]. *)
Fixpoint clear_before (sep a rest : pystr) : bool :=
  match a with
  | [] => true
  | _ :: a' => negb (is_prefix sep (a ++ rest)) && clear_before sep a' rest
  end.

(** The interior of a fenced block as [fenced_json] and [fenced_plain]
    write it: the text between two newlines. *)
Definition interior (j : pystr) : pystr := 10%N :: j ++ [10%N].

(** The decision object written with curly double quotes. *)
Definition curly (s : string) : pystr := [8220%N] ++ u s ++ [8221%N].

Definition curly_decision : pystr :=
  u "{" ++ curly "operation" ++ u ": " ++ curly "hold" ++ u "}".

(** The normalisation in the words of the specification: newlines, tabs
    and carriage returns become spaces, curly quotes become straight
    quotes, en, em and non-breaking dashes become a plain hyphen. *)
Definition normalized_cp (c : N) : N :=
  if ((c =? 10) || (c =? 9) || (c =? 13))%N then 32%N
  else if ((c =? 8220) || (c =? 8221))%N then 34%N
  else if ((c =? 8216) || (c =? 8217))%N then 39%N
  else if ((c =? 8211) || (c =? 8212) || (c =? 8209))%N then 45%N
  else c.

Definition normalize_as_specified (s : pystr) : pystr := map normalized_cp s.

(** What the clean-up of the code does to one code point. *)
Definition cleaned_cp (c : N) : N :=
  if ((c =? 10) || (c =? 13) || (c =? 9))%N then 32%N
  else if ((c =? 8211) || (c =? 8212) || (c =? 8209))%N then 45%N
  else c.

(** The row [_save_item_result] writes for an existing item. *)
Definition saved_row (result : save_result) (item : PromptBacktestItem)
    : PromptBacktestItem :=
  if r_success result then completed_row result item else failed_row result item.

Definition bump (result : save_result) : PromptBacktestTask -> PromptBacktestTask :=
  if r_success result then incr_completed else incr_failed.

(** The counters of every task are the numbers of its item rows in the
    matching status, and the task has at most [total_count] rows. *)
Definition counters_match (db : DB) : Prop :=
  forall tid task,
    tasks db !! tid = Some task ->
    t_completed_count task = count (item_in tid ICompleted) (items db)
    /\ t_failed_count task = count (item_in tid IFailed) (items db)
    /\ count (item_of tid) (items db) <= t_total_count task.

Definition items_owned (db : DB) : Prop :=
  Forall (fun it => i_task_id it < length (tasks db)) (items db).

Definition is_running (tid : nat) (db : DB) : Prop :=
  exists task, tasks db !! tid = Some task /\ t_status task = TRunning.

Definition in_flight_ok (tid : nat) (db : DB) (d : item_data) : Prop :=
  task_id d = tid
  /\ exists it,
       items db !! item_id d = Some it
       /\ i_task_id it = tid /\ i_status it = IPending.

Definition run_ok (db : DB) (r : run) : Prop :=
  match r with
  | Retrying tid failed =>
      (exists task, tasks db !! tid = Some task /\ t_status task <> TRunning)
      /\ failed <> []
      /\ forall j,
           In j failed <->
           exists row, items db !! j = Some row /\ item_in tid IFailed row = true
  | Queued tid =>
      tid < length (tasks db) /\ count (item_in tid IFailed) (items db) = 0
  | Started tid => is_running tid db
  | Dispatched tid _ _ batch =>
      is_running tid db
      /\ NoDup (map item_id batch)
      /\ Forall (in_flight_ok tid db) batch
  end.

Definition invariant (w : World) : Prop :=
  counters_match (w_db w)
  /\ items_owned (w_db w)
  /\ NoDup (map run_task (w_runs w))
  /\ Forall (run_ok (w_db w)) (w_runs w).

Definition keeps_counters (f : PromptBacktestTask -> PromptBacktestTask) : Prop :=
  forall t,
    t_completed_count (f t) = t_completed_count t
    /\ t_failed_count (f t) = t_failed_count t
    /\ t_total_count (f t) = t_total_count t.

(** A request with one valid input and one input whose decision log does
    not exist, and the run of its task. *)
Definition dropping_request : CreateTaskRequest :=
  sample_request [input 7 1; input 99 2].

Definition dropped_db1 : DB :=
  snd (create_backtest_task mini_dumps dropping_request sample_db).
Definition dropped_db2 : DB := begin_task 100 0 dropped_db1.
Definition dropped_item : item_data :=
  {| item_id := 0; task_id := 0; modified_prompt := u "prompt " ++ str_of_nat 1;
     original_operation := Some (u "buy") |}.
Definition dropped_db3 : DB :=
  resolve_item mini_loads mini_dumps ascii_lower lenient_driver sample_llm
    (config_of sample_account) default_system_prompt dropped_db2 dropped_item.
Definition dropped_db4 : DB := finalize_task 200 0 dropped_db3.

(** Two retry requests for one task that overlap: both read the failed
    row before either commits. *)
Definition holding_llm : llm :=
  fun _ _ _ =>
    Ok (response_of [(u "content", PStr (fenced_json (decision_text "hold")))]).

Definition race_item : item_data :=
  {| item_id := 0; task_id := 0; modified_prompt := u "prompt " ++ str_of_nat 2;
     original_operation := Some (u "sell") |}.

Definition race_db1 : DB :=
  snd (create_backtest_task mini_dumps (sample_request [input 8 2]) sample_db).
Definition race_db2 : DB := begin_task 100 0 race_db1.
Definition race_db3 : DB :=
  resolve_item mini_loads mini_dumps ascii_lower lenient_driver sample_llm
    (config_of sample_account) default_system_prompt race_db2 race_item.
Definition race_db4 : DB := finalize_task 200 0 race_db3.
Definition race_db5 : DB := retry_commit 0 [0] race_db4.
Definition race_db6 : DB := begin_task 300 0 race_db5.
Definition race_db7 : DB :=
  resolve_item mini_loads mini_dumps ascii_lower lenient_driver holding_llm
    (config_of sample_account) default_system_prompt race_db6 race_item.
Definition race_db8 : DB := finalize_task 400 0 race_db7.
Definition race_db9 : DB := retry_commit 0 [0] race_db8.
Definition race_db10 : DB := begin_task 500 0 race_db9.
Definition race_db11 : DB :=
  resolve_item mini_loads mini_dumps ascii_lower lenient_driver holding_llm
    (config_of sample_account) default_system_prompt race_db10 race_item.
Definition race_db12 : DB := finalize_task 600 0 race_db11.

Definition dropped_final : World := {| w_db := dropped_db4; w_runs := [] |}.

(** The columns of an item row that no save writes: its task, the
    snapshot of the original decision and the modified prompt. *)
Definition same_snapshot (a b : PromptBacktestItem) : Prop :=
  i_task_id a = i_task_id b
  /\ i_original_decision_log_id a = i_original_decision_log_id b
  /\ i_original_operation a = i_original_operation b
  /\ i_original_symbol a = i_original_symbol b
  /\ i_original_target_portion a = i_original_target_portion b
  /\ i_original_reasoning a = i_original_reasoning b
  /\ i_original_decision_json a = i_original_decision_json b
  /\ i_original_realized_pnl a = i_original_realized_pnl b
  /\ i_original_decision_time a = i_original_decision_time b
  /\ i_original_prompt_template_name a = i_original_prompt_template_name b
  /\ i_modified_prompt a = i_modified_prompt b.

(** The decision columns of the result of an item row. *)
Definition same_decision_fields (a b : PromptBacktestItem) : Prop :=
  i_new_operation a = i_new_operation b
  /\ i_new_symbol a = i_new_symbol b
  /\ i_new_target_portion a = i_new_target_portion b
  /\ i_new_decision_json a = i_new_decision_json b
  /\ i_decision_changed a = i_decision_changed b
  /\ i_change_type a = i_change_type b.

(** [json.loads] raises [JSONDecodeError] on the text. *)
Definition decode_fails (json_loads : pystr -> res pyval) (s : pystr) : Prop :=
  exists e, json_loads s = Raise e /\ is_decode_error e = true.

(** An endpoint answers with [data]: the request returns with status 200,
    a JSON body that is an object, and a truthy [choices] entry in it. *)
Definition endpoint_answers
    (post : pystr -> list (pystr * pystr) -> pydict -> nat -> res http_response)
    (headers : list (pystr * pystr)) (payload : pydict) (timeout : nat)
    (endpoint : pystr) (data : pyval) : Prop :=
  exists response d,
    post endpoint headers payload timeout = Ok response
    /\ resp_status_code response = 200
    /\ resp_json response = Ok data
    /\ data = PDict d
    /\ truthy (dict_get k_choices (PList []) d) = true.

(** A transport on which every connection is refused. *)
Definition refusing_post
    : pystr -> list (pystr * pystr) -> pydict -> nat -> res http_response :=
  fun _ _ _ _ => Raise (Exn OtherException (u "connection refused")).

Definition sample_endpoints (base_url model : pystr) : list pystr :=
  [base_url ++ u "/chat/completions"; base_url ++ u "/v1/chat/completions"].

(* ================================================================== *)
(** * Properties *)
(* ================================================================== *)

(** ** Strings *)

Lemma str_eqb_eq (a b : pystr) : str_eqb a b = true <-> a = b.
Proof.
  revert b; induction a as [|x a IH]; intros [|y b]; simpl; split;
    try congruence; try reflexivity.
  - intros H. apply andb_true_iff in H as [Hx Hab].
    apply N.eqb_eq in Hx. apply IH in Hab. congruence.
  - intros H. injection H as -> ->. rewrite N.eqb_refl. simpl. now apply IH.
Qed.

Lemma str_eqb_refl (a : pystr) : str_eqb a a = true.
Proof. now apply str_eqb_eq. Qed.

Lemma str_eqb_neq (a b : pystr) : str_eqb a b = false <-> a <> b.
Proof.
  split.
  - intros H E. apply str_eqb_eq in E. congruence.
  - intros H. destruct (str_eqb a b) eqn:E; [|reflexivity].
    apply str_eqb_eq in E. contradiction.
Qed.

Lemma py_or_str (s : pystr) : py_or (PStr s) (PStr []) = PStr s.
Proof. now destruct s. Qed.

(** ** Change classifier *)

Section ClassifierFacts.

Variable str_lower : pystr -> pystr.

Lemma classify_change_strings (original new : pystr) :
  classify_change str_lower (PStr new) (Some original) =
  Ok (negb (str_eqb (str_lower original) (str_lower new)),
      if negb (str_eqb (str_lower original) (str_lower new))
      then Some (str_lower original ++ u "_to_" ++ str_lower new)
      else None).
Proof.
  unfold classify_change, of_optional. rewrite !py_or_str. reflexivity.
Qed.

End ClassifierFacts.

(** C7.  For every pair of operation strings the classification is a
    function of the two lowercased strings alone: [decision_changed] is
    true exactly when they differ, [change_type] is the label
    original_to_new built from the lowercased strings when they differ and
    absent otherwise, and "BUY" against "buy" is unchanged with no
    label.  [str_lower] is Python's [str.lower], known here on ASCII. *)
Theorem change_classification_by_lowercase
    (str_lower : pystr -> pystr)
    (lower_on_ascii :
       forall s, is_ascii s = true -> str_lower s = ascii_lower s)
    (original new : pystr) :
  exists decision_changed change_type,
    classify_change str_lower (PStr new) (Some original)
      = Ok (decision_changed, change_type)
    /\ (decision_changed = true <-> str_lower original <> str_lower new)
    /\ change_type =
         (if decision_changed
          then Some (str_lower original ++ u "_to_" ++ str_lower new)
          else None)
    /\ (forall original' new',
          str_lower original' = str_lower original ->
          str_lower new' = str_lower new ->
          classify_change str_lower (PStr new') (Some original')
            = Ok (decision_changed, change_type))
    /\ classify_change str_lower (PStr (u "buy")) (Some (u "BUY"))
         = Ok (false, None).
Proof.
  exists (negb (str_eqb (str_lower original) (str_lower new))).
  eexists. split; [apply classify_change_strings|].
  split; [|split; [reflexivity|split]].
  - rewrite negb_true_iff. apply str_eqb_neq.
  - intros o' n' Ho Hn. rewrite classify_change_strings, Ho, Hn. reflexivity.
  - rewrite classify_change_strings.
    rewrite (lower_on_ascii (u "BUY")), (lower_on_ascii (u "buy"))
      by reflexivity.
    reflexivity.
Qed.

Lemma change_classification_by_lowercase_witness :
  exists decision_changed change_type,
    classify_change ascii_lower (PStr (u "Hold")) (Some (u "BUY"))
      = Ok (decision_changed, change_type)
    /\ (decision_changed = true <-> ascii_lower (u "BUY") <> ascii_lower (u "Hold"))
    /\ change_type =
         (if decision_changed
          then Some (ascii_lower (u "BUY") ++ u "_to_" ++ ascii_lower (u "Hold"))
          else None)
    /\ (forall original' new',
          ascii_lower original' = ascii_lower (u "BUY") ->
          ascii_lower new' = ascii_lower (u "Hold") ->
          classify_change ascii_lower (PStr new') (Some original')
            = Ok (decision_changed, change_type))
    /\ classify_change ascii_lower (PStr (u "buy")) (Some (u "BUY"))
         = Ok (false, None).
Proof.
  apply (change_classification_by_lowercase ascii_lower).
  intros s _. reflexivity.
Defined.

Example classify_buy_to_hold :
  classify_change ascii_lower (PStr (u "Hold")) (Some (u "BUY"))
  = Ok (true, Some (u "buy_to_hold")).
Proof. reflexivity. Qed.

(** ** Response normaliser *)

Lemma get_content_never_raises (api_result : pyval) :
  exists v, _get_content_from_response api_result = Ok v.
Proof.
  unfold _get_content_from_response, try_except.
  destruct (get_content_body api_result); eauto.
Qed.

Lemma get_content_body_of_message (message : pydict) :
  get_content_body (response_of message) =
  let content := dict_get (u "content") (PStr []) message in
  match content with
  | PList blocks =>
      let* joined := join_method nl (text_parts blocks) in Ok (PStr joined)
  | _ => Ok (py_or content (PStr []))
  end.
Proof. reflexivity. Qed.

Lemma get_content_of_string (s : pystr) (others : pydict) :
  _get_content_from_response (response_of ((u "content", PStr s) :: others))
  = Ok (PStr s).
Proof.
  unfold _get_content_from_response. rewrite get_content_body_of_message.
  change (dict_get (u "content") (PStr []) ((u "content", PStr s) :: others))
    with (PStr s).
  cbv beta iota zeta. now rewrite py_or_str.
Qed.

Lemma all_strs_map (ss : list pystr) : all_strs (map PStr ss) = Some ss.
Proof. induction ss as [|s ss IH]; simpl; [reflexivity|]. now rewrite IH. Qed.

Lemma text_parts_app (a b : list pyval) :
  text_parts (a ++ b) = text_parts a ++ text_parts b.
Proof.
  induction a as [|x a IH]; [reflexivity|]. simpl.
  destruct x; try exact IH.
  destruct (eq_str _ _); simpl; now rewrite IH.
Qed.

(** When every block tagged [text] holds a string, the content is those
    strings joined by newlines, in order. *)
Lemma get_content_of_blocks (blocks : list pyval) (texts : list pystr)
    (others : pydict) :
  text_parts blocks = map PStr texts ->
  _get_content_from_response
    (response_of ((u "content", PList blocks) :: others))
  = Ok (PStr (py_join nl texts)).
Proof.
  intros H.
  unfold _get_content_from_response. rewrite get_content_body_of_message.
  change (dict_get (u "content") (PStr [])
            ((u "content", PList blocks) :: others))
    with (PList blocks).
  cbv beta iota zeta. unfold join_method. rewrite H, all_strs_map. reflexivity.
Qed.

(** C8.  The content extractor returns a content that is neither a
    string nor a list as it is whenever it is truthy: for a first choice
    whose message content is a single block object (not a list of
    blocks) the result is that object, not the empty text. *)
Theorem get_content_returns_non_text_content :
  let block := text_block (PStr (u "hold")) in
  _get_content_from_response (response_of [(u "content", block)]) = Ok block
  /\ _get_content_from_response (response_of [(u "content", PInt 5)])
     = Ok (PInt 5)
  /\ Ok block <> Ok (PStr []) /\ is_str block = false.
Proof. cbv zeta. repeat split; try reflexivity. discriminate. Qed.

Lemma py_strip_nil : py_strip [] = [].
Proof. reflexivity. Qed.

Lemma stripped_text_str (s : pystr) :
  stripped_text (PStr s) =
  match py_strip s with [] => [] | _ :: _ => [py_strip s] end.
Proof.
  unfold stripped_text. destruct s as [|c s]; [reflexivity|].
  simpl truthy at 1. simpl andb. simpl truthy.
  now destruct (py_strip (c :: s)).
Qed.

Lemma stripped_text_not_str (v : pyval) :
  is_str v = false -> stripped_text v = [].
Proof. now destruct v. Qed.

Lemma stripped_text_join (t : pystr) :
  py_join blank_line (stripped_text (PStr t)) = py_strip t.
Proof. rewrite stripped_text_str. now destruct (py_strip t). Qed.

Lemma extract_reasoning_never_raises (api_result : pyval) :
  exists s, _extract_reasoning_from_response api_result = Ok s.
Proof.
  unfold _extract_reasoning_from_response, try_except.
  destruct (extract_reasoning_body api_result); eauto.
Qed.

Lemma join_parts_or_empty (parts : list pystr) :
  match parts with
  | _ :: _ => Ok (py_join blank_line parts)
  | [] => Ok []
  end = Ok (py_join blank_line parts).
Proof. now destruct parts. Qed.

Lemma extract_reasoning_of_message (top : pydict) (choice : pydict)
    (more_choices : list pyval) (m : pydict) :
  dict_get (u "choices") PNone top = PList (PDict choice :: more_choices) ->
  dict_get (u "message") PNone choice = PDict m ->
  _extract_reasoning_from_response (PDict top)
  = Ok (py_join blank_line
          (reasoning_fields m ++ thinking_blocks m ++ thought_parts m)).
Proof.
  intros Hc Hm.
  unfold _extract_reasoning_from_response, extract_reasoning_body.
  cbn [get_method bind]. rewrite Hc.
  cbn [truthy is_list negb orb length Nat.eqb index0 bind is_dict get_method].
  rewrite Hm. rewrite join_parts_or_empty. reflexivity.
Qed.

Lemma reasoning_of_thinking_then_text (t x : pystr) :
  _extract_reasoning_from_response
    (response_of [(u "content", PList [thinking_block (PStr t); text_block (PStr x)])])
  = Ok (py_strip t).
Proof.
  unfold response_of.
  erewrite extract_reasoning_of_message; [|reflexivity|reflexivity].
  change (reasoning_fields _) with (@nil pystr).
  change (thought_parts _) with (@nil pystr).
  change (thinking_blocks _) with (stripped_text (PStr t) ++ []).
  rewrite !List.app_nil_r. cbn [app].
  now rewrite stripped_text_join.
Qed.

Lemma reasoning_of_text_then_thinking (t x : pystr) :
  _extract_reasoning_from_response
    (response_of [(u "content", PList [text_block (PStr x); thinking_block (PStr t)])])
  = Ok (py_strip t).
Proof.
  unfold response_of.
  erewrite extract_reasoning_of_message; [|reflexivity|reflexivity].
  change (reasoning_fields _) with (@nil pystr).
  change (thought_parts _) with (@nil pystr).
  change (thinking_blocks _) with (stripped_text (PStr t) ++ []).
  rewrite !List.app_nil_r. cbn [app].
  now rewrite stripped_text_join.
Qed.

Lemma spec_trimmed_matches_app (a b : list pyval) :
  spec_trimmed_matches (a ++ b)
  = spec_trimmed_matches a ++ spec_trimmed_matches b.
Proof.
  unfold spec_trimmed_matches.
  induction a as [|v a IH]; [reflexivity|].
  destruct v; try exact IH.
  cbn [app strings_of map List.filter].
  destruct (non_empty (py_strip s)); cbn [app]; now rewrite IH.
Qed.

Lemma stripped_text_is_match (v : pyval) :
  stripped_text v = spec_trimmed_matches [v].
Proof.
  destruct v; try reflexivity.
  rewrite stripped_text_str. unfold spec_trimmed_matches.
  cbn [strings_of map List.filter]. now destruct (py_strip s).
Qed.

Lemma reasoning_fields_are_matches (m : pydict) :
  reasoning_fields m
  = spec_trimmed_matches [dict_get (u "reasoning") PNone m;
                          dict_get (u "reasoning_content") PNone m].
Proof.
  unfold reasoning_fields. cbn [flat_map]. rewrite List.app_nil_r.
  rewrite !stripped_text_is_match.
  now rewrite <- spec_trimmed_matches_app.
Qed.

Lemma thinking_blocks_are_matches (blocks : list pyval) :
  flat_map thinking_of_block blocks
  = spec_trimmed_matches
      (map (field_of (u "thinking")) (List.filter typed_thinking blocks)).
Proof.
  induction blocks as [|block blocks IH]; [reflexivity|].
  cbn [flat_map List.filter]. rewrite IH.
  destruct block; try reflexivity.
  unfold thinking_of_block, typed_thinking. cbn [field_of].
  destruct (eq_str (dict_get (u "type") PNone d) (u "thinking"));
    [|reflexivity].
  cbn [map field_of]. rewrite stripped_text_is_match.
  now rewrite <- spec_trimmed_matches_app.
Qed.

Lemma thought_parts_are_matches (parts : list pyval) :
  flat_map thought_of_part parts
  = spec_trimmed_matches
      (map (field_of (u "text")) (List.filter flagged_thought parts)).
Proof.
  induction parts as [|part parts IH]; [reflexivity|].
  cbn [flat_map List.filter]. rewrite IH.
  destruct part; try reflexivity.
  unfold thought_of_part, flagged_thought. cbn [field_of].
  destruct (is_True (dict_get (u "thought") PNone d)); [|reflexivity].
  cbn [map field_of]. rewrite stripped_text_is_match.
  now rewrite <- spec_trimmed_matches_app.
Qed.

(** The three loops collect the matches of the specification. *)
Lemma reasoning_parts_are_matches (m : pydict) :
  reasoning_fields m ++ thinking_blocks m ++ thought_parts m
  = spec_reasoning_matches m.
Proof.
  unfold spec_reasoning_matches.
  rewrite !spec_trimmed_matches_app, <- reasoning_fields_are_matches.
  f_equal. f_equal.
  - unfold thinking_blocks.
    destruct (dict_get (u "content") PNone m); try reflexivity.
    apply thinking_blocks_are_matches.
  - unfold thought_parts.
    destruct (dict_get (u "parts") PNone m); try reflexivity.
    apply thought_parts_are_matches.
Qed.

(** A response without a first choice that is an object with an object
    message has no reasoning. *)
Lemma extract_reasoning_of_malformed (api_result : pyval) :
  (forall top choice more_choices m,
     api_result = PDict top ->
     dict_get (u "choices") PNone top = PList (PDict choice :: more_choices) ->
     dict_get (u "message") PNone choice = PDict m -> False) ->
  _extract_reasoning_from_response api_result = Ok [].
Proof.
  intros H. unfold _extract_reasoning_from_response, extract_reasoning_body.
  destruct api_result as [| | | | |l|top]; try reflexivity.
  cbn [get_method bind].
  destruct (dict_get (u "choices") PNone top) as [| | | | |choices|] eqn:Ec;
    cbn [is_list negb]; rewrite ?orb_true_r; cbn [orb]; try reflexivity.
  destruct choices as [|first more]; [reflexivity|].
  cbn [truthy is_list negb orb length Nat.eqb index0 bind].
    destruct first as [| | | | | |choice]; try reflexivity.
    cbn [is_dict negb get_method bind].
    destruct (dict_get (u "message") PNone choice) as [| | | | | |m] eqn:Em;
      try reflexivity.
    exfalso. exact (H top choice more m eq_refl Ec Em).
Qed.

(** C9, as the code has it.  Reasoning extraction never raises.  On a
    response whose first choice is an object with an object message it
    returns the matches joined by a blank line, the candidates taken in
    this order: the [reasoning] and [reasoning_content] fields of the
    message, the [thinking] of every content block typed [thinking], and
    the [text] of every [parts] entry whose [thought] is [True]; a
    candidate matches when it is a string that is not blank, and what is
    joined is the string trimmed; the result is empty when nothing
    matches.  On every other response, whatever is missing or malformed,
    the result is the empty text.  A content list with one thinking block
    and one text block gives the trimmed thinking text as reasoning and the
    text block's text as content, in either order of the two blocks. *)
Theorem reasoning_extraction_accumulates_trimmed
    (api_result : pyval) (t x : pystr) :
  (exists s, _extract_reasoning_from_response api_result = Ok s)
  /\ (forall top choice more_choices m,
        api_result = PDict top ->
        dict_get (u "choices") PNone top
        = PList (PDict choice :: more_choices) ->
        dict_get (u "message") PNone choice = PDict m ->
        _extract_reasoning_from_response api_result
        = Ok (py_join blank_line (spec_reasoning_matches m))
        /\ (spec_reasoning_matches m = [] ->
            _extract_reasoning_from_response api_result = Ok []))
  /\ ((forall top choice more_choices m,
         api_result = PDict top ->
         dict_get (u "choices") PNone top
         = PList (PDict choice :: more_choices) ->
         dict_get (u "message") PNone choice = PDict m -> False) ->
      _extract_reasoning_from_response api_result = Ok [])
  /\ (forall blocks,
        blocks = [thinking_block (PStr t); text_block (PStr x)]
        \/ blocks = [text_block (PStr x); thinking_block (PStr t)] ->
        _extract_reasoning_from_response
          (response_of [(u "content", PList blocks)]) = Ok (py_strip t)
        /\ _get_content_from_response
             (response_of [(u "content", PList blocks)]) = Ok (PStr x)).
Proof.
  split; [apply extract_reasoning_never_raises|].
  split.
  { intros top choice more_choices m -> Hc Hm.
    rewrite (extract_reasoning_of_message top choice more_choices m Hc Hm).
    rewrite reasoning_parts_are_matches.
    split; [reflexivity|]. now intros ->. }
  split; [apply extract_reasoning_of_malformed|].
  intros blocks [-> | ->].
  - split; [apply reasoning_of_thinking_then_text|].
    now apply (get_content_of_blocks _ [x]).
  - split; [apply reasoning_of_text_then_thinking|].
    now apply (get_content_of_blocks _ [x]).
Qed.

Lemma reasoning_extraction_accumulates_trimmed_witness :
  _extract_reasoning_from_response (response_of mixed_message)
  = Ok (u "a" ++ blank_line ++ u "b" ++ blank_line ++ u "c" ++ blank_line ++ u "d").
Proof.
  refine (eq_trans
    (proj1
      (proj1 (proj2
        (reasoning_extraction_accumulates_trimmed
           (response_of mixed_message) [] []))
        [(u "choices", PList [PDict [(u "message", PDict mixed_message)]])]
        [(u "message", PDict mixed_message)] [] mixed_message
        eq_refl eq_refl eq_refl)) _).
  reflexivity.
Defined.

(** C9, as stated, fails: the thinking block's text is not returned as it
    is but trimmed. *)
Lemma reasoning_is_not_the_thinking_text :
  _extract_reasoning_from_response
    (response_of
       [(u "content",
         PList [thinking_block (PStr (u " plan ")); text_block (PStr (u "hold"))])])
  <> Ok (u " plan ").
Proof. rewrite reasoning_of_thinking_then_text. discriminate. Qed.

(** ** Saving an item result *)

Lemma lookup_set_item (rows : list PromptBacktestItem) (i : nat)
    (old row : PromptBacktestItem) :
  rows !! i = Some old -> <[i := row]> rows !! i = Some row.
Proof. intros H. apply list_lookup_insert_eq. now apply lookup_lt_Some in H. Qed.

Lemma save_missing_item (item_id task_id : nat) (result : save_result) (db : DB) :
  items db !! item_id = None ->
  save_item_session item_id task_id result db = None
  /\ saved_store item_id task_id result db = db.
Proof.
  intros H. unfold saved_store, save_item_session. now rewrite H.
Qed.

Lemma save_keeps_other_tables (item_id task_id : nat) (result : save_result)
    (db : DB) :
  let db' := saved_store item_id task_id result db in
  accounts db' = accounts db /\ decision_logs db' = decision_logs db
  /\ templates db' = templates db /\ bindings db' = bindings db.
Proof.
  unfold saved_store, save_item_session.
  destruct (items db !! item_id); [|now cbv zeta].
  destruct (r_success result); now cbv zeta.
Qed.

Section SaveOutcome.

Variable driver_rejects : save_result -> option exn.

Lemma save_accepted (item_id task_id : nat) (result : save_result) (db : DB) :
  commit_error driver_rejects result = None ->
  _save_item_result driver_rejects item_id task_id result db
  = Ok (saved_store item_id task_id result db).
Proof.
  intros H. unfold _save_item_result, saved_store.
  destruct (save_item_session item_id task_id result db); [|reflexivity].
  now rewrite H.
Qed.

Lemma save_literal (item_id task_id : nat) (result : save_result) (db : DB) :
  binds_literals_only result = true ->
  _save_item_result driver_rejects item_id task_id result db
  = Ok (saved_store item_id task_id result db).
Proof.
  intros H. apply save_accepted. unfold commit_error. now rewrite H.
Qed.

Lemma save_rejected (item_id task_id : nat) (result : save_result) (db : DB)
    (item : PromptBacktestItem) (e : exn) :
  items db !! item_id = Some item ->
  commit_error driver_rejects result = Some e ->
  _save_item_result driver_rejects item_id task_id result db = Raise e.
Proof.
  intros Hrow H. unfold _save_item_result, save_item_session.
  rewrite Hrow. destruct (r_success result); now rewrite H.
Qed.

(** Either the store after the session, or the exception of a rejected
    commit and no store. *)
Lemma save_outcome (item_id task_id : nat) (result : save_result) (db : DB) :
  _save_item_result driver_rejects item_id task_id result db
  = Ok (saved_store item_id task_id result db)
  \/ exists e,
       commit_error driver_rejects result = Some e
       /\ _save_item_result driver_rejects item_id task_id result db = Raise e.
Proof.
  destruct (commit_error driver_rejects result) as [e|] eqn:E.
  - destruct (items db !! item_id) as [item|] eqn:Hrow.
    + right. exists e. split; [reflexivity|].
      now apply (save_rejected _ _ _ _ item).
    + left. unfold _save_item_result, saved_store, save_item_session.
      now rewrite Hrow.
  - left. now apply save_accepted.
Qed.

Lemma commit_error_from_driver (result : save_result) (e : exn) :
  commit_error driver_rejects result = Some e ->
  driver_rejects result = Some e.
Proof.
  unfold commit_error. now destruct (binds_literals_only result).
Qed.

End SaveOutcome.




(** ** Retry *)

Lemma length_filter_count {A} (p : A -> bool) (l : list A) :
  length (List.filter p l) = count p l.
Proof.
  induction l as [|x l IH]; [reflexivity|]. simpl.
  destruct (p x); simpl; now rewrite IH.
Qed.

Lemma lookup_map {A B} (f : A -> B) (l : list A) (i : nat) :
  map f l !! i = option_map f (l !! i).
Proof.
  revert i; induction l as [|x l IH]; intros [|i]; try reflexivity.
  simpl. apply IH.
Qed.

Lemma count_zero_filter {A} (p : A -> bool) (l : list A) :
  count p l = 0 -> List.filter p l = [].
Proof.
  intros H. rewrite <- length_filter_count in H.
  now destruct (List.filter p l).
Qed.

Lemma item_in_reset_if_failed (tid tid' : nat) (s : item_status)
    (i : PromptBacktestItem) :
  item_in tid' s (reset_if_failed tid i) =
  if item_in tid IFailed i
  then Nat.eqb (i_task_id i) tid' && item_status_eqb IPending s
  else item_in tid' s i.
Proof.
  unfold reset_if_failed. now destruct (item_in tid IFailed i).
Qed.

Lemma count_failed_after_reset (tid : nat) (rows : list PromptBacktestItem) :
  count (item_in tid IFailed) (map (reset_if_failed tid) rows) = 0.
Proof.
  induction rows as [|x rows IH]; [reflexivity|].
  simpl. rewrite IH, item_in_reset_if_failed.
  destruct (item_in tid IFailed x) eqn:E; [|reflexivity].
  simpl. now rewrite andb_false_r.
Qed.

Lemma task_status_eqb_eq (a b : task_status) :
  task_status_eqb a b = true <-> a = b.
Proof. destruct a, b; simpl; split; congruence. Qed.

(** C4.  On a task that is not running, retry with no failed item
    answers "No failed items to retry" with retry count 0 and leaves the
    database as it is; with N > 0 failed items it answers with retry count
    N, every failed item of the task is pending with new operation,
    symbol, sizing, reasoning, decision JSON, decision_changed,
    change_type and error message cleared, every other item is as before,
    and the task has failed_count 0, no finish time and status pending,
    its other fields and all other tasks being as before. *)
Theorem retry_resets_exactly_the_failed_items
    (tid : nat) (db : DB) (task : PromptBacktestTask)
    (task_row : tasks db !! tid = Some task)
    (not_running : t_status task <> TRunning) :
  let n := count (item_in tid IFailed) (items db) in
  let out := retry_failed_items tid db in
  (n = 0 ->
   out = (Returns {| rr_success := false;
                     rr_message := u "No failed items to retry";
                     rr_retry_count := 0 |}, db))
  /\ (0 < n ->
      fst out = Returns {| rr_success := true;
                           rr_message := u "Retrying " ++ str_of_nat n
                                           ++ u " failed items";
                           rr_retry_count := n |}
      /\ length (items (snd out)) = length (items db)
      /\ (forall j it,
            items db !! j = Some it ->
            items (snd out) !! j
            = Some (if item_in tid IFailed it then reset_item it else it))
      /\ count (item_in tid IFailed) (items (snd out)) = 0
      /\ tasks (snd out) !! tid = Some (reset_task task)
      /\ (forall k, k <> tid -> tasks (snd out) !! k = tasks db !! k))
  /\ (forall it,
        let r := reset_item it in
        i_status r = IPending /\ i_new_operation r = PNone
        /\ i_new_symbol r = PNone /\ i_new_target_portion r = PNone
        /\ i_new_reasoning r = PNone /\ i_new_decision_json r = None
        /\ i_decision_changed r = None /\ i_change_type r = None
        /\ i_error_message r = None
        /\ i_task_id r = i_task_id it
        /\ i_modified_prompt r = i_modified_prompt it
        /\ i_original_operation r = i_original_operation it
        /\ i_original_decision_log_id r = i_original_decision_log_id it)
  /\ t_status (reset_task task) = TPending
  /\ t_failed_count (reset_task task) = 0
  /\ t_finished_at (reset_task task) = None
  /\ t_completed_count (reset_task task) = t_completed_count task
  /\ t_total_count (reset_task task) = t_total_count task.
Proof.
  cbv zeta.
  assert (Hs : task_status_eqb (t_status task) TRunning = false).
  { destruct (task_status_eqb (t_status task) TRunning) eqn:E; [|reflexivity].
    apply task_status_eqb_eq in E. contradiction. }
  unfold retry_failed_items. rewrite task_row, Hs.
  split; [|split].
  - intros Hn. now rewrite (count_zero_filter _ _ Hn).
  - intros Hn. rewrite <- length_filter_count in Hn.
    destruct (List.filter (item_in tid IFailed) (items db)) as [|f fs] eqn:Ef;
      [simpl in Hn; lia|].
    rewrite <- length_filter_count, Ef.
    cbn [fst snd with_tasks with_items tasks items].
    repeat split.
    + apply length_map.
    + intros j it Hj. rewrite lookup_map, Hj. reflexivity.
    + apply count_failed_after_reset.
    + now rewrite list_lookup_alter_eq, task_row.
    + intros k Hk. now apply list_lookup_alter_ne.
  - repeat split.
Qed.

(** ** A sample run *)

Example finished_db_counts :
  option_map (fun t => (t_status t, t_total_count t, t_completed_count t,
                        t_failed_count t, t_started_at t, t_finished_at t))
             (tasks finished_db !! 0)
  = Some (TCompleted, 2, 1, 1, Some 100%Z, Some 200%Z)
  /\ map (fun i => (i_status i, i_change_type i, i_error_message i))
         (items finished_db)
     = [(ICompleted, Some (u "buy_to_hold"), None);
        (IFailed, None, Some msg_no_response)].
Proof. split; reflexivity. Qed.

Lemma retry_resets_exactly_the_failed_items_witness :
  count (item_in 0 IFailed) (items (snd (retry_failed_items 0 finished_db))) = 0
  /\ option_map t_failed_count (tasks (snd (retry_failed_items 0 finished_db)) !! 0)
     = Some 0.
Proof.
  assert (Ht : exists task,
             tasks finished_db !! 0 = Some task /\ t_status task <> TRunning).
  { eexists. split; [vm_compute; reflexivity|vm_compute; discriminate]. }
  destruct Ht as (task & Ht & Hnr).
  destruct (retry_resets_exactly_the_failed_items 0 finished_db task Ht Hnr)
    as (_ & H & _).
  destruct H as (_ & _ & _ & Hc & Hrow & _); [vm_compute; lia|].
  split; [exact Hc|]. now rewrite Hrow.
Defined.

(** ** Item worker *)

Section WorkerFacts.

Variable json_loads : pystr -> res pyval.
Variable json_dumps : pyval -> pystr.
Variable str_lower : pystr -> pystr.
Variable driver_rejects : save_result -> option exn.

Abbreviation worker := (_process_and_save_item json_loads json_dumps str_lower driver_rejects).
Abbreviation resolve := (resolve_item json_loads json_dumps str_lower driver_rejects).

(** An exception of the provider call goes to the handler, which saves a
    failed item whose message is the first 500 code points of the
    exception text. *)
Lemma worker_call_raises (call_llm : llm) (item : item_data)
    (config : account_config) (system_prompt : pystr) (db : DB) (e : exn) :
  call_llm config system_prompt (modified_prompt item) = Raise e ->
  worker call_llm item config system_prompt db
  = _save_item_result driver_rejects (item_id item) (task_id item)
      (failure_result (slice_to 500 (exn_str e)) PNone) db.
Proof.
  intros H. unfold _process_and_save_item, process_item_try. now rewrite H.
Qed.

(** The handler either raises, from [content[:2000]] or from its own
    save, or leaves the store of a failed item. *)
Lemma handler_cases (item : item_data) (db : DB) (content : pyval) (e : exn) :
  let out :=
    (let* raw :=
       if truthy content then slice_method 2000 content else Ok PNone in
     _save_item_result driver_rejects (item_id item) (task_id item)
       (failure_result (slice_to 500 (exn_str e)) raw) db) in
  (exists e', out = Raise e')
  \/ exists result,
       out = Ok (saved_store (item_id item) (task_id item) result db).
Proof.
  cbv zeta.
  destruct (if truthy content then slice_method 2000 content else Ok PNone)
    as [raw|e']; cbn [bind]; [|eauto].
  destruct (save_outcome driver_rejects (item_id item) (task_id item)
              (failure_result (slice_to 500 (exn_str e)) raw) db)
    as [->|(e' & _ & ->)]; eauto.
Qed.

(** With a string as content and a driver that binds what the worker
    hands it, whatever the [try] block raises is turned into a saved
    failure: the worker returns. *)
Lemma worker_returns_on_text_content (call_llm : llm) (item : item_data)
    (config : account_config) (system_prompt : pystr) (db : DB)
    (api_response : pyval) (s : pystr) :
  (forall result, commit_error driver_rejects result = None) ->
  call_llm config system_prompt (modified_prompt item) = Ok api_response ->
  _get_content_from_response api_response = Ok (PStr s) ->
  exists db', worker call_llm item config system_prompt db = Ok db'.
Proof.
  intros Hbind Hc Hs. unfold _process_and_save_item, process_item_try.
  rewrite Hc. destruct (truthy api_response); cbn [negb].
  2:{ rewrite save_accepted by apply Hbind. eexists. reflexivity. }
  rewrite Hs.
  match goal with |- context [try_except ?b _] => destruct b eqn:E end.
  - eexists. reflexivity.
  - cbn [try_except].
    destruct s; cbn [truthy slice_method bind];
      rewrite save_accepted by apply Hbind; eexists; reflexivity.
Qed.

(** Whatever the provider answers, the worker either raises without
    having written anything or leaves the store of one accepted save for
    its item. *)
Lemma worker_cases (call_llm : llm) (item : item_data)
    (config : account_config) (system_prompt : pystr) (db : DB) :
  (exists e, worker call_llm item config system_prompt db = Raise e)
  \/ exists result,
       worker call_llm item config system_prompt db
       = Ok (saved_store (item_id item) (task_id item) result db).
Proof.
  assert (Hsave : forall content result,
    let out :=
      try_except
        (_save_item_result driver_rejects (item_id item) (task_id item) result db)
        (fun e =>
           let* raw :=
             if truthy content then slice_method 2000 content else Ok PNone in
           _save_item_result driver_rejects (item_id item) (task_id item)
             (failure_result (slice_to 500 (exn_str e)) raw) db) in
    (exists e', out = Raise e')
    \/ exists result',
         out = Ok (saved_store (item_id item) (task_id item) result' db)).
  { intros content result. cbv zeta.
    destruct (save_outcome driver_rejects (item_id item) (task_id item)
                result db) as [->|(e' & _ & ->)]; cbn [try_except];
      [eauto|apply handler_cases]. }
  unfold _process_and_save_item, process_item_try.
  destruct (call_llm config system_prompt (modified_prompt item))
    as [api_response|e]; cbn [try_except];
    [|exact (handler_cases item db PNone e)].
  destruct (truthy api_response); cbn [negb];
    [|exact (Hsave PNone _)].
  destruct (_get_content_from_response api_response) as [content|e];
    cbn [try_except]; [|exact (handler_cases item db PNone e)].
  destruct (_extract_reasoning_from_response api_response) as [reasoning|e];
    cbn [try_except bind]; [|exact (handler_cases item db content e)].
  destruct (truthy content) eqn:Tc; cbn [negb].
  2:{ pose proof (Hsave content (failure_result msg_empty_content PNone)) as H.
      cbv zeta in H. now rewrite Tc in H. }
  destruct (_parse_decision json_loads content) as [decision|e];
    cbn [bind try_except].
  2:{ pose proof (handler_cases item db content e) as H.
      cbv zeta in H. now rewrite Tc in H. }
  assert (Hraw :
    let out :=
      try_except
        (let* raw := slice_method 2000 content in
         _save_item_result driver_rejects (item_id item) (task_id item)
           (failure_result msg_parse_failed raw) db)
        (fun e =>
           let* raw := slice_method 2000 content in
           _save_item_result driver_rejects (item_id item) (task_id item)
             (failure_result (slice_to 500 (exn_str e)) raw) db) in
    (exists e', out = Raise e')
    \/ exists result',
         out = Ok (saved_store (item_id item) (task_id item) result' db)).
  { cbv zeta. destruct (slice_method 2000 content) as [raw|e] eqn:Er;
      cbn [bind try_except]; [|eauto].
    pose proof (Hsave content (failure_result msg_parse_failed raw)) as H.
    cbv zeta in H. now rewrite Tc, Er in H. }
  assert (Hhandler : forall e,
    let out :=
      (let* raw := slice_method 2000 content in
       _save_item_result driver_rejects (item_id item) (task_id item)
         (failure_result (slice_to 500 (exn_str e)) raw) db) in
    (exists e', out = Raise e')
    \/ exists result',
         out = Ok (saved_store (item_id item) (task_id item) result' db)).
  { intros e. pose proof (handler_cases item db content e) as H.
    cbv zeta in H |- *. now rewrite Tc in H. }
  destruct decision as [[|entry more]|]; [exact Hraw| |exact Hraw].
  destruct (classify_change str_lower _ _) as [change|e];
    cbn [bind try_except]; [|apply Hhandler].
  destruct (if truthy (PStr reasoning) then Ok (PStr reasoning)
            else slice_method 2000 content) as [final|e];
    cbn [bind try_except]; [|apply Hhandler].
  match goal with
  | |- context [try_except (_save_item_result _ _ _ ?r _) _] =>
      pose proof (Hsave content r) as H
  end.
  cbv zeta in H. now rewrite Tc in H.
Qed.

(** Resolving an item is one call of [saved_store] for that item,
    or nothing at all. *)
Lemma resolve_item_cases (call_llm : llm) (config : account_config)
    (system_prompt : pystr) (db : DB) (item : item_data) :
  let db' := resolve call_llm config system_prompt db item in
  db' = db
  \/ exists result, db' = saved_store (item_id item) (task_id item) result db.
Proof.
  cbv zeta. unfold resolve_item.
  destruct (worker_cases call_llm item config system_prompt db)
    as [[e ->]|[result ->]]; eauto.
Qed.

End WorkerFacts.

(** C2.  A provider response whose message content is the number 5
    makes the [try] block raise ([int] has no [strip]); the handler then
    evaluates [content[:2000]] on that number and raises itself, so
    [_process_and_save_item] raises instead of saving a failed outcome,
    and the loop of [_process_items_realtime] only logs it: the database is
    unchanged and the item stays as it was. *)
Theorem worker_handler_raises_on_numeric_content
    (json_loads : pystr -> res pyval) (json_dumps : pyval -> pystr)
    (str_lower : pystr -> pystr)
    (driver_rejects : save_result -> option exn)
    (item : item_data) (config : account_config) (system_prompt : pystr)
    (db : DB) :
  let call_llm : llm :=
    fun _ _ _ => Ok (response_of [(u "content", PInt 5)]) in
  _process_and_save_item json_loads json_dumps str_lower driver_rejects call_llm item config
    system_prompt db
  = Raise (Exn TypeError (u "'int' object is not subscriptable"))
  /\ resolve_item json_loads json_dumps str_lower driver_rejects call_llm config
       system_prompt db item = db.
Proof. split; reflexivity. Qed.

Example worker_leaves_item_pending :
  let call_llm : llm :=
    fun _ _ _ => Ok (response_of [(u "content", PInt 5)]) in
  let trace :=
    execute_backtest_task mini_loads mini_dumps ascii_lower lenient_driver 100 200
      (fun l => l) call_llm 0 created_db in
  let final := List.last trace created_db in
  map i_status (items final) = [IPending; IPending]
  /\ option_map (fun t => (t_status t, t_total_count t, t_completed_count t,
                           t_failed_count t))
                (tasks final !! 0)
     = Some (TCompleted, 2, 0, 0).
Proof. split; reflexivity. Qed.

(** ** Task coordinator *)

Lemma map_alter_invariant {A B} (g : A -> B) (f : A -> A) (i : nat) (l : list A) :
  (forall x, g (f x) = g x) -> map g (alter f i l) = map g l.
Proof.
  intros H. revert i; induction l as [|x l IH]; intros [|i]; simpl;
    try reflexivity.
  - now rewrite H.
  - f_equal. apply IH.
Qed.

Lemma save_keeps_lifecycles (item_id task_id : nat) (result : save_result)
    (db : DB) :
  map lifecycle (tasks (saved_store item_id task_id result db))
  = map lifecycle (tasks db).
Proof.
  unfold saved_store, save_item_session.
  destruct (items db !! item_id); [|reflexivity].
  destruct (r_success result); simpl; now apply map_alter_invariant.
Qed.

Lemma lifecycle_of_map (tid : nat) (a b : DB) :
  map lifecycle (tasks a) = map lifecycle (tasks b) ->
  lifecycle_of tid a = lifecycle_of tid b.
Proof.
  intros H. unfold lifecycle_of. rewrite <- !lookup_map. now rewrite H.
Qed.

Lemma last_cons_default {A} (x : A) (l : list A) (d : A) :
  List.last (x :: l) d = List.last l x.
Proof.
  revert x d; induction l as [|y l IH]; intros x d; [reflexivity|].
  change (List.last (x :: y :: l) d) with (List.last (y :: l) d).
  now rewrite !IH.
Qed.

Section CoordinatorFacts.

Variable json_loads : pystr -> res pyval.
Variable json_dumps : pyval -> pystr.
Variable str_lower : pystr -> pystr.
Variable driver_rejects : save_result -> option exn.

Abbreviation run_items :=
  (_process_items_realtime json_loads json_dumps str_lower driver_rejects).
Abbreviation execute := (execute_backtest_task json_loads json_dumps str_lower driver_rejects).

(** Whatever happens to an item, failed outcome or escaped exception, no
    task changes status, timestamps or error message. *)
Lemma resolve_item_keeps_lifecycles (call_llm : llm) (config : account_config)
    (system_prompt : pystr) (db : DB) (item : item_data) :
  map lifecycle
    (tasks (resolve_item json_loads json_dumps str_lower driver_rejects call_llm config
              system_prompt db item))
  = map lifecycle (tasks db).
Proof.
  destruct (resolve_item_cases json_loads json_dumps str_lower driver_rejects call_llm config
              system_prompt db item) as [->|[result ->]];
    [reflexivity|apply save_keeps_lifecycles].
Qed.

Lemma run_items_keep_lifecycles (call_llm : llm) (batch : list item_data)
    (config : account_config) (system_prompt : pystr) (db : DB) :
  Forall (fun s => map lifecycle (tasks s) = map lifecycle (tasks db))
         (run_items call_llm batch config system_prompt db)
  /\ map lifecycle
       (tasks (List.last (run_items call_llm batch config system_prompt db) db))
     = map lifecycle (tasks db)
  /\ length (run_items call_llm batch config system_prompt db) = length batch.
Proof.
  revert db. induction batch as [|item batch IH]; intros db.
  - repeat split. constructor.
  - cbn [_process_items_realtime].
    set (db' := resolve_item _ _ _ _ _ _ _ db item).
    assert (E : map lifecycle (tasks db') = map lifecycle (tasks db))
      by apply resolve_item_keeps_lifecycles.
    destruct (IH db') as (Hall & Hlast & Hlen).
    split; [|split].
    + constructor; [exact E|].
      eapply Forall_impl; [exact Hall|]. intros s Hs. cbn beta in Hs. congruence.
    + rewrite last_cons_default. congruence.
    + simpl. now rewrite Hlen.
Qed.

End CoordinatorFacts.

Lemma lifecycle_of_begin (started : Z) (tid : nat) (db : DB)
    (task : PromptBacktestTask) :
  tasks db !! tid = Some task ->
  lifecycle_of tid (begin_task started tid db)
  = Some (TRunning, Some started, t_finished_at task, t_error_message task).
Proof.
  intros H. unfold lifecycle_of, begin_task. cbn [tasks with_tasks].
  now rewrite list_lookup_alter_eq, H.
Qed.

Lemma lifecycle_of_fail (stopped : Z) (tid : nat) (db : DB) l :
  lifecycle_of tid db = Some l ->
  lifecycle_of tid (fail_task stopped tid db)
  = Some (TFailed, snd (fst (fst l)), Some stopped, Some account_not_found).
Proof.
  unfold lifecycle_of, fail_task. cbn [tasks with_tasks].
  rewrite list_lookup_alter_eq.
  destruct (tasks db !! tid) as [t|]; [|discriminate].
  intros [= <-]. reflexivity.
Qed.

Lemma lifecycle_of_finalize (stopped : Z) (tid : nat) (db : DB) l :
  lifecycle_of tid db = Some l ->
  lifecycle_of tid (finalize_task stopped tid db)
  = Some (TCompleted, snd (fst (fst l)), Some stopped, snd l).
Proof.
  unfold lifecycle_of, finalize_task. cbn [tasks with_tasks].
  rewrite list_lookup_alter_eq.
  destruct (tasks db !! tid) as [t|]; [|discriminate].
  intros [= <-]. reflexivity.
Qed.

(** C3, as the code has it.  A run of [execute_backtest_task] on an
    existing task first commits status running with the start time.  With
    the account present, every later commit up to the last leaves the task
    running with that start time, whatever the outcome of the items (one
    commit at most per dispatched item), and the last commit sets status
    completed with the finish time.  With the account missing there are
    exactly two commits: the task is running after the first, and after
    the second it is failed with the message "Account not found" and the
    finish time, with no item row and no counter touched. *)
Theorem task_status_follows_the_run
    (json_loads : pystr -> res pyval) (json_dumps : pyval -> pystr)
    (str_lower : pystr -> pystr)
    (driver_rejects : save_result -> option exn)
    (started stopped : Z) (completion : list item_data -> list item_data)
    (call_llm : llm) (tid : nat) (db : DB) (task : PromptBacktestTask)
    (task_row : tasks db !! tid = Some task) :
  let trace :=
    execute_backtest_task json_loads json_dumps str_lower driver_rejects started stopped
      completion call_llm tid db in
  let running :=
    (TRunning, Some started, t_finished_at task, t_error_message task) in
  let db1 := begin_task started tid db in
  (forall account,
     find_account (t_account_id task) db = Some account ->
     exists resolved final,
       trace = db1 :: resolved ++ [final]
       /\ length resolved = length (completion (pending_items tid db))
       /\ Forall (fun s => lifecycle_of tid s = Some running) (db1 :: resolved)
       /\ lifecycle_of tid final
          = Some (TCompleted, Some started, Some stopped, t_error_message task))
  /\ (find_account (t_account_id task) db = None ->
      trace = [db1; fail_task stopped tid db1]
      /\ lifecycle_of tid db1 = Some running
      /\ lifecycle_of tid (fail_task stopped tid db1)
         = Some (TFailed, Some started, Some stopped, Some account_not_found)
      /\ items (fail_task stopped tid db1) = items db
      /\ option_map (fun t => (t_completed_count t, t_failed_count t))
                    (tasks (fail_task stopped tid db1) !! tid)
         = Some (t_completed_count task, t_failed_count task)).
Proof.
  cbv zeta. unfold execute_backtest_task. rewrite task_row.
  change (find_account (t_account_id task) (begin_task started tid db))
    with (find_account (t_account_id task) db).
  pose proof (lifecycle_of_begin started tid db task task_row) as Hrun.
  split.
  - intros account Hacc. rewrite Hacc.
    change (pending_items tid (begin_task started tid db))
      with (pending_items tid db).
    set (db1 := begin_task started tid db) in *.
    set (resolved := _process_items_realtime _ _ _ _ _ _ _ _ db1).
    destruct (run_items_keep_lifecycles json_loads json_dumps str_lower driver_rejects call_llm
                (completion (pending_items tid db)) (config_of account)
                (_get_system_prompt db1 (acc_id account)) db1)
      as (Hall & Hlast & Hlen).
    fold resolved in Hall, Hlast, Hlen.
    exists resolved, (finalize_task stopped tid (List.last resolved db1)).
    split; [reflexivity|]. split; [exact Hlen|]. split.
    + constructor; [exact Hrun|].
      eapply Forall_impl; [exact Hall|]. intros s Hs. cbn beta in Hs.
      now rewrite (lifecycle_of_map tid s db1 Hs).
    + rewrite (lifecycle_of_finalize stopped tid _ _
                 (eq_trans (lifecycle_of_map tid _ db1 Hlast) Hrun)).
      reflexivity.
  - intros Hacc. rewrite Hacc. split; [reflexivity|]. split; [exact Hrun|].
    split; [now rewrite (lifecycle_of_fail stopped tid _ _ Hrun)|].
    split; [reflexivity|].
    unfold fail_task, begin_task. cbn [tasks with_tasks].
    now rewrite !list_lookup_alter_eq, task_row.
Qed.

Lemma task_status_follows_the_run_witness :
  exists resolved final,
    sample_execution = begin_task 100 0 created_db :: resolved ++ [final]
    /\ length resolved = 2
    /\ Forall (fun s => lifecycle_of 0 s = Some (TRunning, Some 100%Z, None, None))
              (begin_task 100 0 created_db :: resolved)
    /\ lifecycle_of 0 final = Some (TCompleted, Some 100%Z, Some 200%Z, None).
Proof.
  exact (proj1 (task_status_follows_the_run mini_loads mini_dumps ascii_lower lenient_driver
                  100 200 (fun l => l) sample_llm 0 created_db
                  (new_task mini_dumps (sample_request [input 7 1; input 8 2])
                     sample_db)
                  eq_refl)
               sample_account eq_refl).
Defined.

(** C3, as stated, fails: with the account missing the task does enter
    running; that status is committed before the account is looked up. *)
Lemma missing_account_enters_running :
  find_account 1 orphaned_db = None
  /\ map (fun s => option_map t_status (tasks s !! 0))
         (execute_backtest_task mini_loads mini_dumps ascii_lower lenient_driver 100 200
            (fun l => l) sample_llm 0 orphaned_db)
     = [Some TRunning; Some TFailed]
  /\ ~ (forall s,
          In s (execute_backtest_task mini_loads mini_dumps ascii_lower lenient_driver 100 200
                  (fun l => l) sample_llm 0 orphaned_db) ->
          option_map t_status (tasks s !! 0) <> Some TRunning).
Proof.
  split; [reflexivity|]. split; [reflexivity|].
  intros H. apply (H (begin_task 100 0 orphaned_db)); [left|]; reflexivity.
Qed.

(** ** Substrings, splitting and trimming *)

Lemma is_prefix_app_l (p q s : pystr) :
  is_prefix (p ++ q) s = true -> is_prefix p s = true.
Proof.
  revert s; induction p as [|a p IH]; intros s; [reflexivity|].
  destruct s as [|b s]; simpl; [discriminate|].
  intros H. apply andb_true_iff in H as [-> H]. simpl. now apply IH.
Qed.

Lemma is_prefix_self_app (p b : pystr) : is_prefix p (p ++ b) = true.
Proof.
  induction p as [|a p IH]; [reflexivity|]. simpl. now rewrite N.eqb_refl.
Qed.

Lemma is_prefix_app_r (p a w : pystr) :
  is_prefix p a = true -> is_prefix p (a ++ w) = true.
Proof.
  revert a; induction p as [|x p IH]; intros a; [reflexivity|].
  destruct a as [|y a]; simpl; [discriminate|].
  intros H. apply andb_true_iff in H as [-> H]. simpl. now apply IH.
Qed.

(** A separator found in [s ++ c :: t] at the start, when [c] is not one
    of its code points, lies within [s]. *)
Lemma is_prefix_before_other (p s t : pystr) (c : N) :
  ~ In c p -> is_prefix p (s ++ c :: t) = true -> is_prefix p s = true.
Proof.
  revert s; induction p as [|a p IH]; intros s Hc; [reflexivity|].
  destruct s as [|b s]; simpl.
  - intros H. apply andb_true_iff in H as [H _]. apply N.eqb_eq in H.
    exfalso. apply Hc. now left.
  - intros H. apply andb_true_iff in H as [-> H]. simpl.
    apply IH; [|exact H]. intros Hin. apply Hc. now right.
Qed.

Lemma py_in_cons (sep s : pystr) (c : N) :
  py_in sep (c :: s) = is_prefix sep (c :: s) || py_in sep s.
Proof. reflexivity. Qed.

Lemma py_in_suffix (p w s : pystr) :
  py_in p s = true -> py_in p (w ++ s) = true.
Proof.
  intros H. induction w as [|c w IH]; [exact H|].
  cbn [app]. rewrite py_in_cons, IH. apply orb_true_r.
Qed.

Lemma py_in_prefix (p a w : pystr) :
  py_in p a = true -> py_in p (a ++ w) = true.
Proof.
  induction a as [|c a IH].
  - simpl. rewrite orb_false_r. intros H.
    destruct p; [now destruct w|discriminate].
  - cbn [app]. rewrite !py_in_cons. intros H.
    apply orb_true_iff in H as [H|H].
    + apply (is_prefix_app_r p (c :: a) w) in H. cbn [app] in H.
      now rewrite H.
    + rewrite (IH H). apply orb_true_r.
Qed.

Lemma split_absent (sep s : pystr) :
  py_in sep s = false -> py_split sep s = [s].
Proof.
  unfold py_split. induction s as [|c s IH]; intros H; [reflexivity|].
  rewrite py_in_cons in H. apply orb_false_iff in H as [Hp Hs].
  cbn [split_go]. rewrite Hp, (IH Hs). reflexivity.
Qed.

Lemma split_head (sep a b : pystr) (x : N) (sep' : pystr) :
  sep = x :: sep' ->
  clear_before sep a (sep ++ b) = true ->
  exists t, py_split sep (a ++ sep ++ b) = a :: t.
Proof.
  intros Hsep. unfold py_split. induction a as [|c a IH]; intros H.
  - cbn [app]. subst sep. cbn [app split_go].
    change (x :: sep' ++ b) with ((x :: sep') ++ b).
    rewrite is_prefix_self_app. eauto.
  - cbn [clear_before] in H. apply andb_true_iff in H as [Hp Hc].
    apply negb_true_iff in Hp. cbn [app] in *. cbn [split_go]. rewrite Hp.
    destruct (IH Hc) as [t ->]. eauto.
Qed.

Lemma py_in_app_absent (sep a r : pystr) :
  clear_before sep a r = true -> py_in sep r = false ->
  py_in sep (a ++ r) = false.
Proof.
  intros Hc Hr. induction a as [|c a IH]; [exact Hr|].
  cbn [clear_before] in Hc. apply andb_true_iff in Hc as [Hp Hc].
  apply negb_true_iff in Hp. cbn [app] in *.
  rewrite py_in_cons, Hp, (IH Hc). reflexivity.
Qed.

Lemma clear_before_longer (p q a r : pystr) :
  clear_before p a r = true -> clear_before (p ++ q) a r = true.
Proof.
  induction a as [|c a IH]; [reflexivity|]. cbn [clear_before].
  intros H. apply andb_true_iff in H as [Hp Hc]. apply negb_true_iff in Hp.
  rewrite (IH Hc), andb_true_r. apply negb_true_iff.
  destruct (is_prefix (p ++ q) ((c :: a) ++ r)) eqn:E; [|reflexivity].
  apply is_prefix_app_l in E. congruence.
Qed.

Lemma clear_before_of_absent (p j t : pystr) (c : N) :
  ~ In c p -> py_in p j = false -> clear_before p j (c :: t) = true.
Proof.
  intros Hc. induction j as [|x j IH]; intros H; [reflexivity|].
  rewrite py_in_cons in H. apply orb_false_iff in H as [Hp Hj].
  cbn [clear_before]. rewrite (IH Hj), andb_true_r. apply negb_true_iff.
  destruct (is_prefix p ((x :: j) ++ c :: t)) eqn:E; [|reflexivity].
  apply is_prefix_before_other in E; [congruence|exact Hc].
Qed.

Lemma clear_before_app (p a b r : pystr) :
  clear_before p (a ++ b) r = clear_before p a (b ++ r) && clear_before p b r.
Proof.
  induction a as [|c a IH]; [reflexivity|].
  cbn [app clear_before]. rewrite IH.
  change (c :: a ++ b) with ((c :: a) ++ b).
  rewrite <- !List.app_assoc. now rewrite andb_assoc.
Qed.

Lemma lstrip_suffix (s : pystr) : exists w, s = w ++ lstrip s.
Proof.
  induction s as [|c s [w IH]]; [now exists []|].
  simpl. destruct (is_space c).
  - exists (c :: w). simpl. now f_equal.
  - now exists [].
Qed.

Lemma py_in_strip (p s : pystr) :
  py_in p (py_strip s) = true -> py_in p s = true.
Proof.
  intros H. destruct (lstrip_suffix s) as [w Hw].
  rewrite Hw. apply py_in_suffix.
  destruct (lstrip_suffix (rev (lstrip s))) as [w' Hw'].
  apply (f_equal (@rev N)) in Hw'. rewrite rev_involutive, rev_app_distr in Hw'.
  rewrite Hw'. now apply py_in_prefix.
Qed.

Lemma strip_keeps_ends (c d : N) (s : pystr) :
  is_space c = false -> is_space d = false ->
  py_strip (c :: s ++ [d]) = c :: s ++ [d].
Proof.
  intros Hc Hd. unfold py_strip, rstrip. cbn [lstrip]. rewrite Hc.
  change (c :: s ++ [d]) with ((c :: s) ++ [d]).
  rewrite rev_app_distr. cbn [rev app lstrip]. rewrite Hd.
  change (d :: rev s ++ [c]) with ([d] ++ rev (c :: s)).
  rewrite rev_app_distr, rev_involutive. reflexivity.
Qed.

Lemma strip_trailing_space (s : pystr) (c : N) :
  is_space c = true -> rstrip (lstrip (s ++ [c])) = rstrip (lstrip s).
Proof.
  intros Hc. induction s as [|x s IH].
  - cbn [app lstrip]. now rewrite Hc.
  - cbn [app lstrip]. destruct (is_space x); [exact IH|].
    unfold rstrip. change (x :: s ++ [c]) with ((x :: s) ++ [c]).
    rewrite rev_app_distr. cbn [rev app lstrip]. now rewrite Hc.
Qed.

Lemma strip_between_newlines (j : pystr) :
  py_strip (10%N :: j ++ [10%N]) = py_strip j.
Proof.
  unfold py_strip. cbn [lstrip]. change (is_space 10) with true. cbv iota.
  now apply strip_trailing_space.
Qed.

Lemma split_go_skip (sep a rest : pystr) :
  split_go sep (length a) (a ++ rest) = split_go sep 0 rest.
Proof. induction a as [|c a IH]; [reflexivity|exact IH]. Qed.

Lemma split_at_start (sep rest : pystr) (x : N) (sep' : pystr) :
  sep = x :: sep' -> py_split sep (sep ++ rest) = [] :: py_split sep rest.
Proof.
  intros ->. unfold py_split. cbn [app split_go].
  change (x :: sep' ++ rest) with ((x :: sep') ++ rest).
  rewrite is_prefix_self_app. cbn [length Nat.sub]. rewrite Nat.sub_0_r.
  now rewrite split_go_skip.
Qed.

(** ** Decision parser *)

Lemma newline_not_in_fence : ~ In 10%N fence.
Proof. intros [H|[H|[H|[]]]]; discriminate. Qed.

Lemma interior_clear (j r : pystr) :
  py_in fence j = false -> clear_before fence (interior j) r = true.
Proof.
  intros H. unfold interior.
  change (10%N :: j ++ [10%N]) with ([10%N] ++ j ++ [10%N]).
  rewrite !clear_before_app. cbn [app].
  rewrite (clear_before_of_absent fence j r 10 newline_not_in_fence H).
  reflexivity.
Qed.

Lemma fence_absent_in_interior (j : pystr) :
  py_in fence j = false -> py_in fence (interior j) = false.
Proof.
  intros H. rewrite <- (List.app_nil_r (interior j)).
  apply py_in_app_absent; [now apply interior_clear|reflexivity].
Qed.

Lemma fenced_json_shape (j : pystr) :
  fenced_json j = fence_json ++ interior j ++ fence ++ [].
Proof.
  unfold fenced_json, interior, nl. rewrite List.app_nil_r.
  cbn [app]. now rewrite <- List.app_assoc.
Qed.

Lemma fenced_plain_shape (j : pystr) :
  fenced_plain j = fence ++ interior j ++ fence ++ [].
Proof.
  unfold fenced_plain, interior, nl. rewrite List.app_nil_r.
  cbn [app]. now rewrite <- List.app_assoc.
Qed.

Lemma fence_json_absent_after (j : pystr) :
  py_in fence j = false -> py_in fence_json (interior j ++ fence ++ []) = false.
Proof.
  intros H. apply py_in_app_absent; [|reflexivity].
  change fence_json with (fence ++ [106; 115; 111; 110]%N).
  apply clear_before_longer. now apply interior_clear.
Qed.

Lemma strip_fenced_json (j : pystr) : py_strip (fenced_json j) = fenced_json j.
Proof.
  assert (E : fenced_json j
              = 96%N :: ([96; 96; 106; 115; 111; 110; 10]%N ++ j ++ [10; 96; 96]%N)
                ++ [96%N]).
  { unfold fenced_json, fence_json, fence, nl. cbn [app].
    rewrite <- !List.app_assoc. reflexivity. }
  rewrite E. now apply strip_keeps_ends.
Qed.

Lemma strip_fenced_plain (j : pystr) : py_strip (fenced_plain j) = fenced_plain j.
Proof.
  assert (E : fenced_plain j
              = 96%N :: ([96; 96; 10]%N ++ j ++ [10; 96; 96]%N) ++ [96%N]).
  { unfold fenced_plain, fence, nl. cbn [app].
    rewrite <- !List.app_assoc. reflexivity. }
  rewrite E. now apply strip_keeps_ends.
Qed.

Lemma py_in_at_start (sep rest : pystr) (x : N) (sep' : pystr) :
  sep = x :: sep' -> py_in sep (sep ++ rest) = true.
Proof.
  intros ->. cbn [app]. rewrite py_in_cons.
  change (x :: sep' ++ rest) with ((x :: sep') ++ rest).
  now rewrite is_prefix_self_app.
Qed.

Lemma split_interior (j : pystr) :
  py_in fence j = false ->
  exists t, py_split fence (interior j ++ fence ++ []) = interior j :: t.
Proof.
  intros H. eapply split_head; [reflexivity|]. now apply interior_clear.
Qed.

Lemma strip_interior (j : pystr) : py_strip (interior j) = py_strip j.
Proof. apply strip_between_newlines. Qed.

Lemma extract_fenced_json_block (j : pystr) :
  py_in fence j = false ->
  extract_fenced (py_strip (fenced_json j)) = Ok (py_strip j).
Proof.
  intros H. rewrite strip_fenced_json, fenced_json_shape.
  unfold extract_fenced.
  rewrite (py_in_at_start fence_json _ _ _ eq_refl).
  rewrite (split_at_start fence_json _ _ _ eq_refl).
  rewrite (split_absent _ _ (fence_json_absent_after j H)).
  cbn [nth_part nth_error bind].
  destruct (split_interior j H) as [t ->].
  cbn [nth_part nth_error bind]. now rewrite strip_interior.
Qed.

Lemma extract_fenced_plain_block (j : pystr) :
  py_in fence j = false ->
  extract_fenced (py_strip (fenced_plain j)) = Ok (py_strip j).
Proof.
  intros H. rewrite strip_fenced_plain, fenced_plain_shape.
  unfold extract_fenced.
  assert (Hj : py_in fence_json (fence ++ interior j ++ fence ++ []) = false).
  { apply py_in_app_absent; [reflexivity|now apply fence_json_absent_after]. }
  rewrite Hj.
  rewrite (py_in_at_start fence _ _ _ eq_refl).
  rewrite (split_at_start fence _ _ _ eq_refl).
  destruct (split_interior j H) as [t ->].
  cbn [nth_part nth_error bind].
  rewrite (split_absent _ _ (fence_absent_in_interior j H)).
  cbn [nth_part nth_error bind]. now rewrite strip_interior.
Qed.

Lemma extract_fenced_bare (j : pystr) :
  py_in fence j = false -> extract_fenced (py_strip j) = Ok (py_strip j).
Proof.
  intros H. unfold extract_fenced.
  assert (Hf : py_in fence (py_strip j) = false).
  { destruct (py_in fence (py_strip j)) eqn:E; [|reflexivity].
    apply py_in_strip in E. congruence. }
  assert (Hj : py_in fence_json (py_strip j) = false).
  { destruct (py_in fence_json (py_strip j)) eqn:E; [|reflexivity].
    exfalso. clear H. revert Hf E.
    induction (py_strip j) as [|c s IH]; [discriminate|].
    rewrite !py_in_cons. intros Hf E.
    apply orb_false_iff in Hf as [Hp Hs].
    apply orb_true_iff in E as [E|E]; [|now apply IH].
    change fence_json with (fence ++ [106; 115; 111; 110]%N) in E.
    apply is_prefix_app_l in E. congruence. }
  now rewrite Hj, Hf.
Qed.

Lemma dict_lookup_set_eq (k : pystr) (v : pyval) (d : pydict) :
  dict_lookup k (dict_set k v d) = Some v.
Proof.
  induction d as [|[k' v'] d IH]; simpl.
  - now rewrite str_eqb_refl.
  - destruct (str_eqb k' k) eqn:E; simpl; rewrite E; [reflexivity|exact IH].
Qed.

Lemma dict_lookup_set_ne (k k0 : pystr) (v : pyval) (d : pydict) :
  k0 <> k -> dict_lookup k0 (dict_set k v d) = dict_lookup k0 d.
Proof.
  intros Hne. induction d as [|[k' v'] d IH]; simpl.
  - destruct (str_eqb k k0) eqn:E; [|reflexivity].
    apply str_eqb_eq in E. congruence.
  - destruct (str_eqb k' k) eqn:E; simpl.
    + apply str_eqb_eq in E. subst k'.
      destruct (str_eqb k k0) eqn:E'; [|reflexivity].
      apply str_eqb_eq in E'. congruence.
    + now rewrite IH.
Qed.

(** The shape resolution looks at the response only to attach it. *)
Lemma resolve_shape_attaches (decision : pyval) :
  exists core, forall response,
    resolve_shape response decision = option_map (attach response) core.
Proof.
  unfold resolve_shape. destruct (truthy decision); cbn [negb];
    [|now exists None].
  destruct decision as [| | | | |l|d]; try (now exists None).
  - destruct l as [|[| | | | | |first] l]; try (now exists None).
    now exists (Some first).
  - destruct (dict_get k_decisions PNone d) as [| | | | |decisions|];
      try (destruct (dict_has k_operation d);
           [now exists (Some d)|now exists None]).
    destruct decisions as [|[| | | | | |first] l]; try (now exists None).
    now exists (Some first).
Qed.

Section ParserFacts.

Variable json_loads : pystr -> res pyval.

(** Steps 2 and 3: one strict attempt, one attempt on the cleaned text,
    nothing after that. *)
Lemma load_retries_once (working : pystr) :
  decode_fails json_loads working ->
  load_with_retry json_loads working
  = match json_loads (cleanup working) with
    | Ok decision => Ok (AfterCleanup decision)
    | Raise e => if is_decode_error e then Ok ParseFailed else Raise e
    end.
Proof. intros (e & H & He). unfold load_with_retry. now rewrite H, He. Qed.

Lemma parse_fails_after_second_failure (response : pystr) (working : pystr) :
  extract_fenced (py_strip response) = Ok working ->
  decode_fails json_loads working ->
  decode_fails json_loads (cleanup working) ->
  parse_decision_str json_loads response = Ok None.
Proof.
  intros Hw H1 (e2 & H2 & He2). unfold parse_decision_str. rewrite Hw.
  cbn [bind]. rewrite (load_retries_once _ H1), H2, He2. reflexivity.
Qed.

Lemma parse_of_working_text (response working : pystr) :
  response <> [] ->
  extract_fenced (py_strip response) = Ok working ->
  exists core : res (option pydict),
    _parse_decision json_loads (PStr response)
    = (let* decision := core in Ok (option_map (attach response) decision))
    /\ forall response',
         response' <> [] ->
         extract_fenced (py_strip response') = Ok working ->
         _parse_decision json_loads (PStr response')
         = (let* decision := core in Ok (option_map (attach response') decision)).
Proof.
  intros Hne Hw.
  assert (Hparse : forall r, r <> [] ->
            extract_fenced (py_strip r) = Ok working ->
            _parse_decision json_loads (PStr r)
            = (let* loaded := load_with_retry json_loads working in
               match loaded with
               | Strict d | AfterCleanup d => Ok (resolve_shape r d)
               | ParseFailed => Ok None
               end)).
  { intros r Hr Hx. unfold _parse_decision.
    destruct r as [|c r]; [contradiction|]. cbn [truthy negb].
    unfold parse_decision_str. rewrite Hx. reflexivity. }
  destruct (load_with_retry json_loads working) as [[d|d|]|e] eqn:L.
  - destruct (resolve_shape_attaches d) as [core Hcore]. exists (Ok core).
    split; [|intros r' Hr' Hx']; rewrite Hparse, ?L; cbn [bind];
      rewrite ?Hcore; auto.
  - destruct (resolve_shape_attaches d) as [core Hcore]. exists (Ok core).
    split; [|intros r' Hr' Hx']; rewrite Hparse, ?L; cbn [bind];
      rewrite ?Hcore; auto.
  - exists (Ok None).
    split; [|intros r' Hr' Hx']; rewrite Hparse, ?L; auto.
  - exists (Raise e).
    split; [|intros r' Hr' Hx']; rewrite Hparse, ?L; auto.
Qed.

End ParserFacts.

(** C5, as the code has it.  For every non-empty text [j] without a
    triple backtick, the response that wraps [j] in a fence tagged json,
    the response that wraps it in a plain fence and [j] itself are all
    parsed from the same working text, the trimmed [j]: either none of the
    three yields a Decision (all three return [None], or all three leave
    with the same exception of [json.loads]), or the three Decisions are
    one and the same object up to the attached [_reasoning] field, which
    holds the first 2000 code points of the respective response. *)
Theorem fenced_and_bare_agree_up_to_reasoning
    (json_loads : pystr -> res pyval) (j : pystr)
    (non_empty : j <> [])
    (no_fence : py_in fence j = false) :
  exists core : res (option pydict),
    (forall r,
       r = fenced_json j \/ r = fenced_plain j \/ r = j ->
       _parse_decision json_loads (PStr r)
       = (let* decision := core in Ok (option_map (attach r) decision)))
    /\ (forall r d k,
          k <> k_reasoning -> dict_lookup k (attach r d) = dict_lookup k d)
    /\ (forall r d,
          dict_lookup k_reasoning (attach r d) = Some (PStr (slice_to 2000 r))).
Proof.
  destruct (parse_of_working_text json_loads j (py_strip j) non_empty
              (extract_fenced_bare j no_fence)) as (core & Hbare & Hothers).
  exists core. split; [|split].
  - intros r [-> | [-> | ->]].
    + apply Hothers; [discriminate|now apply extract_fenced_json_block].
    + apply Hothers; [discriminate|now apply extract_fenced_plain_block].
    + exact Hbare.
  - intros r d k Hk. now apply dict_lookup_set_ne.
  - intros r d. apply dict_lookup_set_eq.
Qed.

Lemma fenced_and_bare_agree_up_to_reasoning_witness :
  exists core : res (option pydict),
    _parse_decision mini_loads (PStr (fenced_json (decision_text "hold")))
      = (let* decision := core in
         Ok (option_map (attach (fenced_json (decision_text "hold"))) decision))
    /\ _parse_decision mini_loads (PStr (fenced_plain (decision_text "hold")))
       = (let* decision := core in
          Ok (option_map (attach (fenced_plain (decision_text "hold"))) decision))
    /\ _parse_decision mini_loads (PStr (decision_text "hold"))
       = (let* decision := core in
          Ok (option_map (attach (decision_text "hold")) decision)).
Proof.
  destruct (fenced_and_bare_agree_up_to_reasoning mini_loads
              (decision_text "hold") ltac:(discriminate) eq_refl)
    as (core & H & _).
  exists core. repeat split; apply H; auto.
Defined.

(** C5, as stated, fails: the Decision parsed from the fenced response
    is not the Decision parsed from the bare text. *)
Lemma fenced_decision_differs_from_bare :
  _parse_decision mini_loads (PStr (fenced_json (decision_text "hold")))
  <> _parse_decision mini_loads (PStr (decision_text "hold")).
Proof. vm_compute. intros H. discriminate H. Qed.

Lemma replace_single (a b : N) (s : pystr) :
  py_replace [a] [b] s = map (fun c => if N.eqb a c then b else c) s.
Proof.
  unfold py_replace. induction s as [|c s IH]; [reflexivity|].
  cbn [replace_go is_prefix length Nat.sub map].
  rewrite andb_true_r. destruct (N.eqb a c); cbn [app]; now rewrite IH.
Qed.

Lemma replace_absent (old new s : pystr) :
  py_in old s = false -> py_replace old new s = s.
Proof.
  unfold py_replace. induction s as [|c s IH]; intros H; [reflexivity|].
  rewrite py_in_cons in H. apply orb_false_iff in H as [Hp Hs].
  cbn [replace_go]. rewrite Hp. now rewrite (IH Hs).
Qed.

Lemma cleaned_cp_steps (c : N) :
  (fun c => if N.eqb 8209 c then 45%N else c)
    ((fun c => if N.eqb 8212 c then 45%N else c)
       ((fun c => if N.eqb 8211 c then 45%N else c)
          ((fun c => if N.eqb 39 c then 39%N else c)
             ((fun c => if N.eqb 39 c then 39%N else c) c))))
  = (fun c => if ((c =? 8211) || (c =? 8212) || (c =? 8209))%N then 45%N else c) c.
Proof.
  cbv beta.
  destruct (N.eqb 39 c) eqn:E1.
  - apply N.eqb_eq in E1. subst c. reflexivity.
  - rewrite ?E1. rewrite (N.eqb_sym c 8211), (N.eqb_sym c 8212), (N.eqb_sym c 8209).
    destruct (N.eqb 8211 c) eqn:E2; rewrite ?E2; [reflexivity|].
    destruct (N.eqb 8212 c) eqn:E3; rewrite ?E3; reflexivity.
Qed.

Lemma whitespace_steps (c : N) :
  (fun c => if N.eqb 9 c then 32%N else c)
    ((fun c => if N.eqb 13 c then 32%N else c)
       ((fun c => if N.eqb 10 c then 32%N else c) c))
  = (fun c => if ((c =? 10) || (c =? 13) || (c =? 9))%N then 32%N else c) c.
Proof.
  cbv beta. rewrite (N.eqb_sym c 10), (N.eqb_sym c 13), (N.eqb_sym c 9).
  destruct (N.eqb 10 c) eqn:E1; rewrite ?E1; [reflexivity|].
  destruct (N.eqb 13 c) eqn:E2; rewrite ?E2; reflexivity.
Qed.

(** The clean-up of the code, code point by code point, on a text that
    does not hold the fifteen code points the quote line searches for:
    the curly quotes are left as they are. *)
Lemma cleanup_by_code_point (s : pystr) :
  py_in quote_pattern
    (map (fun c => if ((c =? 10) || (c =? 13) || (c =? 9))%N then 32%N else c) s)
  = false ->
  cleanup s = map cleaned_cp s.
Proof.
  intros H. unfold cleanup, space, squote, hyphen, en_dash, em_dash, nb_hyphen.
  rewrite (replace_single 10 32 s), (replace_single 13 32), (replace_single 9 32).
  rewrite !List.map_map.
  rewrite (List.map_ext _ _ whitespace_steps).
  rewrite (replace_absent _ _ _ H).
  rewrite !replace_single, !List.map_map.
  apply List.map_ext. intros c. rewrite cleaned_cp_steps. unfold cleaned_cp.
  destruct ((c =? 10) || (c =? 13) || (c =? 9))%N eqn:E; reflexivity.
Qed.

Lemma curly_quotes_survive_cleanup (json_loads : pystr -> res pyval) :
  decode_fails json_loads curly_decision ->
  _parse_decision json_loads (PStr curly_decision) = Ok None.
Proof.
  intros H. change (_parse_decision json_loads (PStr curly_decision))
    with (parse_decision_str json_loads curly_decision).
  apply (parse_fails_after_second_failure _ _ curly_decision);
    [reflexivity|exact H|exact H].
Qed.

(** C6.  On the decision object written with curly double quotes the
    strict parse fails, the clean-up of the code returns the text with its
    curly quotes still in place, the second parse fails as well and the
    parser returns no decision; the same text normalised as the
    specification words it is valid JSON with an [operation] field. *)
Theorem cleanup_keeps_curly_quotes :
  mini_loads curly_decision = Raise expecting_value
  /\ is_decode_error expecting_value = true
  /\ cleanup curly_decision = curly_decision
  /\ _parse_decision mini_loads (PStr curly_decision) = Ok None
  /\ normalize_as_specified curly_decision
     = u "{" ++ quoted "operation" ++ u ": " ++ quoted "hold" ++ u "}"
  /\ mini_loads (normalize_as_specified curly_decision)
     = Ok (PDict [(k_operation, PStr (u "hold"))])
  /\ resolve_shape curly_decision (PDict [(k_operation, PStr (u "hold"))])
     = Some (attach curly_decision [(k_operation, PStr (u "hold"))]).
Proof. repeat split; reflexivity. Qed.

(** ** Counters against item rows *)

Lemma count_app {A} (p : A -> bool) (l k : list A) :
  count p (l ++ k) = count p l + count p k.
Proof. induction l as [|x l IH]; [reflexivity|]. simpl. rewrite IH. lia. Qed.

Lemma count_insert {A} (p : A -> bool) (l : list A) (i : nat) (old new : A) :
  l !! i = Some old ->
  count p (<[i := new]> l) + (if p old then 1 else 0)
  = count p l + (if p new then 1 else 0).
Proof.
  revert i; induction l as [|x l IH]; intros [|i] H; try discriminate.
  - injection H as ->. simpl. lia.
  - simpl in H. simpl. specialize (IH i H). lia.
Qed.

Lemma count_none {A} (p : A -> bool) (l : list A) :
  Forall (fun x => p x = false) l -> count p l = 0.
Proof. induction 1 as [|x l Hx _ IH]; [reflexivity|]. simpl. now rewrite Hx. Qed.

Lemma count_map {A B} (p : B -> bool) (q : A -> bool) (f : A -> B) (l : list A) :
  (forall x, p (f x) = q x) -> count p (map f l) = count q l.
Proof.
  intros H. induction l as [|x l IH]; [reflexivity|]. simpl.
  now rewrite H, IH.
Qed.

Lemma count_le_length {A} (p : A -> bool) (l : list A) : count p l <= length l.
Proof. induction l as [|x l IH]; simpl; [lia|]. destruct (p x); lia. Qed.

Lemma item_status_eqb_eq (a b : item_status) :
  item_status_eqb a b = true <-> a = b.
Proof. destruct a, b; simpl; split; congruence. Qed.

Lemma save_existing (item_id task_id : nat) (result : save_result) (db : DB)
    (item : PromptBacktestItem) :
  items db !! item_id = Some item ->
  saved_store item_id task_id result db
  = with_tasks (alter (bump result) task_id)
      (with_items (fun l => <[item_id := saved_row result item]> l) db).
Proof.
  intros H. unfold saved_store, save_item_session, saved_row, bump.
  rewrite H. now destruct (r_success result).
Qed.


(** ** The invariant of the engine *)

Lemma Forall_transfer {A} (R P Q : A -> Prop) (l : list A) :
  Forall R l -> Forall P l -> (forall x, R x -> P x -> Q x) -> Forall Q l.
Proof.
  intros HR HP H. induction HR as [|x l Hx _ IH]; [constructor|].
  apply Forall_cons in HP as [Px HP]. constructor; auto.
Qed.

Lemma run_task_lt (db : DB) (r : run) :
  run_ok db r -> run_task r < length (tasks db).
Proof.
  destruct r as [tid ids|tid|tid|tid c s b]; simpl.
  - intros ((t & H & _) & _). now apply lookup_lt_Some in H.
  - now intros [H _].
  - intros (t & H & _). now apply lookup_lt_Some in H.
  - intros ((t & H & _) & _). now apply lookup_lt_Some in H.
Qed.

(** What a run needs from a change of the store. *)
Lemma run_ok_transfer (db db' : DB) (r : run) :
  length (tasks db) <= length (tasks db') ->
  (is_running (run_task r) db -> is_running (run_task r) db') ->
  (count (item_in (run_task r) IFailed) (items db) = 0 ->
   count (item_in (run_task r) IFailed) (items db') = 0) ->
  (forall j it,
     items db !! j = Some it -> i_task_id it = run_task r ->
     i_status it = IPending -> items db' !! j = Some it) ->
  (forall task,
     tasks db !! run_task r = Some task -> t_status task <> TRunning ->
     exists task',
       tasks db' !! run_task r = Some task' /\ t_status task' <> TRunning) ->
  (forall j,
     (exists row,
        items db !! j = Some row /\ item_in (run_task r) IFailed row = true)
     <-> (exists row,
            items db' !! j = Some row
            /\ item_in (run_task r) IFailed row = true)) ->
  run_ok db r -> run_ok db' r.
Proof.
  intros Hlen Hrun Hcount Hrows Hidle Hfailed.
  destruct r as [tid ids|tid|tid|tid c s batch]; simpl in *.
  - intros ((t & Ht & Hs) & Hne & Hids). split; [now apply (Hidle t)|].
    split; [exact Hne|]. intros j. rewrite Hids. apply Hfailed.
  - intros [H1 H2]. split; [lia|auto].
  - exact Hrun.
  - intros (H1 & H2 & H3). split; [auto|split; [exact H2|]].
    eapply Forall_impl; [exact H3|].
    intros d (Hd & it & Hit & Ht & Hs). split; [exact Hd|].
    exists it. split; [|split]; auto.
Qed.

Lemma nodup_remove_middle (before after : list run) (r : run) :
  NoDup (map run_task (before ++ r :: after)) ->
  NoDup (map run_task (before ++ after))
  /\ Forall (fun r' => run_task r' <> run_task r) (before ++ after).
Proof.
  rewrite !map_app. cbn [map]. intros H.
  apply NoDup_app in H as (Hb & Hba & Ha).
  apply NoDup_cons in Ha as (Hr & Ha).
  split.
  - apply NoDup_app. split; [exact Hb|split; [|exact Ha]].
    intros x Hx Hx'. apply (Hba x Hx). now right.
  - apply Forall_app. split; apply Forall_forall; intros r' Hin E.
    + apply (Hba (run_task r)); [|now left].
      rewrite <- E. apply list_elem_of_fmap. eauto.
    + apply Hr. rewrite <- E. apply list_elem_of_fmap. eauto.
Qed.

Lemma nodup_replace_middle (before after : list run) (r r' : run) :
  run_task r' = run_task r ->
  NoDup (map run_task (before ++ r :: after)) ->
  NoDup (map run_task (before ++ r' :: after)).
Proof. rewrite !map_app. cbn [map]. now intros ->. Qed.

Lemma forall_middle {A} (P : A -> Prop) (before after : list A) (x : A) :
  Forall P (before ++ x :: after) <-> P x /\ Forall P (before ++ after).
Proof.
  rewrite !Forall_app, Forall_cons. tauto.
Qed.

(** *** Commits that touch one task row only *)

Lemma counters_alter (f : PromptBacktestTask -> PromptBacktestTask)
    (tid : nat) (db : DB) :
  keeps_counters f -> counters_match db ->
  counters_match (with_tasks (alter f tid) db).
Proof.
  intros Hf H tid' task'. cbn [tasks items with_tasks].
  destruct (Nat.eq_dec tid tid') as [<-|Hne].
  - rewrite list_lookup_alter_eq.
    destruct (tasks db !! tid) as [t|] eqn:E; [|discriminate].
    intros [= <-]. destruct (Hf t) as (-> & -> & ->). now apply H.
  - rewrite list_lookup_alter_ne by exact Hne. apply H.
Qed.

Lemma items_owned_alter (f : PromptBacktestTask -> PromptBacktestTask)
    (tid : nat) (db : DB) :
  items_owned db -> items_owned (with_tasks (alter f tid) db).
Proof.
  unfold items_owned. cbn [tasks items with_tasks]. now rewrite length_alter.
Qed.

Lemma run_ok_alter_other (f : PromptBacktestTask -> PromptBacktestTask)
    (tid : nat) (db : DB) (r : run) :
  run_task r <> tid -> run_ok db r -> run_ok (with_tasks (alter f tid) db) r.
Proof.
  intros Hne. apply run_ok_transfer; cbn [tasks items with_tasks]; auto.
  - now rewrite length_alter.
  - intros (t & Ht & Hs). exists t. cbn [tasks with_tasks].
    rewrite list_lookup_alter_ne by congruence. auto.
  - intros t Ht Hs. exists t.
    rewrite list_lookup_alter_ne by congruence. auto.
Qed.

Lemma is_running_begin (now : Z) (tid : nat) (db : DB) (task : PromptBacktestTask) :
  tasks db !! tid = Some task -> is_running tid (begin_task now tid db).
Proof.
  intros H. exists (mark_running now task). split; [|reflexivity].
  unfold begin_task. cbn [tasks with_tasks].
  now rewrite list_lookup_alter_eq, H.
Qed.

Lemma keeps_counters_mark_running now : keeps_counters (mark_running now).
Proof. intros t. repeat split. Qed.
Lemma keeps_counters_mark_failed now : keeps_counters (mark_failed now).
Proof. intros t. repeat split. Qed.
Lemma keeps_counters_mark_completed now : keeps_counters (mark_completed now).
Proof. intros t. repeat split. Qed.

(** *** The commit of [saved_store] *)

Lemma saved_row_task (result : save_result) (it : PromptBacktestItem) :
  i_task_id (saved_row result it) = i_task_id it.
Proof. unfold saved_row. now destruct (r_success result). Qed.

Lemma saved_row_status (result : save_result) (it : PromptBacktestItem) :
  i_status (saved_row result it)
  = if r_success result then ICompleted else IFailed.
Proof. unfold saved_row. now destruct (r_success result). Qed.

Lemma item_in_unfold (tid : nat) (s : item_status) (x : PromptBacktestItem) :
  item_in tid s x = Nat.eqb (i_task_id x) tid && item_status_eqb (i_status x) s.
Proof. reflexivity. Qed.

Lemma item_of_unfold (tid : nat) (x : PromptBacktestItem) :
  item_of tid x = Nat.eqb (i_task_id x) tid.
Proof. reflexivity. Qed.

Section SaveFacts.

Variables (j0 t0 : nat) (result : save_result) (db : DB)
          (it : PromptBacktestItem).
Hypothesis row : items db !! j0 = Some it.
Hypothesis owner : i_task_id it = t0.
Hypothesis pending : i_status it = IPending.

Abbreviation db' := (saved_store j0 t0 result db).

Lemma saved_db :
  db' = with_tasks (alter (bump result) t0)
          (with_items (fun l => <[j0 := saved_row result it]> l) db).
Proof. now apply save_existing. Qed.

Lemma count_after_save (p : PromptBacktestItem -> bool) :
  count p (items db') + (if p it then 1 else 0)
  = count p (items db) + (if p (saved_row result it) then 1 else 0).
Proof. rewrite saved_db. cbn [items with_tasks with_items]. now apply count_insert. Qed.

Lemma counters_save : counters_match db -> counters_match db'.
Proof.
  intros H tid task'.
  pose proof (count_after_save (item_in tid ICompleted)) as Hc.
  pose proof (count_after_save (item_in tid IFailed)) as Hf.
  pose proof (count_after_save (item_of tid)) as Ho.
  rewrite !item_in_unfold in Hc, Hf. rewrite !item_of_unfold in Ho.
  rewrite saved_row_task, saved_row_status, owner, pending in *.
  rewrite saved_db at 1. cbn [tasks with_tasks with_items].
  destruct (Nat.eq_dec t0 tid) as [<-|Hne].
  - rewrite list_lookup_alter_eq.
    destruct (tasks db !! t0) as [t|] eqn:E; [|discriminate].
    intros [= <-]. destruct (H t0 t E) as (H1 & H2 & H3).
    rewrite Nat.eqb_refl in *. unfold bump.
    destruct (r_success result); cbn [andb item_status_eqb] in *;
      cbn [incr_completed incr_failed task_update t_completed_count
           t_failed_count t_total_count]; lia.
  - rewrite list_lookup_alter_ne by exact Hne. intros E.
    destruct (H tid task' E) as (H1 & H2 & H3).
    apply Nat.eqb_neq in Hne. rewrite Hne in *. cbn [andb] in *. lia.
Qed.

Lemma items_owned_save : items_owned db -> items_owned db'.
Proof.
  unfold items_owned. rewrite saved_db. cbn [tasks items with_tasks with_items].
  rewrite length_alter. intros H. apply Forall_insert; [exact H|].
  rewrite saved_row_task. rewrite Forall_lookup in H. now apply (H j0).
Qed.

Lemma is_running_save (tid : nat) : is_running tid db -> is_running tid db'.
Proof.
  intros (t & Ht & Hs). rewrite saved_db. unfold is_running.
  cbn [tasks with_tasks with_items].
  destruct (Nat.eq_dec t0 tid) as [<-|Hne].
  - exists (bump result t). rewrite list_lookup_alter_eq, Ht. split; [reflexivity|].
    unfold bump. now destruct (r_success result).
  - exists t. now rewrite list_lookup_alter_ne.
Qed.

Lemma rows_after_save (j : nat) : j <> j0 -> items db' !! j = items db !! j.
Proof.
  intros Hne. rewrite saved_db. cbn [items with_tasks with_items].
  now apply list_lookup_insert_ne.
Qed.

Lemma run_ok_save_other (r : run) :
  run_task r <> t0 -> run_ok db r -> run_ok db' r.
Proof.
  intros Hne. apply run_ok_transfer.
  - rewrite saved_db. cbn [tasks with_tasks with_items]. now rewrite length_alter.
  - apply is_running_save.
  - pose proof (count_after_save (item_in (run_task r) IFailed)) as Hf.
    rewrite !item_in_unfold, saved_row_task, owner in Hf.
    apply Nat.eqb_neq in Hne. rewrite (Nat.eqb_sym t0), Hne in Hf.
    cbn [andb] in Hf. lia.
  - intros j x Hj Hx _. rewrite rows_after_save; [exact Hj|].
    intros ->. rewrite row in Hj. injection Hj as <-. congruence.
  - intros t Ht Hs. exists t. rewrite saved_db.
    cbn [tasks with_tasks with_items].
    rewrite list_lookup_alter_ne by congruence. auto.
  - intros j. destruct (Nat.eq_dec j j0) as [->|Hj].
    + assert (Hother : forall x,
                i_task_id x = t0 -> item_in (run_task r) IFailed x = false).
      { intros x Hx. rewrite item_in_unfold, Hx.
        apply Nat.eqb_neq in Hne. now rewrite (Nat.eqb_sym t0), Hne. }
      split; intros (x & Hx & Hf).
      * rewrite row in Hx. injection Hx as <-.
        rewrite (Hother it owner) in Hf. discriminate.
      * rewrite saved_db in Hx. cbn [items with_tasks with_items] in Hx.
        rewrite (lookup_set_item _ _ it _ row) in Hx. injection Hx as <-.
        rewrite Hother in Hf; [discriminate|].
        now rewrite saved_row_task.
    + now rewrite rows_after_save.
Qed.

Lemma in_flight_after_save (d : item_data) :
  item_id d <> j0 -> in_flight_ok t0 db d -> in_flight_ok t0 db' d.
Proof.
  intros Hne (Hd & x & Hx & Ht & Hs). split; [exact Hd|].
  exists x. now rewrite rows_after_save.
Qed.

End SaveFacts.

(** *** The commit of [create_backtest_task] *)

Lemma count_ext {A} (p q : A -> bool) (l : list A) :
  (forall x, p x = q x) -> count p l = count q l.
Proof.
  intros H. induction l as [|x l IH]; [reflexivity|]. simpl. now rewrite H, IH.
Qed.

Lemma new_items_fresh (tid : nat) (db : DB) (inputs : list BacktestItemInput) :
  Forall (fun it => i_task_id it = tid /\ i_status it = IPending)
         (new_items tid db inputs)
  /\ length (new_items tid db inputs) <= length inputs.
Proof.
  induction inputs as [|input inputs [IH1 IH2]]; [split; [constructor|reflexivity]|].
  cbn [new_items]. destruct (find_log (decision_log_id input) db).
  - split; [constructor; [split; reflexivity|exact IH1]|simpl; lia].
  - split; [exact IH1|simpl; lia].
Qed.

Section CreateFacts.

Variable json_dumps : pyval -> pystr.
Variables (request : CreateTaskRequest) (db db' : DB) (body : create_response).
Hypothesis created :
  create_backtest_task json_dumps request db = (Returns body, db').

Lemma created_db_shape :
  cr_task_id body = length (tasks db)
  /\ tasks db' = tasks db ++ [new_task json_dumps request db]
  /\ items db' = items db ++ new_items (length (tasks db)) db (req_items request).
Proof.
  unfold create_backtest_task in created.
  destruct (find_account (req_account_id request) db); [|discriminate].
  injection created as <- <-. repeat split.
Qed.

Lemma old_rows_not_of_new_task (s : item_status) :
  items_owned db ->
  count (item_in (length (tasks db)) s) (items db) = 0
  /\ count (item_of (length (tasks db))) (items db) = 0.
Proof.
  intros H. split; apply count_none; (eapply Forall_impl; [exact H|]);
    intros x Hx; cbn beta in Hx.
  - rewrite item_in_unfold.
    replace (i_task_id x =? length (tasks db)) with false; [reflexivity|].
    symmetry. apply Nat.eqb_neq. lia.
  - rewrite item_of_unfold. apply Nat.eqb_neq. lia.
Qed.

Lemma new_rows_of_other_task (tid : nat) (s : item_status) :
  tid <> length (tasks db) ->
  count (item_in tid s) (new_items (length (tasks db)) db (req_items request)) = 0
  /\ count (item_of tid) (new_items (length (tasks db)) db (req_items request)) = 0.
Proof.
  intros Hne.
  destruct (new_items_fresh (length (tasks db)) db (req_items request)) as [H _].
  split; apply count_none; (eapply Forall_impl; [exact H|]);
    intros x [Hx _]; cbn beta.
  - rewrite item_in_unfold, Hx.
    replace (length (tasks db) =? tid) with false; [reflexivity|].
    symmetry. apply Nat.eqb_neq. lia.
  - rewrite item_of_unfold, Hx. apply Nat.eqb_neq. lia.
Qed.

Lemma new_rows_not_terminal (tid : nat) (s : item_status) :
  s <> IPending ->
  count (item_in tid s) (new_items (length (tasks db)) db (req_items request)) = 0.
Proof.
  intros Hs.
  destruct (new_items_fresh (length (tasks db)) db (req_items request)) as [H _].
  apply count_none. eapply Forall_impl; [exact H|].
  intros x [_ Hx]. cbn beta. rewrite item_in_unfold, Hx.
  destruct s; try contradiction; apply andb_false_r.
Qed.

Lemma counters_create :
  counters_match db -> items_owned db -> counters_match db'.
Proof.
  intros H Hown tid task'.
  destruct created_db_shape as (_ & Ht & Hi). rewrite Ht, Hi, !count_app.
  destruct (Nat.lt_ge_cases tid (length (tasks db))) as [Hlt|Hge].
  - rewrite lookup_app_l by exact Hlt. intros E.
    destruct (H tid task' E) as (H1 & H2 & H3).
    destruct (new_rows_of_other_task tid ICompleted) as [-> ->]; [lia|].
    destruct (new_rows_of_other_task tid IFailed) as [-> _]; [lia|]. lia.
  - intros E. pose proof (lookup_lt_Some _ _ _ E) as Hlen.
    rewrite length_app in Hlen. cbn [length] in Hlen.
    assert (tid = length (tasks db)) as -> by lia.
    rewrite list_lookup_middle in E by reflexivity. injection E as <-.
    destruct (old_rows_not_of_new_task ICompleted Hown) as [-> ->].
    destruct (old_rows_not_of_new_task IFailed Hown) as [-> _].
    rewrite !new_rows_not_terminal by discriminate.
    cbn [new_task t_completed_count t_failed_count t_total_count].
    pose proof (count_le_length (item_of (length (tasks db)))
                  (new_items (length (tasks db)) db (req_items request))).
    destruct (new_items_fresh (length (tasks db)) db (req_items request)) as [_ Hl].
    lia.
Qed.

Lemma items_owned_create : items_owned db -> items_owned db'.
Proof.
  unfold items_owned. destruct created_db_shape as (_ & -> & ->).
  rewrite length_app. cbn [length]. intros H. apply Forall_app. split.
  - eapply Forall_impl; [exact H|]. intros x Hx. cbn beta in *. lia.
  - destruct (new_items_fresh (length (tasks db)) db (req_items request)) as [Hn _].
    eapply Forall_impl; [exact Hn|]. intros x [Hx _]. cbn beta. lia.
Qed.

Lemma run_ok_create (r : run) : run_ok db r -> run_ok db' r.
Proof.
  intros Hr. pose proof (run_task_lt db r Hr) as Hlt. revert Hr.
  destruct created_db_shape as (_ & Ht & Hi).
  apply run_ok_transfer; rewrite ?Ht, ?Hi.
  - rewrite length_app. lia.
  - intros (t & E & Hs). exists t. rewrite Ht.
    split; [now apply lookup_app_l_Some|exact Hs].
  - rewrite count_app. intros ->.
    now destruct (new_rows_of_other_task (run_task r) IFailed) as [-> _]; [lia|].
  - intros j x Hj _ _. now apply lookup_app_l_Some.
  - intros t E Hs. exists t.
    split; [now apply lookup_app_l_Some|exact Hs].
  - intros j. split; intros (x & Hx & Hf).
    + exists x. split; [now apply lookup_app_l_Some|exact Hf].
    + exists x. split; [|exact Hf].
      apply lookup_app_Some in Hx as [Hx|[_ Hx]]; [exact Hx|].
      exfalso.
      destruct (new_items_fresh (length (tasks db)) db (req_items request))
        as [Hn _].
      rewrite Forall_lookup in Hn. destruct (Hn _ _ Hx) as [_ Hp].
      rewrite item_in_unfold, Hp in Hf. now rewrite andb_false_r in Hf.
Qed.

Lemma queued_ok_create : items_owned db -> run_ok db' (Queued (cr_task_id body)).
Proof.
  intros Hown. destruct created_db_shape as (-> & Ht & Hi).
  cbn [run_ok]. rewrite Ht, Hi, length_app, count_app. cbn [length].
  split; [lia|].
  destruct (old_rows_not_of_new_task IFailed Hown) as [-> _].
  now rewrite new_rows_not_terminal.
Qed.

End CreateFacts.

(** *** The commit of [retry_failed_items] *)

Section RetryFacts.

Variables (tid : nat) (db db' : DB) (body : retry_response).
Hypothesis retried : retry_failed_items tid db = (Returns body, db').
Hypothesis accepted : rr_success body = true.

Lemma retried_db_shape :
  (exists task, tasks db !! tid = Some task /\ t_status task <> TRunning)
  /\ count (item_in tid IFailed) (items db) <> 0
  /\ db' = with_tasks (alter reset_task tid)
             (with_items (map (reset_if_failed tid)) db).
Proof.
  unfold retry_failed_items in retried.
  destruct (tasks db !! tid) as [task|]; [|discriminate].
  destruct (task_status_eqb (t_status task) TRunning) eqn:Es; [discriminate|].
  destruct (List.filter (item_in tid IFailed) (items db)) as [|f fs] eqn:Ef.
  - injection retried as <- _. discriminate.
  - injection retried as _ <-. split; [|split; [|reflexivity]].
    + exists task. split; [reflexivity|]. intros E.
      apply task_status_eqb_eq in E. congruence.
    + rewrite <- length_filter_count, Ef. discriminate.
Qed.

Lemma count_after_retry (tid' : nat) (s : item_status) :
  tid' <> tid \/ s = ICompleted ->
  count (item_in tid' s) (items db') = count (item_in tid' s) (items db).
Proof.
  intros Hcase. destruct retried_db_shape as (_ & _ & ->).
  cbn [items with_tasks with_items].
  rewrite (count_map _ (item_in tid' s)); [reflexivity|].
  intros x. rewrite item_in_reset_if_failed.
  destruct (item_in tid IFailed x) eqn:E; [|reflexivity].
  rewrite item_in_unfold in E. apply andb_true_iff in E as [E1 E2].
  apply Nat.eqb_eq in E1. apply item_status_eqb_eq in E2.
  rewrite item_in_unfold, E1, E2.
  destruct Hcase as [Hne| ->].
  - apply Nat.eqb_neq in Hne. rewrite (Nat.eqb_sym tid), Hne. reflexivity.
  - now rewrite !andb_false_r.
Qed.

Lemma owners_after_retry (tid' : nat) :
  count (item_of tid') (items db') = count (item_of tid') (items db).
Proof.
  destruct retried_db_shape as (_ & _ & ->).
  cbn [items with_tasks with_items]. apply count_map.
  intros x. unfold reset_if_failed. now destruct (item_in tid IFailed x).
Qed.

Lemma counters_retry : counters_match db -> counters_match db'.
Proof.
  intros H tid' task'.
  rewrite owners_after_retry, (count_after_retry tid' ICompleted) by now right.
  destruct (Nat.eq_dec tid tid') as [<-|Hne].
  - destruct retried_db_shape as (_ & _ & ->).
    cbn [tasks items with_tasks with_items].
    rewrite list_lookup_alter_eq, count_failed_after_reset.
    destruct (tasks db !! tid) as [t|] eqn:E; [|discriminate].
    intros [= <-]. destruct (H tid t E) as (H1 & H2 & H3).
    cbn [reset_task task_update t_completed_count t_failed_count t_total_count].
    auto.
  - rewrite (count_after_retry tid' IFailed) by (left; congruence).
    destruct retried_db_shape as (_ & _ & ->).
    cbn [tasks with_tasks with_items].
    rewrite list_lookup_alter_ne by exact Hne. apply H.
Qed.

Lemma items_owned_retry : items_owned db -> items_owned db'.
Proof.
  unfold items_owned. destruct retried_db_shape as (_ & _ & ->).
  cbn [tasks items with_tasks with_items]. rewrite length_alter.
  intros H. apply List.Forall_map. eapply Forall_impl; [exact H|].
  intros x Hx. cbn beta in *. unfold reset_if_failed.
  now destruct (item_in tid IFailed x).
Qed.

(** No run of the task is queued or under way when a retry passes its
    checks. *)
Lemma no_run_of_retried_task (r : run) :
  retry_under_way r = false -> run_ok db r -> run_task r <> tid.
Proof.
  destruct retried_db_shape as ((task & Ht & Hs) & Hc & _).
  destruct r as [t ids|t|t|t c s b]; cbn [run_ok run_task retry_under_way];
    intros Hu Hr E; subst t.
  - discriminate Hu.
  - now destruct Hr as [_ Hr].
  - destruct Hr as (t' & Ht' & Hs'). congruence.
  - destruct Hr as ((t' & Ht' & Hs') & _). congruence.
Qed.

Lemma failed_of_other_after_reset (t : nat) (x : PromptBacktestItem) :
  t <> tid ->
  item_in t IFailed (reset_if_failed tid x) = item_in t IFailed x.
Proof.
  intros Hne. rewrite item_in_reset_if_failed.
  destruct (item_in tid IFailed x) eqn:E; [|reflexivity].
  rewrite item_in_unfold in E. apply andb_true_iff in E as [E1 _].
  apply Nat.eqb_eq in E1. rewrite item_in_unfold, E1.
  apply Nat.eqb_neq in Hne. rewrite (Nat.eqb_sym tid), Hne. reflexivity.
Qed.

Lemma run_ok_retry (r : run) :
  run_task r <> tid -> run_ok db r -> run_ok db' r.
Proof.
  intros Hne.
  apply run_ok_transfer.
  - destruct retried_db_shape as (_ & _ & ->).
    cbn [tasks with_tasks with_items]. now rewrite length_alter.
  - intros (t & Ht & Hs). exists t.
    destruct retried_db_shape as (_ & _ & ->).
    cbn [tasks with_tasks with_items].
    now rewrite list_lookup_alter_ne by congruence.
  - now rewrite count_after_retry by now left.
  - intros j x Hj _ Hs. destruct retried_db_shape as (_ & _ & ->).
    cbn [items with_tasks with_items]. rewrite lookup_map, Hj. cbn [option_map].
    unfold reset_if_failed. rewrite item_in_unfold, Hs.
    now rewrite andb_false_r.
  - intros t Ht Hs. exists t.
    destruct retried_db_shape as (_ & _ & ->).
    cbn [tasks with_tasks with_items].
    now rewrite list_lookup_alter_ne by congruence.
  - intros j. destruct retried_db_shape as (_ & _ & ->).
    cbn [items with_tasks with_items]. rewrite lookup_map.
    split; intros (x & Hx & Hf).
    + exists (reset_if_failed tid x). rewrite Hx. split; [reflexivity|].
      now rewrite failed_of_other_after_reset.
    + destruct (items db !! j) as [y|]; [|discriminate Hx].
      injection Hx as <-. exists y. split; [reflexivity|].
      now rewrite failed_of_other_after_reset in Hf.
Qed.

Lemma queued_ok_retry : run_ok db' (Queued tid).
Proof.
  destruct retried_db_shape as ((task & Ht & _) & _ & ->).
  cbn [run_ok tasks items with_tasks with_items].
  rewrite length_alter, count_failed_after_reset.
  split; [now apply lookup_lt_Some in Ht|reflexivity].
Qed.

End RetryFacts.

(** *** The batch a run dispatches *)

Lemma pending_from_rows (tid i : nat) (rows : list PromptBacktestItem) :
  Forall (fun d =>
            task_id d = tid
            /\ exists k it,
                 item_id d = i + k /\ rows !! k = Some it
                 /\ i_task_id it = tid /\ i_status it = IPending)
         (pending_from tid i rows).
Proof.
  revert i. induction rows as [|row rows IH]; intros i; [constructor|].
  cbn [pending_from].
  assert (Hrest : Forall (fun d =>
            task_id d = tid
            /\ exists k it,
                 item_id d = i + k /\ (row :: rows) !! k = Some it
                 /\ i_task_id it = tid /\ i_status it = IPending)
         (pending_from tid (S i) rows)).
  { eapply Forall_impl; [apply IH|].
    intros d (Hd & k & it & Hk & Hit & Ht & Hs). split; [exact Hd|].
    exists (S k), it. repeat split; auto. lia. }
  destruct (item_in tid IPending row) eqn:E; [|exact Hrest].
  constructor; [|exact Hrest].
  rewrite item_in_unfold in E. apply andb_true_iff in E as [E1 E2].
  apply Nat.eqb_eq in E1. apply item_status_eqb_eq in E2.
  split; [reflexivity|]. exists 0, row. cbn. repeat split; auto.
Qed.

Lemma pending_from_nodup (tid i : nat) (rows : list PromptBacktestItem) :
  NoDup (map item_id (pending_from tid i rows)).
Proof.
  revert i. induction rows as [|row rows IH]; intros i; [constructor|].
  cbn [pending_from]. destruct (item_in tid IPending row); [|apply IH].
  cbn [map item_id]. apply NoDup_cons. split; [|apply IH].
  intros Hin. apply list_elem_of_fmap in Hin as (d & Hd & Hin).
  pose proof (pending_from_rows tid (S i) rows) as H.
  rewrite Forall_forall in H. destruct (H d Hin) as (_ & k & _ & Hk & _).
  lia.
Qed.

Lemma pending_items_in_flight (tid : nat) (db : DB) :
  NoDup (map item_id (pending_items tid db))
  /\ Forall (in_flight_ok tid db) (pending_items tid db).
Proof.
  split; [apply pending_from_nodup|].
  eapply Forall_impl; [apply pending_from_rows|].
  intros d (Hd & k & it & Hk & Hit & Ht & Hs). split; [exact Hd|].
  exists it. rewrite Hk. auto.
Qed.

Lemma invariant_same_tables (db db' : DB) (runs : list run) :
  same_backtest_tables db db' ->
  invariant {| w_db := db; w_runs := runs |} ->
  invariant {| w_db := db'; w_runs := runs |}.
Proof.
  intros [Ht Hi] (Hc & Ho & Hn & Hr). unfold invariant. cbn [w_db w_runs] in *.
  split; [|split; [|split; [exact Hn|]]].
  - intros tid task. rewrite <- Ht, <- Hi. apply Hc.
  - unfold items_owned. now rewrite <- Ht, <- Hi.
  - eapply Forall_impl; [exact Hr|]. intros r.
    apply run_ok_transfer; rewrite <- ?Ht, <- ?Hi; eauto.
    unfold is_running. now rewrite <- Ht.
Qed.

(** *** The two halves of a retry request *)

Lemma in_failed_from (tid i : nat) (rows : list PromptBacktestItem) (j : nat) :
  In j (failed_from tid i rows) <->
  exists k row,
    j = i + k /\ rows !! k = Some row /\ item_in tid IFailed row = true.
Proof.
  revert i. induction rows as [|row rows IH]; intros i; cbn [failed_from].
  - split; [intros []|]. intros (k & row & _ & H & _). destruct k; discriminate H.
  - destruct (item_in tid IFailed row) eqn:E.
    + cbn [In]. rewrite IH. split.
      * intros [<-|(k & r & -> & Hk & Hr)].
        -- exists 0, row. rewrite Nat.add_0_r. now repeat split.
        -- exists (S k), r. repeat split; [lia|exact Hk|exact Hr].
      * intros (k & r & -> & Hk & Hr). destruct k as [|k].
        -- left. lia.
        -- right. exists k, r. repeat split; [lia|exact Hk|exact Hr].
    + rewrite IH. split.
      * intros (k & r & -> & Hk & Hr). exists (S k), r.
        repeat split; [lia|exact Hk|exact Hr].
      * intros (k & r & -> & Hk & Hr). destruct k as [|k].
        -- injection Hk as <-. congruence.
        -- exists k, r. repeat split; [lia|exact Hk|exact Hr].
Qed.

Lemma in_failed_ids (tid : nat) (db : DB) (j : nat) :
  In j (failed_ids tid db) <->
  exists row, items db !! j = Some row /\ item_in tid IFailed row = true.
Proof.
  unfold failed_ids. rewrite in_failed_from. split.
  - intros (k & row & -> & Hk & Hr). now exists row.
  - intros (row & Hk & Hr). now exists j, row.
Qed.

Lemma length_failed_from (tid i : nat) (rows : list PromptBacktestItem) :
  length (failed_from tid i rows) = count (item_in tid IFailed) rows.
Proof.
  revert i. induction rows as [|row rows IH]; intros i; [reflexivity|].
  cbn [failed_from count]. destruct (item_in tid IFailed row); cbn [length];
    now rewrite IH.
Qed.

(** On the rows the query would load now, the commit of the request is
    the commit of the whole route. *)
Lemma reset_loaded_is_map (tid : nat) (ids : list nat)
    (rows : list PromptBacktestItem) :
  (forall j,
     In j ids <->
     exists row, rows !! j = Some row /\ item_in tid IFailed row = true) ->
  reset_loaded ids rows = map (reset_if_failed tid) rows.
Proof.
  intros Hids. apply list_eq. intros j. unfold reset_loaded.
  rewrite list_lookup_imap, lookup_map.
  destruct (rows !! j) as [row|] eqn:E; [|reflexivity].
  cbn [fmap option_fmap option_map]. f_equal.
  unfold reset_if_failed, loaded.
  destruct (item_in tid IFailed row) eqn:Ef.
  - replace (existsb (Nat.eqb j) ids) with true; [reflexivity|].
    symmetry. apply existsb_exists. exists j.
    split; [|apply Nat.eqb_refl]. apply Hids. now exists row.
  - destruct (existsb (Nat.eqb j) ids) eqn:Ee; [|reflexivity].
    apply existsb_exists in Ee as (k & Hk & Hjk).
    apply Nat.eqb_eq in Hjk. subst k.
    apply Hids in Hk as (row' & Hrow' & Hf). congruence.
Qed.

Lemma retry_commit_is_retry (tid : nat) (ids : list nat) (db : DB) :
  run_ok db (Retrying tid ids) ->
  exists body,
    retry_failed_items tid db = (Returns body, retry_commit tid ids db)
    /\ rr_success body = true.
Proof.
  intros ((task & Ht & Hs) & Hne & Hids). unfold retry_failed_items.
  rewrite Ht.
  destruct (task_status_eqb (t_status task) TRunning) eqn:Es.
  { apply task_status_eqb_eq in Es. contradiction. }
  destruct (List.filter (item_in tid IFailed) (items db)) as [|f fs] eqn:Ef.
  - exfalso. destruct ids as [|j ids]; [contradiction|].
    destruct (proj1 (Hids j) (or_introl eq_refl)) as (row & Hrow & Hf).
    assert (Hin : In row (List.filter (item_in tid IFailed) (items db))).
    { apply filter_In. split; [|exact Hf].
      apply list_elem_of_In. now apply list_elem_of_lookup_2 in Hrow. }
    rewrite Ef in Hin. exact Hin.
  - eexists. split.
    + apply f_equal2; [reflexivity|]. unfold retry_commit.
      f_equal. unfold with_items. f_equal.
      symmetry. now apply reset_loaded_is_map.
    + reflexivity.
Qed.

Lemma nodup_batch_remove (earlier later : list item_data) (item : item_data) :
  NoDup (map item_id (earlier ++ item :: later)) ->
  NoDup (map item_id (earlier ++ later))
  /\ Forall (fun d => item_id d <> item_id item) (earlier ++ later).
Proof.
  rewrite !map_app. cbn [map]. intros H.
  apply NoDup_app in H as (Hb & Hba & Ha).
  apply NoDup_cons in Ha as (Hr & Ha).
  split.
  - apply NoDup_app. split; [exact Hb|split; [|exact Ha]].
    intros x Hx Hx'. apply (Hba x Hx). now right.
  - apply Forall_app. split; apply Forall_forall; intros d Hin E.
    + apply (Hba (item_id item)); [|now left].
      rewrite <- E. apply list_elem_of_fmap. eauto.
    + apply Hr. rewrite <- E. apply list_elem_of_fmap. eauto.
Qed.

(** *** Every step keeps the invariant *)

Section Preservation.

Variable json_loads : pystr -> res pyval.
Variable json_dumps : pyval -> pystr.
Variable str_lower : pystr -> pystr.
Variable driver_rejects : save_result -> option exn.

Abbreviation engine_step := (step json_loads json_dumps str_lower driver_rejects).
Abbreviation engine_reachable :=
  (reachable_apart json_loads json_dumps str_lower driver_rejects).

Lemma invariant_task_commit
    (f : PromptBacktestTask -> PromptBacktestTask) (tid : nat) (db : DB)
    (before after : list run) (r : run) (next : list run) :
  keeps_counters f ->
  (next = [] \/ exists r', next = [r'] /\ run_task r' = tid
                           /\ run_ok (with_tasks (alter f tid) db) r') ->
  run_task r = tid ->
  invariant {| w_db := db; w_runs := before ++ r :: after |} ->
  invariant {| w_db := with_tasks (alter f tid) db;
               w_runs := before ++ next ++ after |}.
Proof.
  intros Hf Hnext Htid (Hc & Ho & Hn & Hr). unfold invariant.
  cbn [w_db w_runs] in *.
  apply forall_middle in Hr as [Hr Hothers].
  destruct (nodup_remove_middle before after r Hn) as [Hn' Hne].
  assert (Hothers' : Forall (run_ok (with_tasks (alter f tid) db)) (before ++ after)).
  { apply (Forall_transfer _ _ _ _ Hne Hothers).
    intros x Hx. apply run_ok_alter_other. congruence. }
  split; [now apply counters_alter|]. split; [now apply items_owned_alter|].
  destruct Hnext as [->|(r' & -> & Hr' & Hok)]; cbn [app].
  - split; assumption.
  - split.
    + apply (nodup_replace_middle before after r r'); congruence.
    + apply forall_middle. split; assumption.
Qed.

Theorem step_keeps_invariant (w w' : World) :
  invariant w -> engine_step w w' -> retries_apart w' -> invariant w'.
Proof.
  intros Hinv Hstep Hapart. destruct Hstep.
  - (* environment *) now apply (invariant_same_tables db db').
  - (* create *)
    destruct Hinv as (Hc & Ho & Hn & Hr). unfold invariant. cbn [w_db w_runs] in *.
    split; [now apply (counters_create json_dumps request db db' body)|].
    split; [now apply (items_owned_create json_dumps request db db' body)|].
    split.
    + rewrite map_app. apply NoDup_app. split; [exact Hn|]. split.
      * intros x Hx Hx'. cbn in Hx'. apply list_elem_of_singleton in Hx'. subst x.
        apply list_elem_of_fmap in Hx as (r & Hr1 & Hr2).
        rewrite Forall_forall in Hr. pose proof (run_task_lt db r (Hr r Hr2)).
        destruct (created_db_shape json_dumps request db db' body H) as (E & _).
        lia.
      * cbn. apply NoDup_singleton.
    + apply Forall_app. split.
      * eapply Forall_impl; [exact Hr|]. intros r.
        now apply (run_ok_create json_dumps request db db' body).
      * constructor; [|constructor].
        now apply (queued_ok_create json_dumps request db db' body).
  - (* a retry request passes its checks *)
    destruct Hinv as (Hc & Ho & Hn & Hr). unfold invariant. cbn [w_db w_runs] in *.
    unfold retries_apart in Hapart. cbn [w_runs] in Hapart.
    rewrite List.filter_app, map_app in Hapart. cbn in Hapart.
    split; [exact Hc|]. split; [exact Ho|]. split.
    + rewrite map_app. apply NoDup_app. split; [exact Hn|]. split.
      * intros x Hx Hx'. cbn in Hx'. apply list_elem_of_singleton in Hx'. subst x.
        apply list_elem_of_fmap in Hx as (r & Hr1 & Hr2).
        rewrite Forall_forall in Hr. specialize (Hr r Hr2).
        destruct (retry_under_way r) eqn:Eu.
        -- apply NoDup_app in Hapart as (_ & Hdis & _).
           apply (Hdis tid); [|now left].
           rewrite Hr1. apply list_elem_of_fmap. exists r. split; [reflexivity|].
           apply list_elem_of_In. apply filter_In.
           split; [now apply list_elem_of_In|exact Eu].
        -- destruct r as [t ids|t|t|t c s b];
             cbn [run_ok run_task retry_under_way] in *; subst t.
           ++ discriminate Eu.
           ++ destruct Hr as [_ Hr]. apply H1. unfold failed_ids.
              apply length_zero_iff_nil. now rewrite length_failed_from.
           ++ destruct Hr as (t' & Ht' & Hs'). congruence.
           ++ destruct Hr as ((t' & Ht' & Hs') & _). congruence.
      * cbn. apply NoDup_singleton.
    + apply Forall_app. split; [exact Hr|].
      constructor; [|constructor]. cbn [run_ok].
      split; [now exists task|]. split; [exact H1|]. apply in_failed_ids.
  - (* the retry request commits *)
    destruct Hinv as (Hc & Ho & Hn & Hr). unfold invariant. cbn [w_db w_runs] in *.
    apply forall_middle in Hr as [Hretry Hr].
    destruct (nodup_remove_middle before after _ Hn) as [_ Hne].
    cbn [run_task] in Hne.
    destruct (retry_commit_is_retry tid failed db Hretry) as (body & Hb & Hs).
    split; [now apply (counters_retry tid db _ body)|].
    split; [now apply (items_owned_retry tid db _ body)|].
    split.
    + now apply (nodup_replace_middle before after (Retrying tid failed)).
    + apply forall_middle. split.
      * now apply (queued_ok_retry tid db _ body).
      * apply (Forall_transfer _ _ _ _ Hne Hr).
        intros r Hx. now apply (run_ok_retry tid db _ body).
  - (* the task is gone *)
    destruct Hinv as (Hc & Ho & Hn & Hr). unfold invariant. cbn [w_db w_runs] in *.
    apply forall_middle in Hr as [_ Hr].
    destruct (nodup_remove_middle before after _ Hn) as [Hn' _]. auto.
  - (* begin *)
    apply (invariant_task_commit (mark_running now) tid db before after
             (Queued tid) [Started tid]); auto using keeps_counters_mark_running.
    right. exists (Started tid). repeat split.
    now apply (is_running_begin now tid db task).
  - (* account missing *)
    apply (invariant_task_commit (mark_failed now) tid db before after
             (Started tid) []); auto using keeps_counters_mark_failed.
  - (* dispatch *)
    destruct Hinv as (Hc & Ho & Hn & Hr). unfold invariant. cbn [w_db w_runs] in *.
    apply forall_middle in Hr as [Hrun Hr].
    split; [exact Hc|]. split; [exact Ho|]. split.
    + now apply (nodup_replace_middle before after (Started tid)).
    + apply forall_middle. split; [|exact Hr].
      cbn [run_ok] in *. split; [exact Hrun|]. apply pending_items_in_flight.
  - (* one item resolves *)
    destruct Hinv as (Hc & Ho & Hn & Hr). unfold invariant. cbn [w_db w_runs] in *.
    apply forall_middle in Hr as [Hrun Hr].
    destruct Hrun as (Hrunning & Hnd & Hbatch).
    apply forall_middle in Hbatch as [Hitem Hbatch].
    destruct (nodup_batch_remove earlier later item Hnd) as [Hnd' Hdistinct].
    destruct (nodup_remove_middle before after _ Hn) as [_ Hne].
    cbn [run_task] in Hne.
    pose proof (nodup_replace_middle before after
                  (Dispatched tid config system_prompt (earlier ++ item :: later))
                  (Dispatched tid config system_prompt (earlier ++ later))
                  eq_refl Hn) as Hn'.
    destruct (resolve_item_cases json_loads json_dumps str_lower driver_rejects call_llm config
                system_prompt db item) as [-> | [result ->]].
    + split; [exact Hc|]. split; [exact Ho|]. split; [exact Hn'|].
      apply forall_middle. split; [|exact Hr]. cbn [run_ok]. auto.
    + destruct Hitem as (Htid & it & Hrow & Hown & Hpend).
      rewrite Htid.
      split; [now apply (counters_save _ _ _ _ it)|].
      split; [now apply (items_owned_save _ _ _ _ it)|].
      split; [exact Hn'|].
      apply forall_middle. split.
      * cbn [run_ok]. split; [now apply (is_running_save _ _ _ _ it)|].
        split; [exact Hnd'|].
        apply (Forall_transfer _ _ _ _ Hdistinct Hbatch).
        intros d Hd. now apply (in_flight_after_save _ _ _ _ it).
      * apply (Forall_transfer _ _ _ _ Hne Hr).
        intros r Hx. now apply (run_ok_save_other _ _ _ _ it).
  - (* finalize *)
    apply (invariant_task_commit (mark_completed now) tid db before after
             (Dispatched tid config system_prompt []) []);
      auto using keeps_counters_mark_completed.
Qed.

Lemma invariant_init (init : DB) :
  tasks init = [] -> items init = [] ->
  invariant {| w_db := init; w_runs := [] |}.
Proof.
  intros Ht Hi. unfold invariant. cbn [w_db w_runs].
  split; [|split; [|split; constructor]].
  - intros tid task. now rewrite Ht.
  - unfold items_owned. rewrite Hi. constructor.
Qed.

Lemma reachable_invariant (init : DB) (w : World) :
  tasks init = [] -> items init = [] ->
  engine_reachable init w -> invariant w.
Proof.
  intros Ht Hi Hreach. induction Hreach as [|w w' _ IH Hstep Hapart].
  - now apply invariant_init.
  - now apply (step_keeps_invariant w w').
Qed.

End Preservation.

Lemma count_by_status (tid : nat) (rows : list PromptBacktestItem) :
  count (item_of tid) rows
  = count (item_in tid ICompleted) rows + count (item_in tid IFailed) rows
    + count (item_in tid IPending) rows.
Proof.
  induction rows as [|x rows IH]; [reflexivity|].
  cbn [count]. rewrite IH, !item_in_unfold, item_of_unfold.
  destruct (i_task_id x =? tid), (i_status x); cbn; lia.
Qed.

(** *** A whole run *)

Lemma pending_count_is_batch (tid i : nat) (rows : list PromptBacktestItem) :
  count (item_in tid IPending) rows = length (pending_from tid i rows).
Proof.
  revert i. induction rows as [|row rows IH]; intros i; [reflexivity|].
  cbn [count pending_from]. rewrite (IH (S i)).
  now destruct (item_in tid IPending row).
Qed.

Section RunFacts.

Variable json_loads : pystr -> res pyval.
Variable json_dumps : pyval -> pystr.
Variable str_lower : pystr -> pystr.
Variable driver_rejects : save_result -> option exn.

Abbreviation worker' := (_process_and_save_item json_loads json_dumps str_lower driver_rejects).
Abbreviation run_items' :=
  (_process_items_realtime json_loads json_dumps str_lower driver_rejects).

(** When no worker lets an exception escape, a batch of distinct pending
    rows of one task leaves none of them pending, and the counters still
    match the rows. *)
Lemma run_items_resolve_all (call_llm : llm) (config : account_config)
    (system_prompt : pystr) (tid : nat) (batch : list item_data) (db : DB) :
  (forall item db0,
     In item batch ->
     exists db1, worker' call_llm item config system_prompt db0 = Ok db1) ->
  counters_match db ->
  NoDup (map item_id batch) ->
  Forall (in_flight_ok tid db) batch ->
  let final := List.last (run_items' call_llm batch config system_prompt db) db in
  counters_match final
  /\ count (item_in tid IPending) (items final) + length batch
     = count (item_in tid IPending) (items db)
  /\ count (item_of tid) (items final) = count (item_of tid) (items db)
  /\ map t_total_count (tasks final) = map t_total_count (tasks db).
Proof.
  cbv zeta. revert db. induction batch as [|item batch IH];
    intros db Hsave Hc Hnd Hok.
  - cbn [_process_items_realtime List.last length].
    split; [exact Hc|split; [lia|split; reflexivity]].
  - cbn [_process_items_realtime]. rewrite last_cons_default.
    apply Forall_cons in Hok as [(Htid & it & Hrow & Hown & Hpend) Hok].
    cbn [map] in Hnd. apply NoDup_cons in Hnd as [Hnotin Hnd].
    destruct (Hsave item db (or_introl eq_refl)) as [db1 Hdb1].
    unfold resolve_item. rewrite Hdb1.
    destruct (worker_cases json_loads json_dumps str_lower driver_rejects call_llm item config
                system_prompt db) as [[e He]|[result Hr]]; [congruence|].
    rewrite Hr in Hdb1. injection Hdb1 as <-. rewrite Htid in *.
    set (db1 := saved_store (item_id item) tid result db).
    destruct (IH db1) as (H1 & H2 & H3 & H4).
    + intros x db0 Hx. apply Hsave. now right.
    + now apply (counters_save _ _ _ _ it).
    + exact Hnd.
    + apply (Forall_transfer (fun d => item_id d <> item_id item)
               (in_flight_ok tid db)); [|exact Hok|].
      * apply Forall_forall. intros d Hd E. apply Hnotin.
        rewrite <- E. apply list_elem_of_fmap. eauto.
      * intros d Hne Hd. now apply (in_flight_after_save _ _ _ _ it).
    + split; [exact H1|].
      pose proof (count_after_save (item_id item) tid result db it Hrow
                    (item_in tid IPending)) as Hp.
      pose proof (count_after_save (item_id item) tid result db it Hrow
                    (item_of tid)) as Ho.
      rewrite !item_in_unfold in Hp. rewrite !item_of_unfold in Ho.
      rewrite saved_row_task, saved_row_status, Hown, Hpend, Nat.eqb_refl in *.
      fold db1 in Hp, Ho. cbn [length].
      assert (Ht : map t_total_count (tasks db1) = map t_total_count (tasks db)).
      { unfold db1. rewrite (save_existing _ _ _ _ it Hrow).
        cbn [tasks with_tasks with_items]. apply map_alter_invariant.
        intros x. unfold bump. now destruct (r_success result). }
      split; [|split; [lia|congruence]].
      destruct (r_success result); cbn [andb item_status_eqb] in Hp; lia.
Qed.

(** From a store whose counters match its rows, a run in which the pool
    resolves every dispatched item and no worker lets an exception escape
    ends with the task completed, no row of it pending, and
    completed_count + failed_count equal to the number of its rows. *)
Lemma run_counts_every_row (started stopped : Z)
    (completion : list item_data -> list item_data) (call_llm : llm)
    (tid : nat) (db : DB) (task : PromptBacktestTask) (account : Account) :
  counters_match db ->
  tasks db !! tid = Some task ->
  find_account (t_account_id task) db = Some account ->
  Permutation (completion (pending_items tid db)) (pending_items tid db) ->
  (forall item db0,
     In item (pending_items tid db) ->
     exists db1,
       worker' call_llm item (config_of account)
         (_get_system_prompt db (acc_id account)) db0 = Ok db1) ->
  let final :=
    List.last (execute_backtest_task json_loads json_dumps str_lower driver_rejects started
                 stopped completion call_llm tid db) db in
  exists task',
    tasks final !! tid = Some task'
    /\ t_status task' = TCompleted
    /\ t_total_count task' = t_total_count task
    /\ count (item_in tid IPending) (items final) = 0
    /\ t_completed_count task' + t_failed_count task'
       = count (item_of tid) (items db).
Proof.
  intros Hc Htask Hacc Hperm Hsave. cbv zeta.
  unfold execute_backtest_task. rewrite Htask.
  change (find_account (t_account_id task) (begin_task started tid db))
    with (find_account (t_account_id task) db). rewrite Hacc.
  change (pending_items tid (begin_task started tid db))
    with (pending_items tid db).
  change (_get_system_prompt (begin_task started tid db) (acc_id account))
    with (_get_system_prompt db (acc_id account)).
  set (db1 := begin_task started tid db).
  set (batch := completion (pending_items tid db)) in *.
  set (sp := _get_system_prompt db (acc_id account)) in *.
  set (resolved := _process_items_realtime _ _ _ _ _ batch _ sp db1).
  rewrite last_cons_default, last_last.
  destruct (pending_items_in_flight tid db1) as [Hnd Hok].
  change (pending_items tid db1) with (pending_items tid db) in Hnd, Hok.
  destruct (run_items_resolve_all call_llm (config_of account) sp tid batch db1)
    as (H1 & H2 & H3 & H4).
  - intros item db0 Hin. apply Hsave.
    apply (Permutation_in _ Hperm Hin).
  - now apply counters_alter; [apply keeps_counters_mark_running|].
  - now rewrite Hperm.
  - apply (Permutation_Forall (Permutation_sym Hperm) Hok).
  - fold resolved in H1, H2, H3, H4.
    change (items db1) with (items db) in H2, H3.
    rewrite (pending_count_is_batch tid 0 (items db)) in H2.
    change (pending_from tid 0 (items db)) with (pending_items tid db) in H2.
    rewrite <- (Permutation_length Hperm) in H2. fold batch in H2.
    destruct (run_items_keep_lifecycles json_loads json_dumps str_lower driver_rejects call_llm
                batch (config_of account) sp db1) as (_ & Hlast & _).
    fold resolved in Hlast.
    pose proof (lifecycle_of_map tid _ _ Hlast) as Hl.
    pose proof (lifecycle_of_begin started tid db task Htask) as Hb.
    fold db1 in Hb. rewrite Hb in Hl. unfold lifecycle_of in Hl.
    destruct (tasks (List.last resolved db1) !! tid) as [t|] eqn:Et;
      [|discriminate].
    exists (mark_completed stopped t).
    unfold finalize_task. cbn [tasks items with_tasks].
    rewrite list_lookup_alter_eq, Et.
    split; [reflexivity|]. split; [reflexivity|]. split.
    { apply (f_equal (fun l => l !! tid)) in H4.
      rewrite !lookup_map, Et in H4. unfold db1, begin_task in H4.
      cbn [tasks with_tasks] in H4.
      rewrite list_lookup_alter_eq, Htask in H4. now injection H4. }
    split; [lia|].
    destruct (H1 tid t Et) as (Hcc & Hfc & _).
    cbn [mark_completed task_update t_completed_count t_failed_count].
    pose proof (count_by_status tid (items (List.last resolved db1))). lia.
Qed.

End RunFacts.

(** ** Counters and total *)


Lemma dropped_final_reachable :
  reachable_apart mini_loads mini_dumps ascii_lower lenient_driver sample_db
    dropped_final.
Proof.
  apply (apart_step _ _ _ _ _
           {| w_db := dropped_db3;
              w_runs := [Dispatched 0 (config_of sample_account)
                           default_system_prompt []] |});
    [|exact (step_finalize _ _ _ _ 200 0 _ _ dropped_db3 [] [])|constructor].
  apply (apart_step _ _ _ _ _
           {| w_db := dropped_db2;
              w_runs := [Dispatched 0 (config_of sample_account)
                           default_system_prompt [dropped_item]] |});
    [|exact (step_item _ _ _ _ sample_llm 0 _ _ [] dropped_item []
               dropped_db2 [] [])|constructor].
  apply (apart_step _ _ _ _ _ {| w_db := dropped_db2; w_runs := [Started 0] |});
    [|exact (step_dispatch _ _ _ _ 0
               (mark_running 100 (new_task mini_dumps dropping_request sample_db))
               sample_account dropped_db2 [] [] eq_refl eq_refl)|constructor].
  apply (apart_step _ _ _ _ _ {| w_db := dropped_db1; w_runs := [Queued 0] |});
    [|exact (step_begin _ _ _ _ 100 0
               (new_task mini_dumps dropping_request sample_db)
               dropped_db1 [] [] eq_refl)|constructor].
  apply (apart_step _ _ _ _ _ {| w_db := sample_db; w_runs := [] |});
    [|exact (step_create _ _ _ _ dropping_request sample_db
               {| cr_task_id := 0; cr_status := TPending; cr_total_count := 2 |}
               dropped_db1 [] eq_refl)|constructor].
  apply apart_init.
Qed.


Lemma created_reachable :
  reachable_apart mini_loads mini_dumps ascii_lower lenient_driver sample_db
    {| w_db := created_db; w_runs := [Queued 0] |}.
Proof.
  apply (apart_step _ _ _ _ _ {| w_db := sample_db; w_runs := [] |});
    [apply apart_init| |constructor].
  exact (step_create _ _ _ _ (sample_request [input 7 1; input 8 2]) sample_db
           {| cr_task_id := 0; cr_status := TPending; cr_total_count := 2 |}
           created_db [] eq_refl).
Qed.

Lemma sample_llm_always_saved (item : item_data) (config : account_config)
    (system_prompt : pystr) (db0 : DB) :
  exists db1,
    _process_and_save_item mini_loads mini_dumps ascii_lower lenient_driver sample_llm item
      config system_prompt db0 = Ok db1.
Proof.
  destruct (str_eqb (modified_prompt item) (u "prompt 1")) eqn:E.
  - apply (worker_returns_on_text_content _ _ _ _ _ _ _ _ _
             (response_of [(u "content", PStr (fenced_json (decision_text "hold")))])
             (fenced_json (decision_text "hold"))).
    + intros result. unfold commit_error, lenient_driver.
      now destruct (binds_literals_only result).
    + unfold sample_llm. now rewrite E.
    + apply get_content_of_string.
  - unfold _process_and_save_item, process_item_try, sample_llm. rewrite E.
    cbn [truthy negb].
    rewrite (save_literal lenient_driver (item_id item) (task_id item)
               (failure_result msg_no_response PNone) db0 eq_refl).
    eexists. reflexivity.
Qed.


(* ================================================================== *)
(** * Further properties of the service and its routes *)
(* ================================================================== *)

(** ** Decision parser: what a returned decision looks like *)

Lemma dict_set_not_empty (k : pystr) (v : pyval) (d : pydict) :
  dict_set k v d <> [].
Proof.
  destruct d as [|[k' v'] d]; simpl; [discriminate|].
  destruct (str_eqb k' k); discriminate.
Qed.

(** What the shape resolution selects from the loaded value. *)
Lemma resolve_shape_selects (r : pystr) (decision : pyval) (d : pydict) :
  resolve_shape r decision = Some d ->
  exists selected,
    d = attach r selected
    /\ ((exists outer rest,
           decision = PDict outer
           /\ dict_get k_decisions PNone outer = PList (PDict selected :: rest))
        \/ (decision = PDict selected
            /\ is_list (dict_get k_decisions PNone selected) = false
            /\ dict_has k_operation selected = true)
        \/ (exists rest, decision = PList (PDict selected :: rest))).
Proof.
  unfold resolve_shape. destruct (truthy decision); cbn [negb]; [|discriminate].
  destruct decision as [| | | | |l|obj]; try discriminate.
  - destruct l as [|[| | | | | |first] l]; try discriminate.
    intros [= <-]. exists first. split; [reflexivity|]. right. right. eauto.
  - destruct (dict_get k_decisions PNone obj) as [| | | | |decisions|] eqn:E;
      try (destruct (dict_has k_operation obj) eqn:Eo; [|discriminate];
           intros [= <-]; exists obj; split; [reflexivity|];
           right; left; rewrite E; now repeat split).
    destruct decisions as [|[| | | | | |first] l]; try discriminate.
    intros [= <-]. exists first. split; [reflexivity|]. left. eauto.
Qed.

(** A decision comes from the value [json.loads] returned for the working
    text, at the first attempt or, after a [JSONDecodeError], at the
    second. *)
Lemma parse_result_origin (json_loads : pystr -> res pyval)
    (r : pystr) (d : pydict) :
  parse_decision_str json_loads r = Ok (Some d) ->
  exists working decision,
    extract_fenced (py_strip r) = Ok working
    /\ (json_loads working = Ok decision
        \/ decode_fails json_loads working
           /\ json_loads (cleanup working) = Ok decision)
    /\ resolve_shape r decision = Some d.
Proof.
  unfold parse_decision_str, load_with_retry.
  destruct (extract_fenced (py_strip r)) as [working|e]; cbn [bind];
    [|discriminate].
  destruct (json_loads working) as [decision|e1] eqn:E1; cbn [bind].
  - intros [= H]. exists working, decision. repeat split; auto.
  - destruct (is_decode_error e1) eqn:D1; cbn [bind]; [|discriminate].
    destruct (json_loads (cleanup working)) as [decision|e2] eqn:E2;
      cbn [bind].
    + intros [= H]. exists working, decision. split; [reflexivity|].
      split; [right; split; [exists e1; now split|exact E2]|exact H].
    + destruct (is_decode_error e2); cbn [bind]; discriminate.
Qed.

Lemma parse_result_is_attached (json_loads : pystr -> res pyval)
    (r : pystr) (d : pydict) :
  parse_decision_str json_loads r = Ok (Some d) ->
  exists resolved, d = attach r resolved.
Proof.
  intros H. destruct (parse_result_origin json_loads r d H)
    as (working & decision & _ & _ & Hshape).
  destruct (resolve_shape_selects r decision d Hshape) as (selected & -> & _).
  eauto.
Qed.

(** X1.  A decision returned by [_parse_decision] comes from a string
    response and from the value [json.loads] returned for the working
    text, at the first attempt or, after a [JSONDecodeError], for the
    cleaned-up text.  It is the object selected from that value (the first
    element of its [decisions] list, the value itself when it is an object
    with an [operation] key and no [decisions] list, or the first element
    when the value is a list) with the key [_reasoning] set to the first
    2000 code points of the response, replacing any [_reasoning] the
    object had; every other key is as in the selected object, and the
    decision is never an empty dict. *)
Theorem parsed_decision_carries_response
    (json_loads : pystr -> res pyval) (response : pyval) (d : pydict)
    (parsed : _parse_decision json_loads response = Ok (Some d)) :
  exists r working decision selected,
    response = PStr r
    /\ extract_fenced (py_strip r) = Ok working
    /\ (json_loads working = Ok decision
        \/ decode_fails json_loads working
           /\ json_loads (cleanup working) = Ok decision)
    /\ ((exists outer rest,
           decision = PDict outer
           /\ dict_get k_decisions PNone outer = PList (PDict selected :: rest))
        \/ (decision = PDict selected
            /\ is_list (dict_get k_decisions PNone selected) = false
            /\ dict_has k_operation selected = true)
        \/ (exists rest, decision = PList (PDict selected :: rest)))
    /\ d = attach r selected
    /\ dict_lookup k_reasoning d = Some (PStr (slice_to 2000 r))
    /\ length (slice_to 2000 r) <= 2000
    /\ (forall k, k <> k_reasoning -> dict_lookup k d = dict_lookup k selected)
    /\ d <> [].
Proof.
  unfold _parse_decision in parsed.
  destruct (truthy response) eqn:T; cbn [negb] in parsed; [|discriminate].
  destruct response as [| | | |r| |]; try discriminate.
  destruct (parse_result_origin json_loads r d parsed)
    as (working & decision & Hw & Hload & Hshape).
  destruct (resolve_shape_selects r decision d Hshape)
    as (selected & -> & Hsel).
  exists r, working, decision, selected.
  split; [reflexivity|]. split; [exact Hw|]. split; [exact Hload|].
  split; [exact Hsel|]. split; [reflexivity|].
  split; [apply dict_lookup_set_eq|].
  split; [unfold slice_to; rewrite length_take; lia|].
  split; [intros k Hk; now apply dict_lookup_set_ne|apply dict_set_not_empty].
Qed.

Lemma parsed_decision_carries_response_witness :
  exists r working decision selected,
    PStr (fenced_json (decision_text "hold")) = PStr r
    /\ extract_fenced (py_strip r) = Ok working
    /\ (mini_loads working = Ok decision
        \/ decode_fails mini_loads working
           /\ mini_loads (cleanup working) = Ok decision)
    /\ ((exists outer rest,
           decision = PDict outer
           /\ dict_get k_decisions PNone outer = PList (PDict selected :: rest))
        \/ (decision = PDict selected
            /\ is_list (dict_get k_decisions PNone selected) = false
            /\ dict_has k_operation selected = true)
        \/ (exists rest, decision = PList (PDict selected :: rest)))
    /\ attach (fenced_json (decision_text "hold"))
         [(k_operation, PStr (u "hold")); (u "symbol", PStr (u "BTC"))]
       = attach r selected
    /\ dict_lookup k_reasoning
         (attach (fenced_json (decision_text "hold"))
            [(k_operation, PStr (u "hold")); (u "symbol", PStr (u "BTC"))])
       = Some (PStr (slice_to 2000 r))
    /\ length (slice_to 2000 r) <= 2000
    /\ (forall k, k <> k_reasoning ->
          dict_lookup k
            (attach (fenced_json (decision_text "hold"))
               [(k_operation, PStr (u "hold")); (u "symbol", PStr (u "BTC"))])
          = dict_lookup k selected)
    /\ attach (fenced_json (decision_text "hold"))
         [(k_operation, PStr (u "hold")); (u "symbol", PStr (u "BTC"))] <> [].
Proof.
  apply (parsed_decision_carries_response mini_loads). reflexivity.
Defined.

(** An unfenced response is parsed as it is. *)
Lemma parse_unfenced (json_loads : pystr -> res pyval) (r : pystr)
    (v : pyval) :
  r <> [] -> py_in fence r = false -> json_loads (py_strip r) = Ok v ->
  _parse_decision json_loads (PStr r) = Ok (resolve_shape r v).
Proof.
  intros Hne Hf Hv. unfold _parse_decision.
  destruct r as [|c r]; [contradiction|]. cbn [truthy negb].
  unfold parse_decision_str.
  rewrite (extract_fenced_bare _ Hf). cbn [bind].
  unfold load_with_retry. now rewrite Hv.
Qed.

(** X2.  Shape resolution on an unfenced response that [json.loads]
    accepts.  A falsy value gives no decision.  An object whose
    [decisions] field is a list gives the first element of that list when
    it is an object and no decision otherwise, whether or not the object
    has an [operation] of its own.  Any other object gives itself when it
    has an [operation] key and no decision otherwise.  A list gives its
    first element when that is an object and no decision otherwise.
    Numbers, strings and booleans give no decision. *)
Theorem unfenced_shape_resolution
    (json_loads : pystr -> res pyval) (r : pystr) (v : pyval)
    (non_empty : r <> [])
    (no_fence : py_in fence r = false)
    (loaded : json_loads (py_strip r) = Ok v) :
  let result := _parse_decision json_loads (PStr r) in
  (truthy v = false -> result = Ok None)
  /\ (forall obj l,
        v = PDict obj -> dict_get k_decisions PNone obj = PList l ->
        result = Ok (match l with
                     | PDict first :: _ => Some (attach r first)
                     | _ => None
                     end))
  /\ (forall obj,
        v = PDict obj -> obj <> [] ->
        is_list (dict_get k_decisions PNone obj) = false ->
        result = Ok (if dict_has k_operation obj then Some (attach r obj)
                     else None))
  /\ (forall x l,
        v = PList (x :: l) ->
        result = Ok (match x with
                     | PDict first => Some (attach r first)
                     | _ => None
                     end))
  /\ (is_dict v = false -> is_list v = false -> result = Ok None).
Proof.
  cbv zeta. rewrite (parse_unfenced json_loads r v non_empty no_fence loaded).
  unfold resolve_shape. split; [|split; [|split; [|split]]].
  - now intros ->.
  - intros obj l -> Hl. rewrite Hl.
    destruct obj as [|entry obj]; [discriminate Hl|]. cbn [truthy negb].
    now destruct l as [|[| | | | | |first] l].
  - intros obj -> Hne Hl. destruct obj as [|entry obj]; [contradiction|].
    cbn [truthy negb]. now destruct (dict_get k_decisions PNone (entry :: obj)).
  - intros x l ->. cbn [truthy negb]. now destruct x.
  - intros Hd Hl. destruct (truthy v); cbn [negb]; [|reflexivity].
    now destruct v.
Qed.

Lemma unfenced_shape_resolution_witness :
  _parse_decision mini_loads
    (PStr (u "{" ++ quoted "decisions" ++ u ": [], " ++ quoted "operation"
             ++ u ": " ++ quoted "buy" ++ u "}"))
  = Ok None.
Proof.
  pose proof (unfenced_shape_resolution mini_loads
                (u "{" ++ quoted "decisions" ++ u ": [], " ++ quoted "operation"
                   ++ u ": " ++ quoted "buy" ++ u "}")
                (PDict [(k_decisions, PList []); (k_operation, PStr (u "buy"))])
                ltac:(discriminate) eq_refl eq_refl) as H.
  cbv zeta in H. destruct H as (_ & H & _).
  exact (H _ [] eq_refl eq_refl).
Defined.

(** ** Decision parser: a fenced block in the middle of prose *)

Lemma lstrip_app_nonspace (a r : pystr) (c : N) :
  is_space c = false -> lstrip (a ++ c :: r) = lstrip a ++ c :: r.
Proof.
  intros Hc. induction a as [|x a IH]; cbn [app lstrip].
  - now rewrite Hc.
  - now destruct (is_space x).
Qed.

Lemma rstrip_app_nonspace (l b : pystr) (c : N) :
  is_space c = false -> rstrip (l ++ c :: b) = l ++ c :: rstrip b.
Proof.
  intros Hc. unfold rstrip. rewrite rev_app_distr. cbn [rev].
  rewrite <- List.app_assoc. cbn [app].
  rewrite (lstrip_app_nonspace (rev b) (rev l) c Hc).
  rewrite rev_app_distr. cbn [rev].
  now rewrite rev_involutive, <- List.app_assoc.
Qed.

Lemma strip_around (a mid b : pystr) (c d : N) :
  is_space c = false -> is_space d = false ->
  py_strip (a ++ c :: mid ++ d :: b) = lstrip a ++ c :: mid ++ d :: rstrip b.
Proof.
  intros Hc Hd. unfold py_strip. rewrite (lstrip_app_nonspace a _ c Hc).
  change (lstrip a ++ c :: mid ++ d :: b)
    with (lstrip a ++ (c :: mid) ++ d :: b).
  rewrite List.app_assoc, (rstrip_app_nonspace _ b d Hd).
  now rewrite <- List.app_assoc.
Qed.

Lemma rstrip_prefix (s : pystr) : exists w, s = rstrip s ++ w.
Proof.
  destruct (lstrip_suffix (rev s)) as [w Hw].
  exists (rev w). unfold rstrip. rewrite <- rev_app_distr, <- Hw.
  now rewrite rev_involutive.
Qed.

Lemma no_backtick_lstrip (a : pystr) :
  Forall (fun c => c <> 96%N) a -> Forall (fun c => c <> 96%N) (lstrip a).
Proof.
  intros H. destruct (lstrip_suffix a) as [w Hw]. rewrite Hw in H.
  now apply Forall_app in H as [_ H].
Qed.

Lemma no_backtick_rstrip (b : pystr) :
  Forall (fun c => c <> 96%N) b -> Forall (fun c => c <> 96%N) (rstrip b).
Proof.
  intros H. destruct (rstrip_prefix b) as [w Hw]. rewrite Hw in H.
  now apply Forall_app in H as [H _].
Qed.

Lemma first_of_rstrip (b : pystr) (c : N) :
  is_prefix [c] b = false -> is_prefix [c] (rstrip b) = false.
Proof.
  intros H. destruct (rstrip_prefix b) as [w Hw].
  destruct (rstrip b) as [|x s] eqn:E; [reflexivity|].
  rewrite Hw in H. exact H.
Qed.

(** A separator that begins with a backtick is not found where there is
    no backtick. *)
Lemma no_tick_clear (p' a r : pystr) :
  Forall (fun c => c <> 96%N) a -> clear_before (96%N :: p') a r = true.
Proof.
  induction 1 as [|x a Hx _ IH]; [reflexivity|].
  cbn [clear_before app is_prefix]. rewrite IH, andb_true_r.
  apply N.eqb_neq in Hx. rewrite N.eqb_sym, Hx. reflexivity.
Qed.

Lemma no_tick_absent (p' b : pystr) :
  Forall (fun c => c <> 96%N) b -> py_in (96%N :: p') b = false.
Proof.
  intros H. rewrite <- (List.app_nil_r b).
  apply py_in_app_absent; [now apply no_tick_clear|reflexivity].
Qed.

Lemma split_head_eq (sep a b : pystr) (x : N) (sep' : pystr) :
  sep = x :: sep' ->
  clear_before sep a (sep ++ b) = true ->
  py_split sep (a ++ sep ++ b) = a :: py_split sep b.
Proof.
  intros Hsep. induction a as [|c a IH]; intros H.
  - cbn [app]. now apply (split_at_start sep b x sep').
  - cbn [clear_before] in H. apply andb_true_iff in H as [Hp Hc].
    apply negb_true_iff in Hp. unfold py_split in *. cbn [app] in *.
    cbn [split_go]. rewrite Hp. now rewrite (IH Hc).
Qed.

Lemma prefix_of_rstrip (p b : pystr) :
  is_prefix p b = false -> is_prefix p (rstrip b) = false.
Proof.
  intros H. destruct (is_prefix p (rstrip b)) eqn:E; [|reflexivity].
  destruct (rstrip_prefix b) as [w Hw].
  pose proof (is_prefix_app_r p (rstrip b) w E) as H'.
  rewrite <- Hw in H'. congruence.
Qed.

Lemma is_prefix_split (p s : pystr) :
  is_prefix p s = true -> exists t, s = p ++ t.
Proof.
  revert s. induction p as [|x p IH]; intros s H; [now exists s|].
  destruct s as [|y s]; [discriminate H|].
  cbn [is_prefix] in H. apply andb_true_iff in H as [Hx Hp].
  apply N.eqb_eq in Hx. subst y. destruct (IH s Hp) as [t ->]. now exists t.
Qed.

(** After the closing fence no tagged fence starts, when what follows
    has no backtick and does not begin with the letters json. *)
Lemma fence_json_absent_in_tail (b : pystr) :
  Forall (fun c => c <> 96%N) b -> is_prefix (u "json") b = false ->
  py_in fence_json (fence ++ b) = false.
Proof.
  intros Hb Hj. apply py_in_app_absent; [|now apply no_tick_absent].
  change (u "json") with [106; 115; 111; 110]%N in Hj.
  destruct b as [|x b]; [reflexivity|].
  apply Forall_cons in Hb as [Hx _]. apply N.eqb_neq in Hx.
  cbn [is_prefix] in Hj.
  cbn [clear_before fence fence_json app is_prefix].
  rewrite !N.eqb_refl, Hj, (N.eqb_sym 96 x), Hx. reflexivity.
Qed.

Lemma fence_json_absent_after_block (j b : pystr) :
  py_in fence j = false ->
  Forall (fun c => c <> 96%N) b -> is_prefix (u "json") b = false ->
  py_in fence_json (interior j ++ fence ++ b) = false.
Proof.
  intros Hj Hb Hb'. apply py_in_app_absent.
  - change fence_json with (fence ++ [106; 115; 111; 110]%N).
    apply clear_before_longer. now apply interior_clear.
  - now apply fence_json_absent_in_tail.
Qed.

Section BlockAmidProse.

Variables a j b : pystr.
Hypothesis before_clean : Forall (fun c => c <> 96%N) a.
Hypothesis after_clean : Forall (fun c => c <> 96%N) b.
Hypothesis block_clean : py_in fence j = false.

Lemma strip_json_amid_prose :
  py_strip (a ++ fenced_json j ++ b)
  = lstrip a ++ fence_json ++ interior j ++ fence ++ rstrip b.
Proof.
  rewrite fenced_json_shape, List.app_nil_r.
  replace (a ++ (fence_json ++ interior j ++ fence) ++ b)
    with (a ++ 96%N :: ([96; 96; 106; 115; 111; 110]%N ++ interior j ++ [96; 96]%N)
            ++ 96%N :: b).
  2:{ unfold fence_json, fence. cbn [app]. rewrite <- !List.app_assoc.
      reflexivity. }
  rewrite strip_around by reflexivity.
  unfold fence_json, fence. cbn [app]. rewrite <- !List.app_assoc. reflexivity.
Qed.

Lemma strip_plain_amid_prose :
  py_strip (a ++ fenced_plain j ++ b)
  = lstrip a ++ fence ++ interior j ++ fence ++ rstrip b.
Proof.
  rewrite fenced_plain_shape, List.app_nil_r.
  replace (a ++ (fence ++ interior j ++ fence) ++ b)
    with (a ++ 96%N :: ([96; 96]%N ++ interior j ++ [96; 96]%N) ++ 96%N :: b).
  2:{ unfold fence. cbn [app]. rewrite <- !List.app_assoc. reflexivity. }
  rewrite strip_around by reflexivity.
  unfold fence. cbn [app]. rewrite <- !List.app_assoc. reflexivity.
Qed.

Lemma split_block_then_tail :
  exists t, py_split fence (interior j ++ fence ++ rstrip b) = interior j :: t.
Proof.
  eapply split_head; [reflexivity|]. now apply interior_clear.
Qed.

(** The part after the first tagged fence, cut at the next tagged fence
    if the closing fence happens to be followed by the letters json, still
    begins with the whole interior and its closing fence or is the
    interior itself. *)
Lemma tagged_part_starts_with_interior :
  exists part t,
    nth_part 1 (py_split fence_json
                  (lstrip a ++ fence_json ++ interior j ++ fence ++ rstrip b))
    = Ok part
    /\ py_split fence part = interior j :: t.
Proof.
  rewrite (split_head_eq fence_json (lstrip a) _ _ _ eq_refl)
    by (apply no_tick_clear; now apply no_backtick_lstrip).
  destruct (is_prefix (u "json") (rstrip b)) eqn:E.
  - apply is_prefix_split in E as [tail Htail]. rewrite Htail.
    change (fence ++ u "json" ++ tail) with (fence_json ++ tail).
    destruct (split_head fence_json (interior j) tail _ _ eq_refl) as [t ->].
    { change fence_json with (fence ++ [106; 115; 111; 110]%N).
      apply clear_before_longer. now apply interior_clear. }
    exists (interior j), []. split; [reflexivity|].
    apply split_absent. now apply fence_absent_in_interior.
  - rewrite (split_absent fence_json (interior j ++ fence ++ rstrip b)).
    2:{ apply fence_json_absent_after_block;
          auto using no_backtick_rstrip. }
    destruct split_block_then_tail as [t Ht].
    exists (interior j ++ fence ++ rstrip b), t. split; [reflexivity|exact Ht].
Qed.

Lemma extract_json_amid_prose :
  extract_fenced (py_strip (a ++ fenced_json j ++ b)) = Ok (py_strip j).
Proof.
  rewrite strip_json_amid_prose. unfold extract_fenced.
  rewrite (py_in_suffix fence_json (lstrip a) _
             (py_in_at_start fence_json _ _ _ eq_refl)).
  destruct tagged_part_starts_with_interior as (part & t & Hp & Ht).
  rewrite Hp. cbn [bind]. rewrite Ht.
  cbn [nth_part nth_error bind]. now rewrite strip_interior.
Qed.

Lemma extract_plain_amid_prose :
  is_prefix (u "json") b = false ->
  extract_fenced (py_strip (a ++ fenced_plain j ++ b)) = Ok (py_strip j).
Proof.
  intros after_not_json.
  rewrite strip_plain_amid_prose. unfold extract_fenced.
  assert (Hj : py_in fence_json
                 (lstrip a ++ fence ++ interior j ++ fence ++ rstrip b) = false).
  { apply py_in_app_absent;
      [apply no_tick_clear; now apply no_backtick_lstrip|].
    apply py_in_app_absent; [reflexivity|].
    apply fence_json_absent_after_block; auto using no_backtick_rstrip,
      prefix_of_rstrip. }
  rewrite Hj.
  rewrite (py_in_suffix fence (lstrip a) _ (py_in_at_start fence _ _ _ eq_refl)).
  rewrite (split_head_eq fence (lstrip a) _ _ _ eq_refl)
    by (apply no_tick_clear; now apply no_backtick_lstrip).
  destruct split_block_then_tail as [t ->].
  cbn [nth_part nth_error bind].
  rewrite (split_absent _ _ (fence_absent_in_interior j block_clean)).
  cbn [nth_part nth_error bind]. now rewrite strip_interior.
Qed.

End BlockAmidProse.

(** X3.  Prose around the first fenced block is ignored.  When the text
    before and the text after the block have no backtick and the block's
    interior [j] is non-empty and has no triple backtick, the response
    with the block tagged json is parsed from the same working text as [j]
    alone, whatever the prose is; the response with a plain block is so
    too unless the text after the block begins with the letters json
    (which would turn the closing fence into a tagged one).  The results
    agree up to [_reasoning]: no decision from any of them, the same
    exception of [json.loads], or the same object. *)
Theorem fenced_block_amid_prose
    (json_loads : pystr -> res pyval) (a j b : pystr)
    (before_clean : Forall (fun c => c <> 96%N) a)
    (after_clean : Forall (fun c => c <> 96%N) b)
    (non_empty : j <> [])
    (block_clean : py_in fence j = false) :
  exists core : res (option pydict),
    _parse_decision json_loads (PStr j)
    = (let* decision := core in Ok (option_map (attach j) decision))
    /\ _parse_decision json_loads (PStr (a ++ fenced_json j ++ b))
       = (let* decision := core in
          Ok (option_map (attach (a ++ fenced_json j ++ b)) decision))
    /\ (is_prefix (u "json") b = false ->
        _parse_decision json_loads (PStr (a ++ fenced_plain j ++ b))
        = (let* decision := core in
           Ok (option_map (attach (a ++ fenced_plain j ++ b)) decision))).
Proof.
  destruct (parse_of_working_text json_loads j (py_strip j) non_empty
              (extract_fenced_bare j block_clean)) as (core & Hbare & Hothers).
  exists core. split; [exact Hbare|]. split.
  - apply Hothers.
    + rewrite fenced_json_shape. now destruct a.
    + now apply extract_json_amid_prose.
  - intros after_not_json. apply Hothers.
    + rewrite fenced_plain_shape. now destruct a.
    + now apply extract_plain_amid_prose.
Qed.

Lemma fenced_block_amid_prose_witness :
  exists core : res (option pydict),
    _parse_decision mini_loads (PStr (decision_text "hold"))
    = (let* decision := core in
       Ok (option_map (attach (decision_text "hold")) decision))
    /\ _parse_decision mini_loads
         (PStr (u "My decision: " ++ fenced_json (decision_text "hold")
                  ++ u "json says so."))
       = (let* decision := core in
          Ok (option_map
                (attach (u "My decision: " ++ fenced_json (decision_text "hold")
                           ++ u "json says so.")) decision))
    /\ (is_prefix (u "json") (u "json says so.") = false ->
        _parse_decision mini_loads
          (PStr (u "My decision: " ++ fenced_plain (decision_text "hold")
                   ++ u "json says so."))
        = (let* decision := core in
           Ok (option_map
                 (attach (u "My decision: " ++ fenced_plain (decision_text "hold")
                            ++ u "json says so.")) decision))).
Proof.
  apply (fenced_block_amid_prose mini_loads (u "My decision: ")
           (decision_text "hold") (u "json says so.")).
  - repeat constructor; discriminate.
  - repeat constructor; discriminate.
  - discriminate.
  - reflexivity.
Defined.

(** ** Item worker: what each outcome leaves in the item row *)

Lemma slice_short (n : nat) (s : pystr) : length s <= n -> slice_to n s = s.
Proof. intros H. unfold slice_to. now apply firstn_all2. Qed.

Lemma slice_nonempty (n : nat) (c : N) (s : pystr) :
  truthy (PStr (slice_to (S n) (c :: s))) = true.
Proof. reflexivity. Qed.

Lemma saved_item_and_counter (id t : nat) (result : save_result) (db : DB)
    (row : PromptBacktestItem) :
  items db !! id = Some row ->
  items (saved_store id t result db) !! id = Some (saved_row result row)
  /\ tasks (saved_store id t result db) = alter (bump result) t (tasks db).
Proof.
  intros H. rewrite (save_existing _ _ _ _ row H).
  cbn [items tasks with_tasks with_items]. split; [|reflexivity].
  now apply (lookup_set_item _ _ row).
Qed.

Lemma failed_row_fields (result : save_result) (row : PromptBacktestItem) :
  i_status (failed_row result row) = IFailed
  /\ i_error_message (failed_row result row)
     = Some (slice_to 500 (match r_error result with
                           | Some error => error
                           | None => unknown_error
                           end))
  /\ i_new_reasoning (failed_row result row)
     = (if truthy (r_raw_response result) then r_raw_response result
        else i_new_reasoning row)
  /\ same_decision_fields (failed_row result row) row
  /\ same_snapshot (failed_row result row) row.
Proof. repeat split. Qed.

Lemma slice_slice (n : nat) (s : pystr) :
  slice_to n (slice_to n s) = slice_to n s.
Proof.
  unfold slice_to. rewrite firstn_firstn. now rewrite Nat.min_id.
Qed.

Section WorkerOutcomes.

Variable json_loads : pystr -> res pyval.
Variable json_dumps : pyval -> pystr.
Variable str_lower : pystr -> pystr.
Variable driver_rejects : save_result -> option exn.

Variables (call_llm : llm) (item : item_data) (config : account_config)
          (system_prompt : pystr) (db : DB).

Abbreviation the_worker :=
  (_process_and_save_item json_loads json_dumps str_lower driver_rejects
     call_llm item config system_prompt db).
Abbreviation save result :=
  (_save_item_result driver_rejects (item_id item) (task_id item) result db).
Abbreviation saved result :=
  (saved_store (item_id item) (task_id item) result db).

Lemma worker_without_answer (api_response : pyval) :
  call_llm config system_prompt (modified_prompt item) = Ok api_response ->
  truthy api_response = false ->
  the_worker = Ok (saved (failure_result msg_no_response PNone)).
Proof.
  intros Hc Ht. unfold _process_and_save_item, process_item_try.
  rewrite Hc, Ht. cbn [negb].
  now rewrite (save_literal driver_rejects (item_id item) (task_id item)
                 (failure_result msg_no_response PNone) db eq_refl).
Qed.

Lemma worker_without_content (api_response content : pyval) :
  call_llm config system_prompt (modified_prompt item) = Ok api_response ->
  truthy api_response = true ->
  _get_content_from_response api_response = Ok content ->
  truthy content = false ->
  the_worker = Ok (saved (failure_result msg_empty_content PNone)).
Proof.
  intros Hc Ht Hcontent Hempty. unfold _process_and_save_item, process_item_try.
  rewrite Hc, Ht. cbn [negb]. rewrite Hcontent.
  destruct (extract_reasoning_never_raises api_response) as [reasoning ->].
  cbn [bind]. rewrite Hempty. cbn [negb].
  now rewrite (save_literal driver_rejects (item_id item) (task_id item)
                 (failure_result msg_empty_content PNone) db eq_refl).
Qed.

(** The worker on a non-empty string content, after the call, as the
    rest of its [try] block under the handler. *)
Lemma worker_on_text (api_response : pyval) (c : N) (s : pystr)
    (reasoning : pystr) :
  call_llm config system_prompt (modified_prompt item) = Ok api_response ->
  truthy api_response = true ->
  _get_content_from_response api_response = Ok (PStr (c :: s)) ->
  _extract_reasoning_from_response api_response = Ok reasoning ->
  the_worker =
  try_except
    (let* decision := _parse_decision json_loads (PStr (c :: s)) in
     match decision with
     | Some (entry :: more) =>
         let decision := entry :: more in
         let* change :=
           classify_change str_lower (dict_get k_operation PNone decision)
             (original_operation item) in
         let* final_reasoning :=
           if truthy (PStr reasoning) then Ok (PStr reasoning)
           else slice_method 2000 (PStr (c :: s)) in
         save (success_result
                 (dict_get k_operation PNone decision)
                 (dict_get (u "symbol") PNone decision)
                 (dict_get (u "target_portion_of_balance") PNone decision)
                 final_reasoning (json_dumps (PDict decision))
                 (fst change) (snd change))
     | _ =>
         let* raw := slice_method 2000 (PStr (c :: s)) in
         save (failure_result msg_parse_failed raw)
     end)
    (fun e =>
       save (failure_result (slice_to 500 (exn_str e))
               (PStr (slice_to 2000 (c :: s))))).
Proof.
  intros Hc Ht Hcontent Hr. unfold _process_and_save_item, process_item_try.
  rewrite Hc, Ht. cbn [negb]. rewrite Hcontent, Hr. reflexivity.
Qed.

(** A result that carries the content is judged by the driver. *)
Lemma commit_error_with_raw (message : pystr) (c : N) (s : pystr) :
  commit_error driver_rejects
    (failure_result message (PStr (slice_to 2000 (c :: s))))
  = driver_rejects (failure_result message (PStr (slice_to 2000 (c :: s)))).
Proof. reflexivity. Qed.

Lemma save_with_raw_accepted (message : pystr) (c : N) (s : pystr) :
  driver_rejects (failure_result message (PStr (slice_to 2000 (c :: s))))
  = None ->
  save (failure_result message (PStr (slice_to 2000 (c :: s))))
  = Ok (saved (failure_result message (PStr (slice_to 2000 (c :: s))))).
Proof.
  intros H. apply save_accepted. now rewrite commit_error_with_raw.
Qed.

End WorkerOutcomes.

(** X4.  A provider call that returns nothing, or a response whose
    content is empty, marks an existing item failed with the message
    "LLM call failed - no response", respectively "LLM call failed - empty
    content", whatever the driver is: the save binds literals only.  Every
    other column of the row, the reasoning, the decision fields and the
    snapshot, stays as it was, and the task's [failed_count] is the only
    counter that moves. *)
Theorem worker_reports_missing_answer
    (json_loads : pystr -> res pyval) (json_dumps : pyval -> pystr)
    (str_lower : pystr -> pystr)
    (driver_rejects : save_result -> option exn)
    (call_llm : llm) (item : item_data) (config : account_config)
    (system_prompt : pystr) (db : DB) (row : PromptBacktestItem)
    (api_response : pyval)
    (item_row : items db !! item_id item = Some row)
    (answered : call_llm config system_prompt (modified_prompt item)
                = Ok api_response)
    (unusable :
       truthy api_response = false
       \/ exists content,
            _get_content_from_response api_response = Ok content
            /\ truthy content = false) :
  let message :=
    if truthy api_response then msg_empty_content else msg_no_response in
  exists db' row',
    _process_and_save_item json_loads json_dumps str_lower driver_rejects
      call_llm item config system_prompt db = Ok db'
    /\ items db' !! item_id item = Some row'
    /\ i_status row' = IFailed
    /\ i_error_message row' = Some message
    /\ i_new_reasoning row' = i_new_reasoning row
    /\ same_decision_fields row' row
    /\ same_snapshot row' row
    /\ tasks db' = alter incr_failed (task_id item) (tasks db).
Proof.
  cbv zeta.
  assert (Hw : _process_and_save_item json_loads json_dumps str_lower
                 driver_rejects call_llm item config system_prompt db
               = Ok (saved_store (item_id item) (task_id item)
                       (failure_result
                          (if truthy api_response then msg_empty_content
                           else msg_no_response) PNone) db)).
  { destruct (truthy api_response) eqn:T.
    - destruct unusable as [|(content & Hcontent & Hempty)]; [discriminate|].
      now apply (worker_without_content _ _ _ _ _ _ _ _ _ api_response content).
    - now apply (worker_without_answer _ _ _ _ _ _ _ _ _ api_response). }
  destruct (saved_item_and_counter (item_id item) (task_id item)
              (failure_result
                 (if truthy api_response then msg_empty_content
                  else msg_no_response) PNone) db row item_row) as [Hrow Htasks].
  eexists. eexists. split; [exact Hw|]. split; [exact Hrow|].
  split; [reflexivity|].
  split; [cbn; now destruct (truthy api_response)|].
  split; [reflexivity|]. split; [repeat split|]. split; [repeat split|].
  exact Htasks.
Qed.

Lemma worker_reports_missing_answer_witness :
  exists db' row',
    _process_and_save_item mini_loads mini_dumps ascii_lower strict_driver
      sample_llm
      {| item_id := 1; task_id := 0; modified_prompt := u "prompt 2";
         original_operation := Some (u "sell") |}
      (config_of sample_account) default_system_prompt created_db = Ok db'
    /\ items db' !! 1 = Some row'
    /\ i_status row' = IFailed
    /\ i_error_message row' = Some msg_no_response
    /\ i_new_reasoning row' = PNone
    /\ same_decision_fields row'
         (new_item 0 sample_db (sample_log 8 "sell") (input 8 2))
    /\ same_snapshot row'
         (new_item 0 sample_db (sample_log 8 "sell") (input 8 2))
    /\ tasks db' = alter incr_failed 0 (tasks created_db).
Proof.
  exact (worker_reports_missing_answer mini_loads mini_dumps ascii_lower
           strict_driver sample_llm
           {| item_id := 1; task_id := 0; modified_prompt := u "prompt 2";
              original_operation := Some (u "sell") |}
           (config_of sample_account) default_system_prompt created_db
           (new_item 0 sample_db (sample_log 8 "sell") (input 8 2)) PNone
           eq_refl eq_refl (or_introl eq_refl)).
Defined.

(** X5.  A non-empty text content from which no decision is parsed is
    saved as a failure with the message "Failed to parse decision" and the
    first 2000 code points of the content as raw response.  When the driver
    binds that, the item is failed with this message, the raw response is
    the row's [new_reasoning], the decision fields and the snapshot of the
    row stay as they were, and the task's [failed_count] is the only
    counter that moves. *)
Theorem worker_keeps_unparsed_content
    (json_loads : pystr -> res pyval) (json_dumps : pyval -> pystr)
    (str_lower : pystr -> pystr)
    (driver_rejects : save_result -> option exn)
    (call_llm : llm) (item : item_data) (config : account_config)
    (system_prompt : pystr) (db : DB) (row : PromptBacktestItem)
    (api_response : pyval) (c : N) (s : pystr)
    (item_row : items db !! item_id item = Some row)
    (answered : call_llm config system_prompt (modified_prompt item)
                = Ok api_response)
    (usable : truthy api_response = true)
    (text : _get_content_from_response api_response = Ok (PStr (c :: s)))
    (unparsed : _parse_decision json_loads (PStr (c :: s)) = Ok None)
    (bound : driver_rejects
               (failure_result msg_parse_failed (PStr (slice_to 2000 (c :: s))))
             = None) :
  exists db' row',
    _process_and_save_item json_loads json_dumps str_lower driver_rejects
      call_llm item config system_prompt db = Ok db'
    /\ items db' !! item_id item = Some row'
    /\ i_status row' = IFailed
    /\ i_error_message row' = Some msg_parse_failed
    /\ i_new_reasoning row' = PStr (slice_to 2000 (c :: s))
    /\ same_decision_fields row' row
    /\ same_snapshot row' row
    /\ tasks db' = alter incr_failed (task_id item) (tasks db).
Proof.
  destruct (extract_reasoning_never_raises api_response) as [reasoning Hr].
  pose proof (worker_on_text json_loads json_dumps str_lower driver_rejects
                call_llm item config system_prompt db api_response c s
                reasoning answered usable text Hr) as Hw.
  rewrite unparsed in Hw. cbn [bind slice_method] in Hw.
  rewrite (save_with_raw_accepted driver_rejects item db _ c s bound) in Hw.
  cbn [try_except] in Hw.
  destruct (saved_item_and_counter (item_id item) (task_id item)
              (failure_result msg_parse_failed (PStr (slice_to 2000 (c :: s))))
              db row item_row) as [Hrow Htasks].
  eexists. eexists. split; [exact Hw|]. split; [exact Hrow|].
  repeat split; exact Htasks.
Qed.

Lemma worker_keeps_unparsed_content_witness :
  exists db' row',
    _process_and_save_item mini_loads mini_dumps ascii_lower strict_driver
      (fun _ _ _ => Ok (response_of [(u "content", PStr (u "I would hold."))]))
      dropped_item (config_of sample_account) default_system_prompt
      created_db = Ok db'
    /\ items db' !! 0 = Some row'
    /\ i_status row' = IFailed
    /\ i_error_message row' = Some msg_parse_failed
    /\ i_new_reasoning row' = PStr (slice_to 2000 (u "I would hold."))
    /\ same_decision_fields row'
         (new_item 0 sample_db (sample_log 7 "buy") (input 7 1))
    /\ same_snapshot row'
         (new_item 0 sample_db (sample_log 7 "buy") (input 7 1))
    /\ tasks db' = alter incr_failed 0 (tasks created_db).
Proof.
  exact (worker_keeps_unparsed_content mini_loads mini_dumps ascii_lower
           strict_driver
           (fun _ _ _ => Ok (response_of [(u "content", PStr (u "I would hold."))]))
           dropped_item (config_of sample_account) default_system_prompt
           created_db
           (new_item 0 sample_db (sample_log 7 "buy") (input 7 1))
           (response_of [(u "content", PStr (u "I would hold."))])
           73%N (u " would hold.")
           eq_refl eq_refl eq_refl eq_refl eq_refl eq_refl).
Defined.

(** X6.  A parsed decision whose operation classifies is saved as a
    success.  When the driver binds its values, the row is completed:
    operation, symbol and target portion are the decision's [operation],
    [symbol] and [target_portion_of_balance] entries ([None] when absent),
    [new_reasoning] is the provider's reasoning trace when there is one and
    the first 2000 code points of the content otherwise,
    [new_decision_json] is [json.dumps] of the decision with its attached
    [_reasoning], the changed flag and change type are as classified, the
    row's earlier [error_message] and its snapshot are left in place, and
    the task's [completed_count] is the only counter that moves. *)
Theorem worker_saves_parsed_decision
    (json_loads : pystr -> res pyval) (json_dumps : pyval -> pystr)
    (str_lower : pystr -> pystr)
    (driver_rejects : save_result -> option exn)
    (call_llm : llm) (item : item_data) (config : account_config)
    (system_prompt : pystr) (db : DB) (row : PromptBacktestItem)
    (api_response : pyval) (c : N) (s : pystr) (reasoning : pystr)
    (d : pydict) (change : bool * option pystr)
    (item_row : items db !! item_id item = Some row)
    (answered : call_llm config system_prompt (modified_prompt item)
                = Ok api_response)
    (usable : truthy api_response = true)
    (text : _get_content_from_response api_response = Ok (PStr (c :: s)))
    (trace : _extract_reasoning_from_response api_response = Ok reasoning)
    (parsed : _parse_decision json_loads (PStr (c :: s)) = Ok (Some d))
    (classified : classify_change str_lower (dict_get k_operation PNone d)
                    (original_operation item) = Ok change)
    (bound : driver_rejects
               (success_result
                  (dict_get k_operation PNone d)
                  (dict_get (u "symbol") PNone d)
                  (dict_get (u "target_portion_of_balance") PNone d)
                  (PStr (match reasoning with
                         | [] => slice_to 2000 (c :: s)
                         | _ :: _ => reasoning
                         end))
                  (json_dumps (PDict d)) (fst change) (snd change))
             = None) :
  exists db' row',
    _process_and_save_item json_loads json_dumps str_lower driver_rejects
      call_llm item config system_prompt db = Ok db'
    /\ items db' !! item_id item = Some row'
    /\ i_status row' = ICompleted
    /\ i_new_operation row' = dict_get k_operation PNone d
    /\ i_new_symbol row' = dict_get (u "symbol") PNone d
    /\ i_new_target_portion row'
       = dict_get (u "target_portion_of_balance") PNone d
    /\ i_new_reasoning row'
       = PStr (match reasoning with
               | [] => slice_to 2000 (c :: s)
               | _ :: _ => reasoning
               end)
    /\ i_new_decision_json row' = Some (json_dumps (PDict d))
    /\ dict_get k_reasoning PNone d = PStr (slice_to 2000 (c :: s))
    /\ i_decision_changed row' = Some (fst change)
    /\ i_change_type row' = snd change
    /\ i_error_message row' = i_error_message row
    /\ same_snapshot row' row
    /\ tasks db' = alter incr_completed (task_id item) (tasks db).
Proof.
  pose proof (worker_on_text json_loads json_dumps str_lower driver_rejects
                call_llm item config system_prompt db api_response c s
                reasoning answered usable text trace) as Hw.
  rewrite parsed in Hw. cbn [bind] in Hw.
  destruct (parse_result_is_attached json_loads (c :: s) d parsed)
    as (core & Hd).
  assert (Hne : d <> []) by (rewrite Hd; apply dict_set_not_empty).
  assert (Hreason : dict_get k_reasoning PNone d = PStr (slice_to 2000 (c :: s))).
  { rewrite Hd. unfold attach, dict_get. now rewrite dict_lookup_set_eq. }
  destruct d as [|entry more]; [congruence|].
  rewrite classified in Hw. cbn [bind] in Hw.
  set (final := match reasoning with
                | [] => slice_to 2000 (c :: s)
                | _ :: _ => reasoning
                end) in *.
  assert (Hfinal :
    (if truthy (PStr reasoning) then Ok (PStr reasoning)
     else slice_method 2000 (PStr (c :: s))) = Ok (PStr final)).
  { subst final. now destruct reasoning. }
  rewrite Hfinal in Hw. cbn [bind] in Hw.
  match type of bound with
  | driver_rejects ?r = None =>
      assert (Hbound : commit_error driver_rejects r = None) by exact bound;
      rewrite (save_accepted driver_rejects (item_id item) (task_id item) r db
                 Hbound) in Hw
  end.
  cbn [try_except] in Hw.
  match type of Hw with
  | _ = Ok (saved_store _ _ ?r _) =>
      destruct (saved_item_and_counter (item_id item) (task_id item) r db row
                  item_row) as [Hrow Htasks]
  end.
  eexists. eexists. split; [exact Hw|]. split; [exact Hrow|].
  repeat split; first [exact Htasks | exact Hreason].
Qed.

Lemma worker_saves_parsed_decision_witness :
  exists db' row',
    _process_and_save_item mini_loads mini_dumps ascii_lower strict_driver
      sample_llm dropped_item (config_of sample_account) default_system_prompt
      created_db = Ok db'
    /\ items db' !! 0 = Some row'
    /\ i_status row' = ICompleted
    /\ i_new_operation row' = PStr (u "hold")
    /\ i_new_symbol row' = PStr (u "BTC")
    /\ i_new_target_portion row' = PNone
    /\ i_new_reasoning row'
       = PStr (slice_to 2000 (fenced_json (decision_text "hold")))
    /\ i_new_decision_json row'
       = Some (mini_dumps
                 (PDict (attach (fenced_json (decision_text "hold"))
                           [(u "operation", PStr (u "hold"));
                            (u "symbol", PStr (u "BTC"))])))
    /\ dict_get k_reasoning PNone
         (attach (fenced_json (decision_text "hold"))
            [(u "operation", PStr (u "hold")); (u "symbol", PStr (u "BTC"))])
       = PStr (slice_to 2000 (fenced_json (decision_text "hold")))
    /\ i_decision_changed row' = Some true
    /\ i_change_type row' = Some (u "buy_to_hold")
    /\ i_error_message row' = None
    /\ same_snapshot row'
         (new_item 0 sample_db (sample_log 7 "buy") (input 7 1))
    /\ tasks db' = alter incr_completed 0 (tasks created_db).
Proof.
  exact (worker_saves_parsed_decision mini_loads mini_dumps ascii_lower
           strict_driver sample_llm dropped_item (config_of sample_account)
           default_system_prompt created_db
           (new_item 0 sample_db (sample_log 7 "buy") (input 7 1))
           (response_of [(u "content", PStr (fenced_json (decision_text "hold")))])
           96%N (List.tl (fenced_json (decision_text "hold"))) []
           (attach (fenced_json (decision_text "hold"))
              [(u "operation", PStr (u "hold")); (u "symbol", PStr (u "BTC"))])
           (true, Some (u "buy_to_hold"))
           eq_refl eq_refl eq_refl eq_refl eq_refl eq_refl eq_refl eq_refl).
Defined.

Lemma missing_lower_text (op : pyval) :
  is_str op = false ->
  slice_to 500 (slice_to 500 (exn_str (attribute_error op "lower")))
  = u "'" ++ type_name op ++ u "' object has no attribute 'lower'".
Proof. destruct op; intros H; try discriminate H; reflexivity. Qed.

(** X7.  A parsed decision whose [operation] is truthy but not a string
    makes [.lower()] raise inside the [try] block; the handler saves a
    failure with the text of the AttributeError and the first 2000 code
    points of the content.  When the driver binds that, the item is failed
    with the message "'<type>' object has no attribute 'lower'", the raw
    content is its [new_reasoning], and nothing of the decision reaches
    the row: its decision fields and snapshot stay as they were, and
    [failed_count] is the only counter that moves. *)
Theorem worker_fails_on_non_text_operation
    (json_loads : pystr -> res pyval) (json_dumps : pyval -> pystr)
    (str_lower : pystr -> pystr)
    (driver_rejects : save_result -> option exn)
    (call_llm : llm) (item : item_data) (config : account_config)
    (system_prompt : pystr) (db : DB) (row : PromptBacktestItem)
    (api_response : pyval) (c : N) (s : pystr) (d : pydict)
    (item_row : items db !! item_id item = Some row)
    (answered : call_llm config system_prompt (modified_prompt item)
                = Ok api_response)
    (usable : truthy api_response = true)
    (text : _get_content_from_response api_response = Ok (PStr (c :: s)))
    (parsed : _parse_decision json_loads (PStr (c :: s)) = Ok (Some d))
    (given : truthy (dict_get k_operation PNone d) = true)
    (not_text : is_str (dict_get k_operation PNone d) = false)
    (bound : driver_rejects
               (failure_result
                  (slice_to 500
                     (exn_str (attribute_error (dict_get k_operation PNone d)
                                 "lower")))
                  (PStr (slice_to 2000 (c :: s))))
             = None) :
  exists db' row',
    _process_and_save_item json_loads json_dumps str_lower driver_rejects
      call_llm item config system_prompt db = Ok db'
    /\ items db' !! item_id item = Some row'
    /\ i_status row' = IFailed
    /\ i_error_message row'
       = Some (u "'" ++ type_name (dict_get k_operation PNone d)
                 ++ u "' object has no attribute 'lower'")
    /\ i_new_reasoning row' = PStr (slice_to 2000 (c :: s))
    /\ same_decision_fields row' row
    /\ same_snapshot row' row
    /\ tasks db' = alter incr_failed (task_id item) (tasks db).
Proof.
  destruct (extract_reasoning_never_raises api_response) as [reasoning Hr].
  pose proof (worker_on_text json_loads json_dumps str_lower driver_rejects
                call_llm item config system_prompt db api_response c s
                reasoning answered usable text Hr) as Hw.
  rewrite parsed in Hw. cbn [bind] in Hw.
  destruct (parse_result_is_attached json_loads (c :: s) d parsed)
    as (core & Hd).
  assert (Hne : d <> []) by (rewrite Hd; apply dict_set_not_empty).
  destruct d as [|entry more]; [congruence|].
  set (op := dict_get k_operation PNone (entry :: more)) in *.
  assert (Hclass : classify_change str_lower op (original_operation item)
                   = Raise (attribute_error op "lower")).
  { unfold classify_change, py_or. rewrite given.
    destruct op; try discriminate not_text; reflexivity. }
  rewrite Hclass in Hw. cbn [bind try_except] in Hw.
  rewrite (save_with_raw_accepted driver_rejects item db _ c s bound) in Hw.
  match type of Hw with
  | _ = Ok (saved_store _ _ ?r _) =>
      destruct (saved_item_and_counter (item_id item) (task_id item) r db row
                  item_row) as [Hrow Htasks]
  end.
  eexists. eexists. split; [exact Hw|]. split; [exact Hrow|].
  split; [reflexivity|]. split.
  { cbn [saved_row failure_result r_success failed_row item_update
         i_error_message r_error].
    now rewrite (missing_lower_text op not_text). }
  split; [reflexivity|]. split; [repeat split|]. split; [repeat split|].
  exact Htasks.
Qed.

Lemma worker_fails_on_non_text_operation_witness :
  exists db' row',
    _process_and_save_item mini_loads mini_dumps ascii_lower strict_driver
      (fun _ _ _ =>
         Ok (response_of
               [(u "content", PStr (u "{" ++ quoted "operation" ++ u ": 5}"))]))
      dropped_item (config_of sample_account) default_system_prompt
      created_db = Ok db'
    /\ items db' !! 0 = Some row'
    /\ i_status row' = IFailed
    /\ i_error_message row'
       = Some (u "'int' object has no attribute 'lower'")
    /\ i_new_reasoning row'
       = PStr (slice_to 2000 (u "{" ++ quoted "operation" ++ u ": 5}"))
    /\ same_decision_fields row'
         (new_item 0 sample_db (sample_log 7 "buy") (input 7 1))
    /\ same_snapshot row'
         (new_item 0 sample_db (sample_log 7 "buy") (input 7 1))
    /\ tasks db' = alter incr_failed 0 (tasks created_db).
Proof.
  exact (worker_fails_on_non_text_operation mini_loads mini_dumps ascii_lower
           strict_driver
           (fun _ _ _ =>
              Ok (response_of
                    [(u "content", PStr (u "{" ++ quoted "operation" ++ u ": 5}"))]))
           dropped_item (config_of sample_account) default_system_prompt
           created_db
           (new_item 0 sample_db (sample_log 7 "buy") (input 7 1))
           (response_of
              [(u "content", PStr (u "{" ++ quoted "operation" ++ u ": 5}"))])
           123%N (List.tl (u "{" ++ quoted "operation" ++ u ": 5}"))
           (attach (u "{" ++ quoted "operation" ++ u ": 5}")
              [(u "operation", PInt 5)])
           eq_refl eq_refl eq_refl eq_refl eq_refl eq_refl eq_refl eq_refl).
Defined.

Section RejectedDecision.

Variable json_loads : pystr -> res pyval.
Variable json_dumps : pyval -> pystr.
Variable str_lower : pystr -> pystr.
Variable driver_rejects : save_result -> option exn.

Variables (call_llm : llm) (item : item_data) (config : account_config)
          (system_prompt : pystr) (db : DB) (row : PromptBacktestItem).

(** The worker on a parsed decision whose success result the driver
    rejects: what is left is the handler's own save. *)
Lemma worker_after_rejected_success
    (api_response : pyval) (c : N) (s : pystr) (reasoning : pystr)
    (d : pydict) (change : bool * option pystr) (e : exn) :
  items db !! item_id item = Some row ->
  call_llm config system_prompt (modified_prompt item) = Ok api_response ->
  truthy api_response = true ->
  _get_content_from_response api_response = Ok (PStr (c :: s)) ->
  _extract_reasoning_from_response api_response = Ok reasoning ->
  _parse_decision json_loads (PStr (c :: s)) = Ok (Some d) ->
  classify_change str_lower (dict_get k_operation PNone d)
    (original_operation item) = Ok change ->
  driver_rejects
    (success_result
       (dict_get k_operation PNone d) (dict_get (u "symbol") PNone d)
       (dict_get (u "target_portion_of_balance") PNone d)
       (PStr (match reasoning with
              | [] => slice_to 2000 (c :: s)
              | _ :: _ => reasoning
              end))
       (json_dumps (PDict d)) (fst change) (snd change)) = Some e ->
  _process_and_save_item json_loads json_dumps str_lower driver_rejects
    call_llm item config system_prompt db
  = _save_item_result driver_rejects (item_id item) (task_id item)
      (failure_result (slice_to 500 (exn_str e))
         (PStr (slice_to 2000 (c :: s)))) db.
Proof.
  intros item_row answered usable text trace parsed classified rejected.
  pose proof (worker_on_text json_loads json_dumps str_lower driver_rejects
                call_llm item config system_prompt db api_response c s
                reasoning answered usable text trace) as Hw.
  rewrite parsed in Hw. cbn [bind] in Hw.
  destruct (parse_result_is_attached json_loads (c :: s) d parsed)
    as (core & Hd).
  assert (Hne : d <> []) by (rewrite Hd; apply dict_set_not_empty).
  destruct d as [|entry more]; [congruence|].
  rewrite classified in Hw. cbn [bind] in Hw.
  set (final := match reasoning with
                | [] => slice_to 2000 (c :: s)
                | _ :: _ => reasoning
                end) in *.
  assert (Hfinal :
    (if truthy (PStr reasoning) then Ok (PStr reasoning)
     else slice_method 2000 (PStr (c :: s))) = Ok (PStr final)).
  { subst final. now destruct reasoning. }
  rewrite Hfinal in Hw. cbn [bind] in Hw.
  match type of rejected with
  | driver_rejects ?r = Some e =>
      assert (Hrej : commit_error driver_rejects r = Some e) by exact rejected;
      rewrite (save_rejected driver_rejects (item_id item) (task_id item) r db
                 row e item_row Hrej) in Hw
  end.
  exact Hw.
Qed.

End RejectedDecision.

(** X21.  A parsed decision whose values the driver rejects at the commit
    of the success result (a symbol that is a JSON object, say) reaches the
    handler with the driver's exception: the handler saves a failure with
    the first 500 code points of the exception's text and the first 2000
    of the content.  When the driver binds that, the item ends failed with
    this message, the raw content is its [new_reasoning], nothing of the
    decision is in the row, and [failed_count], not [completed_count], is
    incremented. *)
Theorem worker_fails_on_rejected_decision
    (json_loads : pystr -> res pyval) (json_dumps : pyval -> pystr)
    (str_lower : pystr -> pystr)
    (driver_rejects : save_result -> option exn)
    (call_llm : llm) (item : item_data) (config : account_config)
    (system_prompt : pystr) (db : DB) (row : PromptBacktestItem)
    (api_response : pyval) (c : N) (s : pystr) (reasoning : pystr)
    (d : pydict) (change : bool * option pystr) (e : exn)
    (item_row : items db !! item_id item = Some row)
    (answered : call_llm config system_prompt (modified_prompt item)
                = Ok api_response)
    (usable : truthy api_response = true)
    (text : _get_content_from_response api_response = Ok (PStr (c :: s)))
    (trace : _extract_reasoning_from_response api_response = Ok reasoning)
    (parsed : _parse_decision json_loads (PStr (c :: s)) = Ok (Some d))
    (classified : classify_change str_lower (dict_get k_operation PNone d)
                    (original_operation item) = Ok change)
    (rejected : driver_rejects
                  (success_result
                     (dict_get k_operation PNone d)
                     (dict_get (u "symbol") PNone d)
                     (dict_get (u "target_portion_of_balance") PNone d)
                     (PStr (match reasoning with
                            | [] => slice_to 2000 (c :: s)
                            | _ :: _ => reasoning
                            end))
                     (json_dumps (PDict d)) (fst change) (snd change))
                = Some e)
    (bound : driver_rejects
               (failure_result (slice_to 500 (exn_str e))
                  (PStr (slice_to 2000 (c :: s))))
             = None) :
  exists db' row',
    _process_and_save_item json_loads json_dumps str_lower driver_rejects
      call_llm item config system_prompt db = Ok db'
    /\ items db' !! item_id item = Some row'
    /\ i_status row' = IFailed
    /\ i_error_message row' = Some (slice_to 500 (exn_str e))
    /\ i_new_reasoning row' = PStr (slice_to 2000 (c :: s))
    /\ same_decision_fields row' row
    /\ same_snapshot row' row
    /\ tasks db' = alter incr_failed (task_id item) (tasks db).
Proof.
  pose proof (worker_after_rejected_success json_loads json_dumps str_lower
                driver_rejects call_llm item config system_prompt db row
                api_response c s reasoning d change e item_row answered usable
                text trace parsed classified rejected) as Hw.
  rewrite (save_with_raw_accepted driver_rejects item db _ c s bound) in Hw.
  match type of Hw with
  | _ = Ok (saved_store _ _ ?r _) =>
      destruct (saved_item_and_counter (item_id item) (task_id item) r db row
                  item_row) as [Hrow Htasks]
  end.
  eexists. eexists. split; [exact Hw|]. split; [exact Hrow|].
  split; [reflexivity|]. split.
  { cbn [saved_row failure_result r_success failed_row item_update
         i_error_message r_error].
    now rewrite slice_slice. }
  split; [reflexivity|]. split; [repeat split|]. split; [repeat split|].
  exact Htasks.
Qed.

Lemma worker_fails_on_rejected_decision_witness :
  exists db' row',
    _process_and_save_item mini_loads mini_dumps ascii_lower strict_driver
      nested_symbol_llm dropped_item (config_of sample_account)
      default_system_prompt created_db = Ok db'
    /\ items db' !! 0 = Some row'
    /\ i_status row' = IFailed
    /\ i_error_message row'
       = Some (u "Error binding parameter: type is not supported")
    /\ i_new_reasoning row' = PStr nested_symbol_text
    /\ same_decision_fields row'
         (new_item 0 sample_db (sample_log 7 "buy") (input 7 1))
    /\ same_snapshot row'
         (new_item 0 sample_db (sample_log 7 "buy") (input 7 1))
    /\ tasks db' = alter incr_failed 0 (tasks created_db).
Proof.
  exact (worker_fails_on_rejected_decision mini_loads mini_dumps ascii_lower
           strict_driver nested_symbol_llm dropped_item
           (config_of sample_account) default_system_prompt created_db
           (new_item 0 sample_db (sample_log 7 "buy") (input 7 1))
           (response_of [(u "content", PStr nested_symbol_text)])
           123%N (List.tl nested_symbol_text) []
           (attach nested_symbol_text
              [(u "operation", PStr (u "buy"));
               (u "symbol", PDict [(u "coin", PInt 1)])])
           (false, None) binding_error
           eq_refl eq_refl eq_refl eq_refl eq_refl eq_refl eq_refl eq_refl
           eq_refl).
Defined.

(** X22.  When the driver rejects the success result of a parsed decision
    and then the handler's own failure result as well, the handler's save,
    which no [try] encloses, lets the driver's second exception leave
    [_process_and_save_item]; nothing is written, and after the loop of
    [_process_items_realtime] has logged it the item row and the task's
    counters are as before: the item stays as it was. *)
Theorem worker_raises_when_both_saves_rejected
    (json_loads : pystr -> res pyval) (json_dumps : pyval -> pystr)
    (str_lower : pystr -> pystr)
    (driver_rejects : save_result -> option exn)
    (call_llm : llm) (item : item_data) (config : account_config)
    (system_prompt : pystr) (db : DB) (row : PromptBacktestItem)
    (api_response : pyval) (c : N) (s : pystr) (reasoning : pystr)
    (d : pydict) (change : bool * option pystr) (e e' : exn)
    (item_row : items db !! item_id item = Some row)
    (answered : call_llm config system_prompt (modified_prompt item)
                = Ok api_response)
    (usable : truthy api_response = true)
    (text : _get_content_from_response api_response = Ok (PStr (c :: s)))
    (trace : _extract_reasoning_from_response api_response = Ok reasoning)
    (parsed : _parse_decision json_loads (PStr (c :: s)) = Ok (Some d))
    (classified : classify_change str_lower (dict_get k_operation PNone d)
                    (original_operation item) = Ok change)
    (rejected : driver_rejects
                  (success_result
                     (dict_get k_operation PNone d)
                     (dict_get (u "symbol") PNone d)
                     (dict_get (u "target_portion_of_balance") PNone d)
                     (PStr (match reasoning with
                            | [] => slice_to 2000 (c :: s)
                            | _ :: _ => reasoning
                            end))
                     (json_dumps (PDict d)) (fst change) (snd change))
                = Some e)
    (rejected_again :
       driver_rejects
         (failure_result (slice_to 500 (exn_str e))
            (PStr (slice_to 2000 (c :: s))))
       = Some e') :
  _process_and_save_item json_loads json_dumps str_lower driver_rejects
    call_llm item config system_prompt db = Raise e'
  /\ resolve_item json_loads json_dumps str_lower driver_rejects call_llm
       config system_prompt db item = db.
Proof.
  pose proof (worker_after_rejected_success json_loads json_dumps str_lower
                driver_rejects call_llm item config system_prompt db row
                api_response c s reasoning d change e item_row answered usable
                text trace parsed classified rejected) as Hw.
  match type of rejected_again with
  | driver_rejects ?r = Some e' =>
      assert (Hrej : commit_error driver_rejects r = Some e')
        by exact rejected_again;
      rewrite (save_rejected driver_rejects (item_id item) (task_id item) r db
                 row e' item_row Hrej) in Hw
  end.
  split; [exact Hw|]. unfold resolve_item. now rewrite Hw.
Qed.

Lemma worker_raises_when_both_saves_rejected_witness :
  _process_and_save_item mini_loads mini_dumps ascii_lower nul_driver
    nul_llm dropped_item (config_of sample_account) default_system_prompt
    created_db = Raise nul_error
  /\ resolve_item mini_loads mini_dumps ascii_lower nul_driver nul_llm
       (config_of sample_account) default_system_prompt created_db
       dropped_item = created_db.
Proof.
  exact (worker_raises_when_both_saves_rejected mini_loads mini_dumps
           ascii_lower nul_driver nul_llm dropped_item
           (config_of sample_account) default_system_prompt created_db
           (new_item 0 sample_db (sample_log 7 "buy") (input 7 1))
           (response_of [(u "content", PStr nul_content)])
           0%N (fenced_json (decision_text "hold")) []
           (attach nul_content
              [(u "operation", PStr (u "hold")); (u "symbol", PStr (u "BTC"))])
           (true, Some (u "buy_to_hold")) nul_error nul_error
           eq_refl eq_refl eq_refl eq_refl eq_refl eq_refl eq_refl eq_refl
           eq_refl).
Defined.

(** ** Task coordinator *)

(** X8.  The system prompt of a run is never empty, and it is either the
    default prompt or the non-empty [system_template_text] of the template
    that the first binding of the account names with a non-zero id. *)
Theorem system_prompt_is_template_or_default (db : DB) (account_id : nat) :
  _get_system_prompt db account_id <> []
  /\ (_get_system_prompt db account_id = default_system_prompt
      \/ exists binding n template,
           find_binding account_id db = Some binding
           /\ bnd_prompt_template_id binding = Some (S n)
           /\ find_template (S n) db = Some template
           /\ tpl_system_template_text template
              = Some (_get_system_prompt db account_id))
  /\ (_get_system_prompt db account_id <> default_system_prompt ->
      forall db',
        find_binding account_id db' = find_binding account_id db ->
        templates db' = templates db ->
        _get_system_prompt db' account_id = _get_system_prompt db account_id).
Proof.
  unfold _get_system_prompt.
  destruct (find_binding account_id db) as [binding|] eqn:Eb.
  2:{ split; [discriminate|]. split; [now left|]. congruence. }
  destruct (bnd_prompt_template_id binding) as [[|n]|] eqn:Et.
  1,3: split; [discriminate|]; split; [now left|]; congruence.
  destruct (find_template (S n) db) as [template|] eqn:Ef.
  2:{ split; [discriminate|]. split; [now left|]. congruence. }
  destruct (tpl_system_template_text template) as [[|c text]|] eqn:Ex.
  1,3: split; [discriminate|]; split; [now left|]; congruence.
  split; [discriminate|]. split.
  - right. exists binding, n, template. now rewrite Ex.
  - intros _ db' Hb Ht. rewrite Hb, Et.
    unfold find_template in *. rewrite Ht, Ef, Ex. reflexivity.
Qed.

Lemma last_Forall {A} (P : A -> Prop) (l : list A) (d : A) :
  Forall P l -> P d -> P (List.last l d).
Proof.
  intros Hl Hd. induction Hl as [|x l Hx Hl IH]; [exact Hd|].
  destruct l as [|y l']; [exact Hx|]. exact IH.
Qed.

Lemma save_frame (id t : nat) (result : save_result) (db : DB) :
  (forall t', t' <> t ->
     tasks (saved_store id t result db) !! t' = tasks db !! t')
  /\ (forall i, i <> id ->
        items (saved_store id t result db) !! i = items db !! i).
Proof.
  destruct (items db !! id) as [row|] eqn:E.
  - rewrite (save_existing _ _ _ _ row E).
    cbn [tasks items with_tasks with_items]. split; intros k Hk.
    + apply list_lookup_alter_ne. congruence.
    + apply list_lookup_insert_ne. congruence.
  - destruct (save_missing_item id t result db E) as [_ ->]. now split.
Qed.

Section RunFrame.

Variable json_loads : pystr -> res pyval.
Variable json_dumps : pyval -> pystr.
Variable str_lower : pystr -> pystr.
Variable driver_rejects : save_result -> option exn.

Lemma resolve_frame (call_llm : llm) (config : account_config)
    (system_prompt : pystr) (db : DB) (d : item_data) :
  let db' := resolve_item json_loads json_dumps str_lower driver_rejects call_llm config
               system_prompt db d in
  (forall t', t' <> task_id d -> tasks db' !! t' = tasks db !! t')
  /\ (forall i, i <> item_id d -> items db' !! i = items db !! i)
  /\ accounts db' = accounts db /\ decision_logs db' = decision_logs db
  /\ templates db' = templates db /\ bindings db' = bindings db.
Proof.
  cbv zeta.
  destruct (resolve_item_cases json_loads json_dumps str_lower driver_rejects call_llm config
              system_prompt db d) as [->|[result ->]].
  - repeat split.
  - destruct (save_frame (item_id d) (task_id d) result db) as [Ht Hi].
    destruct (save_keeps_other_tables (item_id d) (task_id d) result db)
      as (Ha & Hl & Hp & Hb).
    repeat split; assumption.
Qed.

Lemma run_frame (call_llm : llm) (config : account_config)
    (system_prompt : pystr) (batch : list item_data) (db : DB) :
  Forall (fun s =>
            (forall t', (forall d, In d batch -> task_id d <> t') ->
               tasks s !! t' = tasks db !! t')
            /\ (forall i, (forall d, In d batch -> item_id d <> i) ->
                  items s !! i = items db !! i)
            /\ accounts s = accounts db /\ decision_logs s = decision_logs db
            /\ templates s = templates db /\ bindings s = bindings db)
         (_process_items_realtime json_loads json_dumps str_lower driver_rejects call_llm
            batch config system_prompt db).
Proof.
  revert db. induction batch as [|d batch IH]; intros db; [constructor|].
  cbn [_process_items_realtime].
  destruct (resolve_frame call_llm config system_prompt db d)
    as (Ht & Hi & Ha & Hl & Hp & Hb).
  constructor.
  - split; [|split].
    + intros t' H. apply Ht. intros E. apply (H d); [now left|easy].
    + intros i H. apply Hi. intros E. apply (H d); [now left|easy].
    + repeat split; assumption.
  - eapply Forall_impl; [apply IH|].
    intros s (Ht' & Hi' & Ha' & Hl' & Hp' & Hb'). split; [|split].
    + intros t' H. rewrite Ht'.
      * apply Ht. intros E. apply (H d); [now left|easy].
      * intros d' Hd'. apply H. now right.
    + intros i H. rewrite Hi'.
      * apply Hi. intros E. apply (H d); [now left|easy].
      * intros d' Hd'. apply H. now right.
    + repeat split; congruence.
Qed.

End RunFrame.

(** X9.  A run of [execute_backtest_task] for a task writes nothing but
    that task's row and the item rows that were pending rows of the task
    when the run started: after every commit of the run, every other task
    row, every item row of another task, every completed or failed item
    row of the task, and the account, decision log, template and binding
    tables are as they were.  The pool is assumed to hand back only items
    that were submitted to it. *)
Theorem run_writes_only_its_pending_rows
    (json_loads : pystr -> res pyval) (json_dumps : pyval -> pystr)
    (str_lower : pystr -> pystr)
    (driver_rejects : save_result -> option exn)
    (started stopped : Z) (completion : list item_data -> list item_data)
    (call_llm : llm) (tid : nat) (db : DB)
    (submitted : forall d,
       In d (completion (pending_items tid db)) ->
       In d (pending_items tid db)) :
  Forall (fun s =>
            (forall t', t' <> tid -> tasks s !! t' = tasks db !! t')
            /\ (forall i,
                  ~ (exists row,
                       items db !! i = Some row
                       /\ i_task_id row = tid /\ i_status row = IPending) ->
                  items s !! i = items db !! i)
            /\ accounts s = accounts db /\ decision_logs s = decision_logs db
            /\ templates s = templates db /\ bindings s = bindings db)
         (execute_backtest_task json_loads json_dumps str_lower driver_rejects started stopped
            completion call_llm tid db).
Proof.
  unfold execute_backtest_task.
  destruct (tasks db !! tid) as [task|]; [|constructor].
  cbv zeta.
  assert (Hbegin :
    (forall t', t' <> tid ->
       tasks (begin_task started tid db) !! t' = tasks db !! t')
    /\ items (begin_task started tid db) = items db).
  { split; [|reflexivity]. intros t' H. cbn [begin_task tasks with_tasks].
    apply list_lookup_alter_ne. congruence. }
  destruct Hbegin as [Hbt Hbi].
  assert (Hdb1 :
    (forall t', t' <> tid ->
       tasks (begin_task started tid db) !! t' = tasks db !! t')
    /\ (forall i,
          ~ (exists row,
               items db !! i = Some row
               /\ i_task_id row = tid /\ i_status row = IPending) ->
          items (begin_task started tid db) !! i = items db !! i)
    /\ accounts (begin_task started tid db) = accounts db
    /\ decision_logs (begin_task started tid db) = decision_logs db
    /\ templates (begin_task started tid db) = templates db
    /\ bindings (begin_task started tid db) = bindings db).
  { split; [exact Hbt|]. repeat split. }
  destruct (find_account (t_account_id task) (begin_task started tid db))
    as [account|].
  2:{ constructor; [exact Hdb1|]. constructor; [|constructor].
      split; [|repeat split].
      intros t' H. cbn [fail_task begin_task tasks with_tasks].
      rewrite !list_lookup_alter_ne by congruence. reflexivity. }
  change (pending_items tid (begin_task started tid db))
    with (pending_items tid db).
  set (batch := completion (pending_items tid db)) in *.
  set (resolved :=
         _process_items_realtime json_loads json_dumps str_lower driver_rejects call_llm batch
           (config_of account)
           (_get_system_prompt (begin_task started tid db) (acc_id account))
           (begin_task started tid db)).
  assert (Hbatch : forall d, In d batch ->
            task_id d = tid
            /\ exists row, items db !! item_id d = Some row
                 /\ i_task_id row = tid /\ i_status row = IPending).
  { intros d Hd. apply submitted in Hd.
    pose proof (pending_from_rows tid 0 (items db)) as Hrows.
    rewrite List.Forall_forall in Hrows.
    destruct (Hrows d Hd) as (Ht & k & row & Hk & Hrow & Hown & Hst).
    split; [exact Ht|]. exists row. rewrite Hk. now split. }
  assert (Hres :
    Forall (fun s =>
              (forall t', t' <> tid -> tasks s !! t' = tasks db !! t')
              /\ (forall i,
                    ~ (exists row,
                         items db !! i = Some row
                         /\ i_task_id row = tid /\ i_status row = IPending) ->
                    items s !! i = items db !! i)
              /\ accounts s = accounts db /\ decision_logs s = decision_logs db
              /\ templates s = templates db /\ bindings s = bindings db)
           resolved).
  { eapply Forall_impl;
      [exact (run_frame json_loads json_dumps str_lower driver_rejects call_llm
                (config_of account)
                (_get_system_prompt (begin_task started tid db) (acc_id account))
                batch (begin_task started tid db))|].
    intros s (Ht & Hi & Ha & Hl & Hp & Hb). split; [|split].
    - intros t' H. rewrite Ht; [now apply Hbt|].
      intros d Hd E. destruct (Hbatch d Hd) as [Hown _]. congruence.
    - intros i H. rewrite Hi; [now rewrite Hbi|].
      intros d Hd E. apply H. destruct (Hbatch d Hd) as [_ Hrow].
      now rewrite <- E.
    - repeat split; assumption. }
  constructor; [exact Hdb1|].
  apply Forall_app. split; [exact Hres|].
  constructor; [|constructor].
  pose proof (last_Forall _ resolved (begin_task started tid db) Hres Hdb1)
    as (Ht & Hi & Ha & Hl & Hp & Hb).
  split; [|split].
  - intros t' H. cbn [finalize_task tasks with_tasks].
    rewrite list_lookup_alter_ne by congruence. now apply Ht.
  - exact Hi.
  - repeat split; assumption.
Qed.

Lemma run_writes_only_its_pending_rows_witness :
  Forall (fun s =>
            (forall t', t' <> 0 -> tasks s !! t' = tasks created_db !! t')
            /\ (forall i,
                  ~ (exists row,
                       items created_db !! i = Some row
                       /\ i_task_id row = 0 /\ i_status row = IPending) ->
                  items s !! i = items created_db !! i)
            /\ accounts s = accounts created_db
            /\ decision_logs s = decision_logs created_db
            /\ templates s = templates created_db
            /\ bindings s = bindings created_db)
         sample_execution.
Proof.
  exact (run_writes_only_its_pending_rows mini_loads mini_dumps ascii_lower lenient_driver
           100 200 (fun l => l) sample_llm 0 created_db (fun d H => H)).
Defined.

(** ** Routes *)

Lemma find_log_id (id : nat) (db : DB) (l : AIDecisionLog) :
  find_log id db = Some l -> log_id l = id.
Proof.
  unfold find_log. intros H. apply List.find_some in H as [_ H].
  now apply Nat.eqb_eq.
Qed.

Lemma new_items_follow_inputs (tid : nat) (db : DB)
    (inputs : list BacktestItemInput) :
  let kept :=
    List.filter (fun input =>
                   match find_log (decision_log_id input) db with
                   | Some _ => true
                   | None => false
                   end) inputs in
  map i_original_decision_log_id (new_items tid db inputs)
  = map decision_log_id kept
  /\ map i_modified_prompt (new_items tid db inputs)
     = map in_modified_prompt kept.
Proof.
  cbv zeta. induction inputs as [|input rest [IH1 IH2]]; [now split|].
  cbn [new_items List.filter].
  destruct (find_log (decision_log_id input) db) as [l|] eqn:E.
  - cbn [map new_item i_original_decision_log_id i_modified_prompt].
    rewrite IH1, IH2, (find_log_id _ _ _ E). now split.
  - now split.
Qed.

Lemma new_items_snapshot (tid : nat) (db : DB) (inputs : list BacktestItemInput) :
  Forall (fun row =>
            i_task_id row = tid /\ i_status row = IPending
            /\ i_new_operation row = PNone /\ i_new_symbol row = PNone
            /\ i_new_target_portion row = PNone
            /\ i_new_reasoning row = PNone /\ i_new_decision_json row = None
            /\ i_decision_changed row = None /\ i_change_type row = None
            /\ i_error_message row = None
            /\ exists l,
                 find_log (i_original_decision_log_id row) db = Some l
                 /\ i_original_operation row = log_operation l
                 /\ i_original_symbol row = log_symbol l
                 /\ i_original_target_portion row = log_target_portion l
                 /\ i_original_reasoning row = log_reasoning_snapshot l
                 /\ i_original_decision_json row = log_decision_snapshot l
                 /\ i_original_realized_pnl row = log_realized_pnl l
                 /\ i_original_decision_time row = log_decision_time l
                 /\ i_original_prompt_template_name row
                    = match log_prompt_template_id l with
                      | Some (S n) =>
                          option_map tpl_name (find_template (S n) db)
                      | _ => None
                      end)
         (new_items tid db inputs).
Proof.
  induction inputs as [|input rest IH]; [constructor|].
  cbn [new_items].
  destruct (find_log (decision_log_id input) db) as [l|] eqn:E; [|exact IH].
  constructor; [|exact IH].
  repeat (split; [reflexivity|]).
  exists l. cbn [new_item i_original_decision_log_id].
  rewrite (find_log_id _ _ _ E), E.
  repeat (split; [reflexivity|]).
  unfold new_item. cbn [i_original_prompt_template_name].
  now destruct (log_prompt_template_id l) as [[|n]|].
Qed.

(** X10.  A task creation that answers creates the task under the next
    free id, pending, with zero counters, no timestamps, no error message
    and [total_count] equal to the number of inputs of the request, its
    wallet and environment taken from the decision log of the first input;
    it appends one pending item row for each input whose decision log
    exists, in the order of the request, carrying the input's modified
    prompt and the snapshot of that log (operation, symbol, target portion,
    reasoning, decision, realised PnL, decision time and the name of the
    log's prompt template), with every result field empty: new operation,
    symbol, target portion, reasoning and decision JSON, the changed flag,
    the change type and the error message; existing task and item rows and
    the other tables are not touched. *)
Theorem created_rows_follow_inputs
    (json_dumps : pyval -> pystr) (request : CreateTaskRequest) (db : DB)
    (body : create_response) (db' : DB)
    (created : create_backtest_task json_dumps request db = (Returns body, db')) :
  let kept :=
    List.filter (fun input =>
                   match find_log (decision_log_id input) db with
                   | Some _ => true
                   | None => false
                   end) (req_items request) in
  let first_log :=
    match req_items request with
    | first :: _ => find_log (decision_log_id first) db
    | [] => None
    end in
  cr_task_id body = length (tasks db)
  /\ cr_status body = TPending
  /\ cr_total_count body = length (req_items request)
  /\ exists task rows,
       tasks db' = tasks db ++ [task]
       /\ items db' = items db ++ rows
       /\ t_status task = TPending
       /\ t_total_count task = length (req_items request)
       /\ t_completed_count task = 0 /\ t_failed_count task = 0
       /\ t_account_id task = req_account_id request
       /\ t_name task = req_name request
       /\ t_wallet_address task
          = match first_log with
            | Some l => log_wallet_address l
            | None => None
            end
       /\ t_environment task
          = match first_log with
            | Some l => log_hyperliquid_environment l
            | None => None
            end
       /\ t_started_at task = None /\ t_finished_at task = None
       /\ t_error_message task = None
       /\ map i_original_decision_log_id rows = map decision_log_id kept
       /\ map i_modified_prompt rows = map in_modified_prompt kept
       /\ Forall (fun row =>
                    i_task_id row = length (tasks db) /\ i_status row = IPending
                    /\ i_new_operation row = PNone /\ i_new_symbol row = PNone
                    /\ i_new_target_portion row = PNone
                    /\ i_new_reasoning row = PNone
                    /\ i_new_decision_json row = None
                    /\ i_decision_changed row = None
                    /\ i_change_type row = None
                    /\ i_error_message row = None
                    /\ exists l,
                         find_log (i_original_decision_log_id row) db = Some l
                         /\ i_original_operation row = log_operation l
                         /\ i_original_symbol row = log_symbol l
                         /\ i_original_target_portion row
                            = log_target_portion l
                         /\ i_original_reasoning row
                            = log_reasoning_snapshot l
                         /\ i_original_decision_json row
                            = log_decision_snapshot l
                         /\ i_original_realized_pnl row = log_realized_pnl l
                         /\ i_original_decision_time row
                            = log_decision_time l
                         /\ i_original_prompt_template_name row
                            = match log_prompt_template_id l with
                              | Some (S n) =>
                                  option_map tpl_name
                                    (find_template (S n) db)
                              | _ => None
                              end)
                 rows
       /\ accounts db' = accounts db /\ decision_logs db' = decision_logs db
       /\ templates db' = templates db /\ bindings db' = bindings db.
Proof.
  cbv zeta. unfold create_backtest_task in created.
  destruct (find_account (req_account_id request) db); [|discriminate].
  injection created as <- <-.
  cbn [cr_task_id cr_status cr_total_count].
  split; [reflexivity|]. split; [reflexivity|]. split; [reflexivity|].
  exists (new_task json_dumps request db),
         (new_items (length (tasks db)) db (req_items request)).
  destruct (new_items_follow_inputs (length (tasks db)) db (req_items request))
    as [Hlogs Hprompts].
  repeat (split; [reflexivity|]).
  split; [exact Hlogs|]. split; [exact Hprompts|].
  split; [apply new_items_snapshot|]. repeat split.
Qed.

Lemma created_rows_follow_inputs_witness :
  exists task rows,
    tasks dropped_db1 = tasks sample_db ++ [task]
    /\ items dropped_db1 = items sample_db ++ rows
    /\ t_total_count task = 2
    /\ map i_original_decision_log_id rows = [7]
    /\ map i_modified_prompt rows = [u "prompt 1"].
Proof.
  destruct (created_rows_follow_inputs mini_dumps dropping_request sample_db
              {| cr_task_id := 0; cr_status := TPending; cr_total_count := 2 |}
              dropped_db1 eq_refl)
    as (_ & _ & _ & task & rows & Ht & Hi & _ & Htot & _ & _ & _ & _ & _
        & _ & _ & _ & _ & Hlogs & Hprompts & _).
  exists task, rows. repeat split; assumption.
Defined.

Lemma in_pending_from (tid i : nat) (rows : list PromptBacktestItem)
    (d : item_data) :
  In d (pending_from tid i rows) <->
  exists k row,
    rows !! k = Some row /\ item_in tid IPending row = true
    /\ d = {| item_id := i + k; task_id := tid;
              modified_prompt := i_modified_prompt row;
              original_operation := i_original_operation row |}.
Proof.
  revert i. induction rows as [|row rows IH]; intros i; cbn [pending_from].
  - split; [intros []|]. intros (k & row & H & _). destruct k; discriminate H.
  - destruct (item_in tid IPending row) eqn:E.
    + cbn [In]. rewrite IH. split.
      * intros [<-|(k & r & Hk & Hr & ->)].
        -- exists 0, row. rewrite Nat.add_0_r. now repeat split.
        -- exists (S k), r. repeat split; [exact Hk|exact Hr|].
           f_equal. lia.
      * intros (k & r & Hk & Hr & ->). destruct k as [|k].
        -- left. injection Hk as <-. now rewrite Nat.add_0_r.
        -- right. exists k, r. repeat split; [exact Hk|exact Hr|].
           f_equal. lia.
    + rewrite IH. split.
      * intros (k & r & Hk & Hr & ->). exists (S k), r.
        repeat split; [exact Hk|exact Hr|]. f_equal. lia.
      * intros (k & r & Hk & Hr & ->). destruct k as [|k].
        -- injection Hk as <-. congruence.
        -- exists k, r. repeat split; [exact Hk|exact Hr|]. f_equal. lia.
Qed.

Lemma item_in_true (tid : nat) (s : item_status) (row : PromptBacktestItem) :
  item_in tid s row = true <-> i_task_id row = tid /\ i_status row = s.
Proof.
  unfold item_in. rewrite andb_true_iff, Nat.eqb_eq, item_status_eqb_eq.
  reflexivity.
Qed.

(** X11.  After an accepted retry, the run that was queued dispatches
    exactly the rows of the task that were failed or still pending before
    the retry, each with its stored modified prompt and original
    operation; a completed row is never dispatched again. *)
Theorem retry_redispatches_failed_rows
    (tid : nat) (db : DB) (body : retry_response) (db' : DB)
    (retried : retry_failed_items tid db = (Returns body, db'))
    (accepted : rr_success body = true) :
  forall d,
    In d (pending_items tid db') <->
    exists row,
      items db !! item_id d = Some row
      /\ i_task_id row = tid
      /\ (i_status row = IFailed \/ i_status row = IPending)
      /\ task_id d = tid
      /\ modified_prompt d = i_modified_prompt row
      /\ original_operation d = i_original_operation row.
Proof.
  destruct (retried_db_shape tid db db' body retried accepted) as (_ & _ & ->).
  intros d. unfold pending_items. cbn [items with_tasks with_items].
  rewrite in_pending_from. split.
  - intros (k & row' & Hk & Hp & ->). rewrite lookup_map in Hk.
    destruct (items db !! k) as [row|] eqn:Ek; [|discriminate].
    injection Hk as <-. cbn [item_id task_id modified_prompt original_operation].
    exists row. rewrite item_in_reset_if_failed in Hp.
    unfold reset_if_failed.
    destruct (item_in tid IFailed row) eqn:Ef.
    + apply item_in_true in Ef as [Hown Hst]. repeat split; auto.
    + apply item_in_true in Hp as [Hown Hst]. repeat split; auto.
  - intros (row & Hrow & Hown & Hst & Ht & Hm & Ho).
    exists (item_id d), (reset_if_failed tid row). split; [|split].
    + now rewrite lookup_map, Hrow.
    + rewrite item_in_reset_if_failed.
      destruct (item_in tid IFailed row) eqn:Ef.
      * rewrite Hown, Nat.eqb_refl. reflexivity.
      * apply item_in_true. split; [exact Hown|].
        destruct Hst as [Hst|Hst]; [|exact Hst].
        exfalso. assert (item_in tid IFailed row = true)
          by (now apply item_in_true). congruence.
    + destruct d as [di dt dm doo]. cbn in Ht, Hm, Ho |- *. subst dt dm doo.
      unfold reset_if_failed. now destruct (item_in tid IFailed row).
Qed.

(** X12.  A retry repeated right after an accepted retry finds nothing to
    do: it answers "No failed items to retry" with retry count 0, queues no
    run and leaves the store as the first retry committed it. *)
Theorem second_retry_finds_nothing
    (tid : nat) (db : DB) (body : retry_response) (db' : DB)
    (retried : retry_failed_items tid db = (Returns body, db'))
    (accepted : rr_success body = true) :
  retry_failed_items tid db'
  = (Returns {| rr_success := false;
                rr_message := u "No failed items to retry";
                rr_retry_count := 0 |}, db').
Proof.
  destruct (retried_db_shape tid db db' body retried accepted)
    as ((task & Htask & _) & _ & Hdb').
  assert (Hrow : tasks db' !! tid = Some (reset_task task)).
  { rewrite Hdb'. cbn [tasks with_tasks with_items].
    rewrite list_lookup_alter, Htask.
    destruct (decide (tid = tid)); [reflexivity|congruence]. }
  assert (Hnone : List.filter (item_in tid IFailed) (items db') = []).
  { apply count_zero_filter. rewrite Hdb'. cbn [items with_tasks with_items].
    apply count_failed_after_reset. }
  unfold retry_failed_items. rewrite Hrow.
  cbn [reset_task task_update t_status task_status_eqb]. now rewrite Hnone.
Qed.

Lemma retry_redispatches_failed_rows_witness :
  In {| item_id := 1; task_id := 0; modified_prompt := u "prompt 2";
        original_operation := Some (u "sell") |}
     (pending_items 0 (snd (retry_failed_items 0 finished_db)))
  <-> exists row,
        items finished_db !! 1 = Some row
        /\ i_task_id row = 0
        /\ (i_status row = IFailed \/ i_status row = IPending)
        /\ 0 = 0
        /\ u "prompt 2" = i_modified_prompt row
        /\ Some (u "sell") = i_original_operation row.
Proof.
  apply (retry_redispatches_failed_rows 0 finished_db
           {| rr_success := true; rr_message := u "Retrying 1 failed items";
              rr_retry_count := 1 |}
           (snd (retry_failed_items 0 finished_db))
           ltac:(vm_compute; reflexivity) eq_refl
           {| item_id := 1; task_id := 0; modified_prompt := u "prompt 2";
              original_operation := Some (u "sell") |}).
Defined.

Lemma second_retry_finds_nothing_witness :
  retry_failed_items 0 (snd (retry_failed_items 0 finished_db))
  = (Returns {| rr_success := false;
                rr_message := u "No failed items to retry";
                rr_retry_count := 0 |},
     snd (retry_failed_items 0 finished_db)).
Proof.
  apply (second_retry_finds_nothing 0 finished_db
           {| rr_success := true; rr_message := u "Retrying 1 failed items";
              rr_retry_count := 1 |});
    [vm_compute; reflexivity|reflexivity].
Defined.

Lemma filter_status_count (tid : nat) (s : item_status)
    (rows : list PromptBacktestItem) :
  length (List.filter (has_status s) (List.filter (item_of tid) rows))
  = count (item_in tid s) rows.
Proof.
  induction rows as [|row rows IH]; [reflexivity|].
  cbn [List.filter count]. unfold item_in at 1, item_of at 1.
  destruct (Nat.eqb (i_task_id row) tid); cbn [andb List.filter].
  - unfold has_status at 1.
    destruct (item_status_eqb (i_status row) s); cbn [length]; now rewrite IH.
  - exact IH.
Qed.

Lemma filter_partition {A} (p : A -> bool) (l : list A) :
  length (List.filter p l) + length (List.filter (fun x => negb (p x)) l)
  = length l.
Proof.
  induction l as [|x l IH]; [reflexivity|].
  cbn [List.filter]. destruct (p x); cbn [negb length]; lia.
Qed.

(** X13.  The counts of the result summary add up: changed and unchanged
    split the completed rows, whatever [decision_changed] holds (a missing
    flag counts as unchanged), and completed, failed and pending rows of
    the task make up [total], the number of the task's item rows. *)
Theorem summary_counts_add_up (tid : nat) (db : DB) :
  let c := result_counts tid db in
  s_changed c + s_unchanged c = s_completed c
  /\ s_completed c + s_failed c + count (item_in tid IPending) (items db)
     = s_total c
  /\ s_total c = count (item_of tid) (items db)
  /\ s_completed c = count (item_in tid ICompleted) (items db)
  /\ s_failed c = count (item_in tid IFailed) (items db).
Proof.
  cbv zeta. unfold result_counts.
  cbn [s_changed s_unchanged s_completed s_failed s_total].
  rewrite filter_partition, !filter_status_count, length_filter_count.
  pose proof (count_by_status tid (items db)). repeat split; lia.
Qed.



(** ** Engine *)



(** X23.  Retry requests for one task that overlap break the bound on
    the counters.  [retry_failed_items] reads the task and its failed rows
    and writes later, under no lock: two requests that both read the one
    failed row of a finished task before either commits each queue a run,
    the second commit resets the row the first run has completed, and the
    second run completes it again.  The task ends completed with
    [completed_count] 2 against [total_count] 1. *)
Theorem overlapping_retries_overrun_total :
  reachable mini_loads mini_dumps ascii_lower lenient_driver sample_db
    {| w_db := race_db12; w_runs := [] |}
  /\ option_map (fun t => (t_status t, t_total_count t, t_completed_count t,
                           t_failed_count t))
                (tasks race_db12 !! 0)
     = Some (TCompleted, 1, 2, 0)
  /\ map i_status (items race_db12) = [ICompleted]
  /\ ~ retries_apart
         {| w_db := race_db4; w_runs := [Retrying 0 [0]; Retrying 0 [0]] |}.
Proof.
  assert (Hrun : forall db1 db2 db3 db4 now now' task after,
    db2 = begin_task now 0 db1 ->
    db3 = resolve_item mini_loads mini_dumps ascii_lower lenient_driver
            holding_llm (config_of sample_account) default_system_prompt
            db2 race_item ->
    db4 = finalize_task now' 0 db3 ->
    tasks db1 !! 0 = Some task ->
    tasks db2 !! 0 = Some (mark_running now task) ->
    t_account_id task = 1 ->
    find_account 1 db2 = Some sample_account ->
    _get_system_prompt db2 1 = default_system_prompt ->
    pending_items 0 db2 = [race_item] ->
    reachable mini_loads mini_dumps ascii_lower lenient_driver sample_db
      {| w_db := db1; w_runs := Queued 0 :: after |} ->
    reachable mini_loads mini_dumps ascii_lower lenient_driver sample_db
      {| w_db := db4; w_runs := after |}).
  { intros db1 db2 db3 db4 now now' task after -> -> -> Ht Ht' Hacc Hfind
      Hprompt Hpending Hreach.
    apply (reach_step _ _ _ _ _
             {| w_db := resolve_item mini_loads mini_dumps ascii_lower
                          lenient_driver holding_llm (config_of sample_account)
                          default_system_prompt (begin_task now 0 db1)
                          race_item;
                w_runs := [] ++ Dispatched 0 (config_of sample_account)
                                  default_system_prompt [] :: after |});
      [|exact (step_finalize _ _ _ _ now' 0 _ _ _ [] after)].
    apply (reach_step _ _ _ _ _
             {| w_db := begin_task now 0 db1;
                w_runs := [] ++ Dispatched 0 (config_of sample_account)
                                  default_system_prompt ([] ++ race_item :: [])
                                :: after |});
      [|exact (step_item _ _ _ _ holding_llm 0 _ _ [] race_item []
                 (begin_task now 0 db1) [] after)].
    apply (reach_step _ _ _ _ _
             {| w_db := begin_task now 0 db1;
                w_runs := [] ++ Started 0 :: after |}).
    2:{ rewrite <- Hprompt, <- Hpending.
        apply (step_dispatch _ _ _ _ 0 (mark_running now task) sample_account
                 (begin_task now 0 db1) [] after Ht').
        change (find_account (t_account_id task) (begin_task now 0 db1)
                = Some sample_account).
        now rewrite Hacc. }
    apply (reach_step _ _ _ _ _
             {| w_db := db1; w_runs := [] ++ Queued 0 :: after |});
      [exact Hreach|].
    exact (step_begin _ _ _ _ now 0 task db1 [] after Ht). }
  split; [|split; [reflexivity|split; [reflexivity|]]].
  - apply (Hrun race_db9 race_db10 race_db11 race_db12 500%Z 600%Z
             (reset_task (mark_completed 400
                (incr_completed
                   (mark_running 300
                      (reset_task
                         (mark_completed 200
                            (incr_failed
                               (mark_running 100
                                  (new_task mini_dumps
                                     (sample_request [input 8 2])
                                     sample_db))))))))) []);
      try reflexivity.
    apply (reach_step _ _ _ _ _
             {| w_db := race_db8; w_runs := [] ++ Retrying 0 [0] :: [] |});
      [|exact (step_retry_commit _ _ _ _ 0 [0] race_db8 [] [])].
    apply (Hrun race_db5 race_db6 race_db7 race_db8 300%Z 400%Z
             (reset_task
                (mark_completed 200
                   (incr_failed
                      (mark_running 100
                         (new_task mini_dumps (sample_request [input 8 2])
                            sample_db))))) [Retrying 0 [0]]);
      try reflexivity.
    apply (reach_step _ _ _ _ _
             {| w_db := race_db4;
                w_runs := [] ++ Retrying 0 [0] :: [Retrying 0 [0]] |});
      [|exact (step_retry_commit _ _ _ _ 0 [0] race_db4 [] [Retrying 0 [0]])].
    apply (reach_step _ _ _ _ _
             {| w_db := race_db4; w_runs := [Retrying 0 [0]] |}).
    2:{ apply (step_retry_query _ _ _ _ 0
                 (mark_completed 200
                    (incr_failed
                       (mark_running 100
                          (new_task mini_dumps (sample_request [input 8 2])
                             sample_db))))
                 race_db4 [Retrying 0 [0]]);
          [reflexivity|discriminate|discriminate]. }
    apply (reach_step _ _ _ _ _ {| w_db := race_db4; w_runs := [] |}).
    2:{ apply (step_retry_query _ _ _ _ 0
                 (mark_completed 200
                    (incr_failed
                       (mark_running 100
                          (new_task mini_dumps (sample_request [input 8 2])
                             sample_db))))
                 race_db4 []);
          [reflexivity|discriminate|discriminate]. }
    apply (reach_step _ _ _ _ _
             {| w_db := race_db3;
                w_runs := [Dispatched 0 (config_of sample_account)
                             default_system_prompt []] |});
      [|exact (step_finalize _ _ _ _ 200 0 _ _ race_db3 [] [])].
    apply (reach_step _ _ _ _ _
             {| w_db := race_db2;
                w_runs := [Dispatched 0 (config_of sample_account)
                             default_system_prompt [race_item]] |});
      [|exact (step_item _ _ _ _ sample_llm 0 _ _ [] race_item []
                 race_db2 [] [])].
    apply (reach_step _ _ _ _ _ {| w_db := race_db2; w_runs := [Started 0] |});
      [|exact (step_dispatch _ _ _ _ 0
                 (mark_running 100
                    (new_task mini_dumps (sample_request [input 8 2]) sample_db))
                 sample_account race_db2 [] [] eq_refl eq_refl)].
    apply (reach_step _ _ _ _ _ {| w_db := race_db1; w_runs := [Queued 0] |});
      [|exact (step_begin _ _ _ _ 100 0
                 (new_task mini_dumps (sample_request [input 8 2]) sample_db)
                 race_db1 [] [] eq_refl)].
    apply (reach_step _ _ _ _ _ {| w_db := sample_db; w_runs := [] |});
      [apply reach_init|].
    exact (step_create _ _ _ _ (sample_request [input 8 2]) sample_db
             {| cr_task_id := 0; cr_status := TPending; cr_total_count := 1 |}
             race_db1 [] eq_refl).
  - unfold retries_apart. cbn. intros H.
    apply NoDup_cons_1_1 in H. apply H. now left.
Qed.

(** ** Model invoker *)

Section InvokerFacts.

Variable str_lower : pystr -> pystr.
Variable get_max_tokens : pystr -> Z.
Variable build_chat_completion_endpoints : pystr -> pystr -> list pystr.
Variable post :
  pystr -> list (pystr * pystr) -> pydict -> nat -> res http_response.

Lemma endpoint_outcome (endpoint : pystr) (headers : list (pystr * pystr))
    (payload : pydict) (timeout : nat) :
  (exists data,
     try_except (try_endpoint post endpoint headers payload timeout)
       (fun _ => Ok None) = Ok (Some data)
     /\ endpoint_answers post headers payload timeout endpoint data)
  \/ (try_except (try_endpoint post endpoint headers payload timeout)
        (fun _ => Ok None) = Ok None
      /\ forall data,
           ~ endpoint_answers post headers payload timeout endpoint data).
Proof.
  unfold try_endpoint, endpoint_answers.
  destruct (post endpoint headers payload timeout) as [response|ex];
    cbn [bind try_except].
  2:{ right. split; [reflexivity|]. intros data (r & d & H & _). discriminate H. }
  destruct (Nat.eqb (resp_status_code response) 200) eqn:Es.
  2:{ right. split; [reflexivity|].
      intros data (r & d & H & Hs & _). injection H as H. subst r.
      apply Nat.eqb_neq in Es. contradiction. }
  apply Nat.eqb_eq in Es.
  destruct (resp_json response) as [data|ex] eqn:Ej; cbn [bind try_except].
  2:{ right. split; [reflexivity|].
      intros data (r & d & H & _ & Hj & _). injection H as H. subst r.
      rewrite Ej in Hj. discriminate Hj. }
  destruct data as [| | | | |l|d]; cbn [get_method bind try_except];
    try (right; split; [reflexivity|];
         intros data' (r & d' & H & _ & Hj & Hd & _); injection H as H; subst r;
         rewrite Ej in Hj; injection Hj as Hj; subst data'; discriminate Hd).
  destruct (truthy (dict_get k_choices (PList []) d)) eqn:Et.
  - left. exists (PDict d). split; [reflexivity|].
    exists response, d. repeat split; assumption.
  - right. split; [reflexivity|].
    intros data' (r & d' & H & _ & Hj & Hd & Ht). injection H as H. subst r.
    rewrite Ej in Hj. injection Hj as Hj. subst data'. injection Hd as Hd.
    subst d'. congruence.
Qed.

Lemma endpoints_loop (endpoints : list pystr) (headers : list (pystr * pystr))
    (payload : pydict) (timeout : nat) :
  match try_endpoints post endpoints headers payload timeout with
  | (Some data, posted) =>
      exists before endpoint rest,
        endpoints = before ++ endpoint :: rest
        /\ posted = before ++ [endpoint]
        /\ endpoint_answers post headers payload timeout endpoint data
        /\ forall e data',
             In e before ->
             ~ endpoint_answers post headers payload timeout e data'
  | (None, posted) =>
      posted = endpoints
      /\ forall e data',
           In e endpoints ->
           ~ endpoint_answers post headers payload timeout e data'
  end.
Proof.
  induction endpoints as [|endpoint rest IH]; cbn [try_endpoints].
  - split; [reflexivity|]. intros e data' [].
  - destruct (endpoint_outcome endpoint headers payload timeout)
      as [(data & -> & Ha)|(-> & Hn)].
    + exists [], endpoint, rest. repeat split; [exact Ha|]. intros e data' [].
    + destruct (try_endpoints post rest headers payload timeout)
        as [[data|] posted].
      * destruct IH as (before & e & rest' & -> & -> & Ha & Hb).
        exists (endpoint :: before), e, rest'. repeat split; [exact Ha|].
        intros e' data' [<-|Hin]; [apply Hn|now apply Hb].
      * destruct IH as [-> Hb]. split; [reflexivity|].
        intros e' data' [<-|Hin]; [apply Hn|now apply Hb].
Qed.

End InvokerFacts.

(** X16.  What the request carries depends on the model family only
    through the lower-cased model name: [temperature] 0.7 is sent exactly
    to models without a reasoning marker; the token limit goes under
    [max_completion_tokens] for reasoning models and gpt-4o models and under
    [max_tokens] for all others, never under both; a reasoning model gets a
    timeout of 240 seconds, any other model 120; the model name and the two
    messages are sent as given. *)
Theorem payload_follows_model_family
    (str_lower : pystr -> pystr) (get_max_tokens : pystr -> Z)
    (model system_prompt user_prompt : pystr) :
  let payload :=
    request_payload str_lower get_max_tokens model system_prompt user_prompt in
  let reasoning := is_reasoning_model str_lower model in
  let gpt4o := py_in (u "gpt-4o") (str_lower model) in
  dict_lookup k_temperature payload
  = (if reasoning then None else Some temperature_0_7)
  /\ dict_lookup k_max_completion_tokens payload
     = (if reasoning || gpt4o then Some (PInt (get_max_tokens model)) else None)
  /\ dict_lookup k_max_tokens payload
     = (if reasoning || gpt4o then None else Some (PInt (get_max_tokens model)))
  /\ request_timeout str_lower model = (if reasoning then 240 else 120)
  /\ dict_lookup (u "model") payload = Some (PStr model)
  /\ dict_lookup (u "messages") payload
     = Some (PList [PDict [(u "role", PStr (u "system"));
                           (u "content", PStr system_prompt)];
                    PDict [(u "role", PStr (u "user"));
                           (u "content", PStr user_prompt)]])
  /\ length payload = (if reasoning then 3 else 4).
Proof.
  cbv zeta. unfold request_payload, request_timeout, is_new_model.
  destruct (is_reasoning_model str_lower model);
    destruct (py_in (u "gpt-4o") (str_lower model));
    repeat split; reflexivity.
Qed.

(** X17.  The endpoints are tried in order and the first that answers
    wins: when [_call_llm_with_config] returns data, that data is the JSON
    object, with truthy [choices], of the first endpoint that answered with
    status 200, requests were sent to the endpoints up to that one and to
    none after it, and the data is truthy; when it returns [None], a
    request was sent to every endpoint once and none answered.  Exceptions
    of the transport and of [response.json()] count as no answer. *)
Theorem first_answering_endpoint_wins
    (str_lower : pystr -> pystr) (get_max_tokens : pystr -> Z)
    (build_chat_completion_endpoints : pystr -> pystr -> list pystr)
    (post : pystr -> list (pystr * pystr) -> pydict -> nat -> res http_response)
    (config : account_config) (system_prompt user_prompt : pystr) :
  let endpoints :=
    build_chat_completion_endpoints (base_url config) (model config) in
  let answers :=
    endpoint_answers post (request_headers config)
      (request_payload str_lower get_max_tokens (model config) system_prompt
         user_prompt)
      (request_timeout str_lower (model config)) in
  let posted :=
    snd (call_llm_trace str_lower get_max_tokens
           build_chat_completion_endpoints post config system_prompt
           user_prompt) in
  exists returned,
    _call_llm_with_config str_lower get_max_tokens
      build_chat_completion_endpoints post config system_prompt user_prompt
    = Ok returned
    /\ ((returned = PNone
         /\ posted = endpoints
         /\ forall e data, In e endpoints -> ~ answers e data)
        \/ (truthy returned = true
            /\ exists before endpoint rest,
                 endpoints = before ++ endpoint :: rest
                 /\ posted = before ++ [endpoint]
                 /\ answers endpoint returned
                 /\ forall e data, In e before -> ~ answers e data)).
Proof.
  cbv zeta. unfold _call_llm_with_config, call_llm_trace.
  destruct (build_chat_completion_endpoints (base_url config) (model config))
    as [|endpoint rest] eqn:Eb.
  - exists PNone. split; [reflexivity|]. left.
    repeat split. intros e data [].
  - pose proof (endpoints_loop post (endpoint :: rest) (request_headers config)
                  (request_payload str_lower get_max_tokens (model config)
                     system_prompt user_prompt)
                  (request_timeout str_lower (model config))) as H.
    destruct (try_endpoints post (endpoint :: rest) (request_headers config)
                (request_payload str_lower get_max_tokens (model config)
                   system_prompt user_prompt)
                (request_timeout str_lower (model config)))
      as [[data|] posted].
    + exists data. split; [reflexivity|]. right.
      destruct H as (before & e & rest' & Hl & Hp & Ha & Hb).
      split.
      * destruct Ha as (response & d & _ & _ & _ & -> & Ht).
        destruct d as [|entry d]; [discriminate Ht|reflexivity].
      * exists before, e, rest'. repeat split; assumption.
    + exists PNone. split; [reflexivity|]. left.
      destruct H as [Hp Hb]. repeat split; assumption.
Qed.

(** X18.  When no endpoint answers, whatever the reason (a refused
    connection, a timeout, a status other than 200, a body that is not
    JSON or has no choices), the item is failed with the message
    "LLM call failed - no response": the cause is logged only and never
    reaches the row. *)
Theorem silent_transport_fails_item
    (json_loads : pystr -> res pyval) (json_dumps : pyval -> pystr)
    (str_lower : pystr -> pystr)
    (driver_rejects : save_result -> option exn) (get_max_tokens : pystr -> Z)
    (build_chat_completion_endpoints : pystr -> pystr -> list pystr)
    (post : pystr -> list (pystr * pystr) -> pydict -> nat -> res http_response)
    (item : item_data) (config : account_config) (system_prompt : pystr)
    (db : DB) (row : PromptBacktestItem)
    (item_row : items db !! item_id item = Some row)
    (silent : forall e data,
       In e (build_chat_completion_endpoints (base_url config) (model config)) ->
       ~ endpoint_answers post (request_headers config)
           (request_payload str_lower get_max_tokens (model config)
              system_prompt (modified_prompt item))
           (request_timeout str_lower (model config)) e data) :
  exists db' row',
    _process_and_save_item json_loads json_dumps str_lower driver_rejects
      (_call_llm_with_config str_lower get_max_tokens
         build_chat_completion_endpoints post)
      item config system_prompt db = Ok db'
    /\ items db' !! item_id item = Some row'
    /\ i_status row' = IFailed
    /\ i_error_message row' = Some msg_no_response
    /\ i_new_reasoning row' = i_new_reasoning row
    /\ tasks db' = alter incr_failed (task_id item) (tasks db).
Proof.
  assert (Hcall :
    _call_llm_with_config str_lower get_max_tokens
      build_chat_completion_endpoints post config system_prompt
      (modified_prompt item) = Ok PNone).
  { unfold _call_llm_with_config, call_llm_trace.
    destruct (build_chat_completion_endpoints (base_url config) (model config))
      as [|endpoint rest] eqn:Eb; [reflexivity|].
    pose proof (endpoints_loop post (endpoint :: rest) (request_headers config)
                  (request_payload str_lower get_max_tokens (model config)
                     system_prompt (modified_prompt item))
                  (request_timeout str_lower (model config))) as H.
    destruct (try_endpoints post (endpoint :: rest) (request_headers config)
                (request_payload str_lower get_max_tokens (model config)
                   system_prompt (modified_prompt item))
                (request_timeout str_lower (model config)))
      as [[data|] posted]; [|reflexivity].
    destruct H as (before & e & rest' & Hl & _ & Ha & _).
    exfalso. apply (silent e data); [|exact Ha].
    rewrite Hl. apply in_or_app. right. now left. }
  pose proof (worker_without_answer json_loads json_dumps str_lower driver_rejects _ item
                config system_prompt db PNone Hcall eq_refl) as Hw.
  destruct (saved_item_and_counter (item_id item) (task_id item)
              (failure_result msg_no_response PNone) db row item_row)
    as [Hrow Htasks].
  eexists. eexists. split; [exact Hw|]. split; [exact Hrow|].
  repeat split; exact Htasks.
Qed.

Lemma silent_transport_fails_item_witness :
  exists db' row',
    _process_and_save_item mini_loads mini_dumps ascii_lower lenient_driver
      (_call_llm_with_config ascii_lower (fun _ => 4096%Z) sample_endpoints
         refusing_post)
      dropped_item (config_of sample_account) default_system_prompt
      created_db = Ok db'
    /\ items db' !! 0 = Some row'
    /\ i_status row' = IFailed
    /\ i_error_message row' = Some msg_no_response
    /\ i_new_reasoning row' = PNone
    /\ tasks db' = alter incr_failed 0 (tasks created_db).
Proof.
  apply (silent_transport_fails_item mini_loads mini_dumps ascii_lower lenient_driver
           (fun _ => 4096%Z) sample_endpoints refusing_post dropped_item
           (config_of sample_account) default_system_prompt created_db
           (new_item 0 sample_db (sample_log 7 "buy") (input 7 1)) eq_refl).
  intros e data _ (response & d & H & _). discriminate H.
Defined.

(** ** Decision parser: indexing after a split is safe *)

Lemma split_go_not_empty (sep : pystr) (skip : nat) (s : pystr) :
  1 <= length (split_go sep skip s).
Proof.
  revert skip. induction s as [|c s IH]; intros skip; cbn [split_go].
  - cbn. lia.
  - destruct skip as [|k]; [|apply IH].
    destruct (is_prefix sep (c :: s)); [cbn [length]; lia|].
    destruct (split_go sep 0 s); cbn [length]; lia.
Qed.

Lemma split_go_finds (sep : pystr) (skip : nat) (s : pystr) :
  sep <> [] ->
  py_in sep (skipn skip s) = true ->
  2 <= length (split_go sep skip s).
Proof.
  intros Hsep. revert skip. induction s as [|c s IH]; intros skip Hin.
  - rewrite skipn_nil in Hin. destruct sep; [congruence|discriminate Hin].
  - cbn [split_go]. destruct skip as [|k]; [|apply IH; exact Hin].
    cbn [skipn] in Hin.
    destruct (is_prefix sep (c :: s)) eqn:Ep.
    + pose proof (split_go_not_empty sep (length sep - 1) s).
      cbn [length]. lia.
    + rewrite py_in_cons, Ep in Hin. cbn [orb] in Hin.
      specialize (IH 0 Hin).
      destruct (split_go sep 0 s); cbn [length] in *; lia.
Qed.

Lemma nth_part_in_range (i : nat) (parts : list pystr) :
  i < length parts -> exists p, nth_part i parts = Ok p.
Proof.
  intros H. unfold nth_part.
  destruct (nth_error parts i) eqn:E; [eauto|].
  apply nth_error_None in E. lia.
Qed.

Lemma fenced_parts (sep cleaned : pystr) :
  sep <> [] ->
  py_in sep cleaned = true ->
  exists inside,
    (let* after := nth_part 1 (py_split sep cleaned) in
     let* inside := nth_part 0 (py_split fence after) in
     Ok (py_strip inside)) = Ok inside.
Proof.
  intros Hsep Hin.
  destruct (nth_part_in_range 1 (py_split sep cleaned)) as [after ->].
  { pose proof (split_go_finds sep 0 cleaned Hsep Hin). unfold py_split. lia. }
  cbn [bind].
  destruct (nth_part_in_range 0 (py_split fence after)) as [inside ->].
  { pose proof (split_go_not_empty fence 0 after). unfold py_split. lia. }
  cbn [bind]. eauto.
Qed.

Lemma extract_fenced_never_raises (cleaned : pystr) :
  exists working, extract_fenced cleaned = Ok working.
Proof.
  unfold extract_fenced.
  destruct (py_in fence_json cleaned) eqn:Ej.
  - apply fenced_parts; [discriminate|exact Ej].
  - destruct (py_in fence cleaned) eqn:Ef; [|eauto].
    apply fenced_parts; [discriminate|exact Ef].
Qed.

(** X19.  On a string, nothing but [json.loads] can make
    [_parse_decision] raise: after a fence was found, [parts[1]] of the
    split at the fence and [parts[0]] of the split of the rest always
    exist, so a working text is always reached; an exception that leaves
    the parser is one that [json.loads] raised on the working text, or
    after a [JSONDecodeError] on the cleaned-up text, and it is not a
    [JSONDecodeError]; two [JSONDecodeError]s give [None]; a returned
    decision is the shape resolution of the value that was loaded.  On
    the empty string the result is [None] without any load.  With a
    [json.loads] that raises nothing but [JSONDecodeError] the parser
    never raises. *)
Theorem parse_raises_only_from_loads
    (json_loads : pystr -> res pyval) (response : pystr) :
  (response = [] -> _parse_decision json_loads (PStr response) = Ok None)
  /\ (response <> [] ->
      exists working,
        extract_fenced (py_strip response) = Ok working
        /\ (forall e,
              _parse_decision json_loads (PStr response) = Raise e ->
              is_decode_error e = false
              /\ (json_loads working = Raise e
                  \/ decode_fails json_loads working
                     /\ json_loads (cleanup working) = Raise e))
        /\ (decode_fails json_loads working ->
            decode_fails json_loads (cleanup working) ->
            _parse_decision json_loads (PStr response) = Ok None)
        /\ (forall decision,
              json_loads working = Ok decision
              \/ decode_fails json_loads working
                 /\ json_loads (cleanup working) = Ok decision ->
              _parse_decision json_loads (PStr response)
              = Ok (resolve_shape response decision)))
  /\ ((forall s e, json_loads s = Raise e -> is_decode_error e = true) ->
      exists outcome, _parse_decision json_loads (PStr response) = Ok outcome).
Proof.
  destruct response as [|c r].
  { split; [reflexivity|]. split; [congruence|]. intros _. now exists None. }
  destruct (extract_fenced_never_raises (py_strip (c :: r))) as [working Hw].
  assert (Hparse :
    _parse_decision json_loads (PStr (c :: r))
    = (let* loaded := load_with_retry json_loads working in
       match loaded with
       | Strict d | AfterCleanup d => Ok (resolve_shape (c :: r) d)
       | ParseFailed => Ok None
       end)).
  { unfold _parse_decision. cbn [truthy negb]. unfold parse_decision_str.
    rewrite Hw. reflexivity. }
  rewrite Hparse. unfold load_with_retry, decode_fails.
  split; [congruence|]. split.
  - intros _. exists working. split; [exact Hw|].
    destruct (json_loads working) as [decision|e1] eqn:E1.
    + cbn [bind]. split; [discriminate|]. split.
      * intros (e & He & _). discriminate He.
      * intros d [[= <-]|[(e & He & _) _]]; [reflexivity|discriminate He].
    + destruct (is_decode_error e1) eqn:D1.
      * destruct (json_loads (cleanup working)) as [decision|e2] eqn:E2.
        -- cbn [bind]. split; [discriminate|]. split.
           ++ intros _ (e & He & _). discriminate He.
           ++ intros d [[=]|[_ [= <-]]]. reflexivity.
        -- destruct (is_decode_error e2) eqn:D2; cbn [bind].
           ++ split; [discriminate|]. split; [reflexivity|].
              intros d [[=]|[_ [=]]].
           ++ split.
              ** intros e [= <-]. split; [exact D2|]. right.
                 split; [exists e1; now split|reflexivity].
              ** split.
                 --- intros _ (e & [= <-] & He). congruence.
                 --- intros d [[=]|[_ [=]]].
      * cbn [bind]. split.
        -- intros e [= <-]. split; [exact D1|]. now left.
        -- split.
           ++ intros (e & [= <-] & He). congruence.
           ++ intros d [[=]|[(e & [= <-] & He) _]]. congruence.
  - intros Honly.
    destruct (json_loads working) as [decision|e1] eqn:E1;
      [cbn [bind]; eauto|].
    rewrite (Honly _ _ E1).
    destruct (json_loads (cleanup working)) as [decision|e2] eqn:E2;
      [cbn [bind]; eauto|].
    rewrite (Honly _ _ E2). cbn [bind]. eauto.
Qed.

Section TextContent.

Variable json_loads : pystr -> res pyval.
Variable json_dumps : pyval -> pystr.
Variable str_lower : pystr -> pystr.
Variable driver_rejects : save_result -> option exn.

Variables (call_llm : llm) (item : item_data) (config : account_config)
          (system_prompt : pystr) (db : DB).

Hypothesis text : forall api_response,
  call_llm config system_prompt (modified_prompt item) = Ok api_response ->
  truthy api_response = true ->
  exists s, _get_content_from_response api_response = Ok (PStr s).

(** With a string as content the handler's slice cannot raise: the only
    exception that leaves the worker is the driver's, from the handler's
    own save. *)
Lemma worker_raises_from_handler_save (e' : exn) :
  _process_and_save_item json_loads json_dumps str_lower driver_rejects
    call_llm item config system_prompt db = Raise e' ->
  exists e raw,
    driver_rejects (failure_result (slice_to 500 (exn_str e)) raw) = Some e'
    /\ (raw = PNone \/ exists s, raw = PStr (slice_to 2000 s)).
Proof.
  assert (Hsave : forall e raw,
    _save_item_result driver_rejects (item_id item) (task_id item)
      (failure_result (slice_to 500 (exn_str e)) raw) db = Raise e' ->
    driver_rejects (failure_result (slice_to 500 (exn_str e)) raw) = Some e').
  { intros e raw H.
    destruct (save_outcome driver_rejects (item_id item) (task_id item)
                (failure_result (slice_to 500 (exn_str e)) raw) db)
      as [H'|(e'' & Hce & H')]; rewrite H' in H; [discriminate|].
    injection H as ->. now apply commit_error_from_driver. }
  unfold _process_and_save_item, process_item_try.
  destruct (call_llm config system_prompt (modified_prompt item))
    as [api_response|e] eqn:Ec; cbn [try_except bind].
  2:{ intros H. exists e, PNone. split; [now apply Hsave|now left]. }
  destruct (truthy api_response) eqn:Ta; cbn [negb].
  2:{ rewrite (save_literal driver_rejects (item_id item) (task_id item)
                 (failure_result msg_no_response PNone) db eq_refl).
      discriminate. }
  destruct (text api_response eq_refl Ta) as [s ->].
  match goal with |- try_except ?b _ = _ -> _ => destruct b as [db'|e] end;
    cbn [try_except]; [discriminate|].
  destruct s as [|c s]; cbn [truthy slice_method bind]; intros H.
  - exists e, PNone. split; [now apply Hsave|now left].
  - exists e, (PStr (slice_to 2000 (c :: s))).
    split; [now apply Hsave|right; now exists (c :: s)].
Qed.

End TextContent.

(** X20.  When the provider call raises, returns nothing, or returns a
    response whose extracted content is a string, the worker has two
    outcomes only.  Either it returns and leaves the item resolved: the row
    is completed or failed, no other item row changes, exactly the matching
    counter of the task is incremented, and a failure carries a message of
    at most 500 characters.  Or the driver rejects the handler's own
    failure result, whose save no [try] encloses: the worker raises the
    driver's exception and nothing is written.  With a driver that binds
    every failure result the worker always returns. *)
Theorem text_content_resolves_unless_save_rejected
    (json_loads : pystr -> res pyval) (json_dumps : pyval -> pystr)
    (str_lower : pystr -> pystr)
    (driver_rejects : save_result -> option exn)
    (call_llm : llm) (item : item_data) (config : account_config)
    (system_prompt : pystr) (db : DB) (row : PromptBacktestItem)
    (item_row : items db !! item_id item = Some row)
    (text : forall api_response,
       call_llm config system_prompt (modified_prompt item) = Ok api_response ->
       truthy api_response = true ->
       exists s, _get_content_from_response api_response = Ok (PStr s)) :
  let out :=
    _process_and_save_item json_loads json_dumps str_lower driver_rejects
      call_llm item config system_prompt db in
  ((exists db' row',
      out = Ok db'
      /\ items db' !! item_id item = Some row'
      /\ (forall i, i <> item_id item -> items db' !! i = items db !! i)
      /\ (forall t, t <> task_id item -> tasks db' !! t = tasks db !! t)
      /\ ((i_status row' = ICompleted
           /\ tasks db' = alter incr_completed (task_id item) (tasks db)
           /\ i_error_message row' = i_error_message row)
          \/ (i_status row' = IFailed
              /\ tasks db' = alter incr_failed (task_id item) (tasks db)
              /\ exists message,
                   i_error_message row' = Some message
                   /\ length message <= 500)))
   \/ (exists e' e raw,
         out = Raise e'
         /\ driver_rejects (failure_result (slice_to 500 (exn_str e)) raw)
            = Some e'
         /\ (raw = PNone \/ exists s, raw = PStr (slice_to 2000 s))
         /\ resolve_item json_loads json_dumps str_lower driver_rejects
              call_llm config system_prompt db item = db))
  /\ ((forall message raw,
         driver_rejects (failure_result message raw) = None) ->
      exists db', out = Ok db').
Proof.
  cbv zeta.
  assert (Hcases :
    (exists db' row',
       _process_and_save_item json_loads json_dumps str_lower driver_rejects
         call_llm item config system_prompt db = Ok db'
       /\ items db' !! item_id item = Some row'
       /\ (forall i, i <> item_id item -> items db' !! i = items db !! i)
       /\ (forall t, t <> task_id item -> tasks db' !! t = tasks db !! t)
       /\ ((i_status row' = ICompleted
            /\ tasks db' = alter incr_completed (task_id item) (tasks db)
            /\ i_error_message row' = i_error_message row)
           \/ (i_status row' = IFailed
               /\ tasks db' = alter incr_failed (task_id item) (tasks db)
               /\ exists message,
                    i_error_message row' = Some message
                    /\ length message <= 500)))
    \/ (exists e' e raw,
          _process_and_save_item json_loads json_dumps str_lower
            driver_rejects call_llm item config system_prompt db = Raise e'
          /\ driver_rejects (failure_result (slice_to 500 (exn_str e)) raw)
             = Some e'
          /\ (raw = PNone \/ exists s, raw = PStr (slice_to 2000 s))
          /\ resolve_item json_loads json_dumps str_lower driver_rejects
               call_llm config system_prompt db item = db)).
  { destruct (worker_cases json_loads json_dumps str_lower driver_rejects
                call_llm item config system_prompt db)
      as [[e' He]|[result Hres]].
    - right.
      destruct (worker_raises_from_handler_save json_loads json_dumps
                  str_lower driver_rejects call_llm item config system_prompt
                  db text e' He) as (e & raw & Hrej & Hraw).
      exists e', e, raw. split; [exact He|]. split; [exact Hrej|].
      split; [exact Hraw|]. unfold resolve_item. now rewrite He.
    - left.
      destruct (saved_item_and_counter (item_id item) (task_id item) result db
                  row item_row) as [Hrow Htasks].
      destruct (save_frame (item_id item) (task_id item) result db)
        as [Hft Hfi].
      eexists. eexists. split; [exact Hres|]. split; [exact Hrow|].
      split; [exact Hfi|]. split; [exact Hft|].
      rewrite Htasks. unfold saved_row, bump.
      destruct (r_success result).
      + left. repeat split.
      + right. split; [reflexivity|]. split; [reflexivity|].
        eexists. split; [reflexivity|].
        unfold slice_to. apply List.firstn_le_length. }
  split; [exact Hcases|].
  intros Hbind.
  destruct Hcases as [(db' & _ & Hok & _)|(e' & e & raw & _ & Hrej & _)].
  - now exists db'.
  - rewrite Hbind in Hrej. discriminate.
Qed.

Lemma text_content_resolves_unless_save_rejected_witness :
  let out :=
    _process_and_save_item mini_loads mini_dumps ascii_lower strict_driver
      nested_symbol_llm dropped_item (config_of sample_account)
      default_system_prompt created_db in
  ((exists db' row',
      out = Ok db'
      /\ items db' !! 0 = Some row'
      /\ (forall i, i <> 0 -> items db' !! i = items created_db !! i)
      /\ (forall t, t <> 0 -> tasks db' !! t = tasks created_db !! t)
      /\ ((i_status row' = ICompleted
           /\ tasks db' = alter incr_completed 0 (tasks created_db)
           /\ i_error_message row' = None)
          \/ (i_status row' = IFailed
              /\ tasks db' = alter incr_failed 0 (tasks created_db)
              /\ exists message,
                   i_error_message row' = Some message
                   /\ length message <= 500)))
   \/ (exists e' e raw,
         out = Raise e'
         /\ strict_driver (failure_result (slice_to 500 (exn_str e)) raw)
            = Some e'
         /\ (raw = PNone \/ exists s, raw = PStr (slice_to 2000 s))
         /\ resolve_item mini_loads mini_dumps ascii_lower strict_driver
              nested_symbol_llm (config_of sample_account)
              default_system_prompt created_db dropped_item = created_db))
  /\ ((forall message raw,
         strict_driver (failure_result message raw) = None) ->
      exists db', out = Ok db').
Proof.
  apply (text_content_resolves_unless_save_rejected mini_loads mini_dumps
           ascii_lower strict_driver nested_symbol_llm dropped_item
           (config_of sample_account) default_system_prompt created_db
           (new_item 0 sample_db (sample_log 7 "buy") (input 7 1)) eq_refl).
  intros api_response H _. exists nested_symbol_text.
  change (Ok (response_of [(u "content", PStr nested_symbol_text)])
          = Ok api_response) in H.
  injection H as <-. reflexivity.
Defined.
